(** * turnkey-copilot: the rule-based analysis engine

    A shallow embedding of the document classifier of
    [src/commands/check.ts] and of the three evaluators of
    [src/services/config.ts], [src/services/policy.ts] and
    [src/services/transaction.ts], over a model of the JavaScript values
    that [JSON5.parse] produces, followed by the properties of the
    specification proved (or refuted) on that embedding. *)

From Stdlib Require Import String Ascii List Bool Arith ZArith Lia DecimalString.
From Stdlib Require QArith.
Import ListNotations.
Local Open Scope string_scope.
Local Open Scope list_scope.
Set Warnings "-register-all".

(** ** JavaScript values *)

(** A JavaScript number: every IEEE double is [NaN], an infinity or a
    rational (the two zeros are not told apart: the program only tests
    numbers for truthiness, compares them and prints them). *)
Inductive number : Type :=
| NaN
| Infinity (negative : bool)
| Finite (q : QArith_base.Q).

Definition number_of_Z (z : Z) : number := Finite (QArith_base.inject_Z z).
Definition number_of_nat (n : nat) : number := number_of_Z (Z.of_nat n).

(** [x < y] on numbers; a comparison with [NaN] is false. *)
Definition number_ltb (x y : number) : bool :=
  match x, y with
  | NaN, _ | _, NaN => false
  | Infinity nx, Infinity ny => nx && negb ny
  | Infinity nx, Finite _ => nx
  | Finite _, Infinity ny => negb ny
  | Finite p, Finite q =>
      (QArith_base.Qnum p * Z.pos (QArith_base.Qden q)
       <? QArith_base.Qnum q * Z.pos (QArith_base.Qden p))%Z
  end.

Definition number_is_zero (x : number) : bool :=
  match x with
  | Finite q => (QArith_base.Qnum q =? 0)%Z
  | _ => false
  end.

(** The values a parsed document is made of, with [Undefined] for what a
    property read answers when the property is absent.  An object is the
    table of its own properties; [lookup] takes the first entry of a key.
    The only inherited properties are those of the built-in prototypes.  A
    string is the sequence of its code units, each taken in one byte. *)
Inductive value : Type :=
| Undefined
| Null
| Boolean (b : bool)
| Number (n : number)
| Str (s : string)
| Array (elements : list value)
| Object (properties : list (string * value)).

Fixpoint lookup (key : string) (properties : list (string * value)) : option value :=
  match properties with
  | [] => None
  | (k, v) :: rest => if String.eqb key k then Some v else lookup key rest
  end.

Definition has_own (key : string) (properties : list (string * value)) : bool :=
  match lookup key properties with Some _ => true | None => false end.

(** The value of property [key] of an object, [Undefined] when absent. *)
Definition field (properties : list (string * value)) (key : string) : value :=
  match lookup key properties with Some v => v | None => Undefined end.

(** ** Exceptions *)

Variant error : Type := TypeError.

Inductive outcome (A : Type) : Type :=
| Returns (a : A)
| Throws (e : error).
Arguments Returns {A} a.
Arguments Throws {A} e.

Definition bind {A B : Type} (m : outcome A) (f : A -> outcome B) : outcome B :=
  match m with
  | Returns a => f a
  | Throws e => Throws e
  end.

Notation "x <- m ;; k" := (bind m (fun x => k))
  (at level 61, m at next level, right associativity).

(** [a && b] and [a || b] of JavaScript: [b] is evaluated only when needed. *)
Definition and_then (a b : outcome bool) : outcome bool :=
  x <- a ;; if x then b else Returns false.
Definition or_else (a b : outcome bool) : outcome bool :=
  x <- a ;; if x then Returns true else b.
Definition not_ (a : outcome bool) : outcome bool :=
  x <- a ;; Returns (negb x).

Infix "&&&" := and_then (at level 40, left associativity).
Infix "|||" := or_else (at level 50, left associativity).

(** ** Operators and built-in methods, on arbitrary values *)

(** [!!v]. *)
Definition truthy (v : value) : bool :=
  match v with
  | Undefined | Null => false
  | Boolean b => b
  | Number NaN => false
  | Number n => negb (number_is_zero n)
  | Str s => negb (String.eqb s EmptyString)
  | Array _ | Object _ => true
  end.

(** [v.key], for the field names the program reads: none of them is an
    index, [length], or a name that a built-in prototype defines, so
    arrays and primitives answer [Undefined]. *)
Definition get_field (v : value) (key : string) : outcome value :=
  match v with
  | Undefined | Null => Throws TypeError
  | Object properties => Returns (field properties key)
  | _ => Returns Undefined
  end.

(** ['key' in v], for the same field names: a [TypeError] on a primitive. *)
Definition js_in (key : string) (v : value) : outcome bool :=
  match v with
  | Object properties => Returns (has_own key properties)
  | Array _ => Returns false
  | _ => Throws TypeError
  end.

(** [v.length]. *)
Definition js_length (v : value) : outcome value :=
  match v with
  | Undefined | Null => Throws TypeError
  | Str s => Returns (Number (number_of_nat (String.length s)))
  | Array l => Returns (Number (number_of_nat (List.length l)))
  | Object properties => Returns (field properties "length")
  | _ => Returns Undefined
  end.

(** [v === s] for a string [s]. *)
Definition strict_eq_string (v : value) (s : string) : bool :=
  match v with
  | Str s' => String.eqb s' s
  | _ => false
  end.

(** [v === 0]. *)
Definition strict_eq_zero (v : value) : bool :=
  match v with
  | Number n => number_is_zero n
  | _ => false
  end.

(** [v === undefined]. *)
Definition is_undefined (v : value) : bool :=
  match v with Undefined => true | _ => false end.

Fixpoint starts_with (p s : string) : bool :=
  match p, s with
  | EmptyString, _ => true
  | String a p', String b s' => Ascii.eqb a b && starts_with p' s'
  | String _ _, EmptyString => false
  end.

(** [s.includes(needle)] on strings. *)
Fixpoint string_includes (needle s : string) : bool :=
  starts_with needle s ||
  match s with
  | EmptyString => false
  | String _ s' => string_includes needle s'
  end.

(** [v.includes(needle)]: [String.prototype.includes] on a string,
    [Array.prototype.includes] on an array, and a [TypeError] on every other
    value, which has no callable [includes]. *)
Definition js_includes (v : value) (needle : string) : outcome bool :=
  match v with
  | Str s => Returns (string_includes needle s)
  | Array l => Returns (existsb (fun x => strict_eq_string x needle) l)
  | _ => Throws TypeError
  end.

(** [v.startsWith(p)]: strings only. *)
Definition js_startsWith (v : value) (p : string) : outcome bool :=
  match v with
  | Str s => Returns (starts_with p s)
  | _ => Throws TypeError
  end.

Fixpoint drop (n : nat) (s : string) : string :=
  match n, s with
  | S n', String _ s' => drop n' s'
  | _, _ => s
  end.

(** [v.replace(/^http:\/\//, '')]: strings only. *)
Definition js_replace_http (v : value) : outcome string :=
  match v with
  | Str s => Returns (if starts_with "http://" s then drop 7 s else s)
  | _ => Throws TypeError
  end.

Definition is_hex_digit (c : ascii) : bool :=
  let n := nat_of_ascii c in
  ((48 <=? n) && (n <=? 57) || (65 <=? n) && (n <=? 70) || (97 <=? n) && (n <=? 102))%nat.

Fixpoint all_hex (s : string) : bool :=
  match s with
  | EmptyString => true
  | String c s' => is_hex_digit c && all_hex s'
  end.

(** [/^[0-9a-f]+$/i]. *)
Definition matches_hex (s : string) : bool :=
  match s with
  | EmptyString => false
  | _ => all_hex s
  end.

(** [/^0x[0-9a-f]+$/i]. *)
Definition matches_0x_hex (s : string) : bool :=
  match s with
  | String c0 (String c1 rest) =>
      Ascii.eqb c0 "0" && (Ascii.eqb c1 "x" || Ascii.eqb c1 "X") && matches_hex rest
  | _ => false
  end.

(** ** String literals of the source *)

Definition double_quote : ascii := ascii_of_nat 34.
Definition line_feed : ascii := ascii_of_nat 10.

(** Reads a literal written with the escapes [\n] (line feed) and [\x22]
    (the double quote), as JavaScript reads them. *)
Fixpoint js (s : string) : string :=
  match s with
  | EmptyString => EmptyString
  | String "\" (String "n" rest) => String line_feed (js rest)
  | String "\" (String "x" (String "2" (String "2" rest))) => String double_quote (js rest)
  | String c rest => String c (js rest)
  end.
Arguments js : simpl never.

(** ** The analysis result and the pushes that build it *)

Record AnalysisResult : Type := {
  issues : list string;
  suggestions : list string
}.

(** The evaluators only ever append to their two arrays, so a run is
    described by its pushes in program order; each array is the
    projection of that history. *)
Variant push : Type :=
| Issue (text : string)
| Suggestion (text : string).

Definition trace : Type := list push.

Fixpoint issues_of (t : trace) : list string :=
  match t with
  | [] => []
  | Issue s :: t' => s :: issues_of t'
  | Suggestion _ :: t' => issues_of t'
  end.

Fixpoint suggestions_of (t : trace) : list string :=
  match t with
  | [] => []
  | Issue _ :: t' => suggestions_of t'
  | Suggestion s :: t' => s :: suggestions_of t'
  end.

(** [return { issues, suggestions }]. *)
Definition result_of (t : trace) : AnalysisResult :=
  {| issues := issues_of t; suggestions := suggestions_of t |}.

(** A statement: it throws, or completes with the pushes it made. *)
Definition stmt : Type := outcome trace.

Definition skip : stmt := Returns [].

Definition seq (a b : stmt) : stmt :=
  t1 <- a ;; t2 <- b ;; Returns (t1 ++ t2).

Infix ";;;" := seq (at level 60, right associativity).

(** [issues.push(i); suggestions.push(s);] *)
Definition report (i s : string) : stmt :=
  Returns [Issue i; Suggestion s].

(** [if (c) { body }], [c] being an expression that may throw. *)
Definition when (c : outcome bool) (body : stmt) : stmt :=
  b <- c ;; if b then body else skip.

Fixpoint forEach_from (index : nat) (l : list value) (f : value -> nat -> stmt) : stmt :=
  match l with
  | [] => skip
  | x :: rest => f x index ;;; forEach_from (S index) rest f
  end.

(** [v.forEach((x, index) => ...)]: arrays only. *)
Definition js_forEach (v : value) (f : value -> nat -> stmt) : stmt :=
  match v with
  | Array l => forEach_from 0 l f
  | _ => Throws TypeError
  end.

Fixpoint find_first (p : value -> outcome bool) (l : list value) : outcome value :=
  match l with
  | [] => Returns Undefined
  | x :: rest => b <- p x ;; if b then Returns x else find_first p rest
  end.

(** [v?.find(p)]: [undefined] on a nullish receiver, arrays otherwise. *)
Definition js_optional_find (v : value) (p : value -> outcome bool) : outcome value :=
  match v with
  | Undefined | Null => Returns Undefined
  | Array l => find_first p l
  | _ => Throws TypeError
  end.

(** ** Documents of the declared types (src/types/index.ts) *)

Definition is_string (v : value) : bool :=
  match v with Str _ => true | _ => false end.

Definition is_number (v : value) : bool :=
  match v with Number _ => true | _ => false end.

(** [field?: T] *)
Definition optional (p : value -> bool) (v : value) : bool :=
  match v with Undefined => true | _ => p v end.

(** [T[]] *)
Definition array_of (p : value -> bool) (v : value) : bool :=
  match v with Array l => forallb p l | _ => false end.

Definition object_with (p : list (string * value) -> bool) (v : value) : bool :=
  match v with Object properties => p properties | _ => false end.

(** [TurnkeyConfig] *)
Definition is_TurnkeyConfig : value -> bool :=
  object_with (fun p =>
    optional is_string (field p "org_id") &&
    optional is_string (field p "wallet_id") &&
    optional is_string (field p "api_public_key") &&
    optional is_string (field p "api_private_key") &&
    optional is_string (field p "base_url")).

(** [SigningKey] *)
Definition is_SigningKey : value -> bool :=
  object_with (fun p =>
    optional is_string (field p "key_id") &&
    optional is_string (field p "name") &&
    optional is_string (field p "public_key") &&
    optional is_string (field p "algorithm")).

(** [AllowedActivity]; [parameters] is a record of anything, except that
    its [condition], which the evaluator casts to a string, is one. *)
Definition is_AllowedActivity : value -> bool :=
  object_with (fun p =>
    optional is_string (field p "type") &&
    optional (array_of is_string) (field p "resources") &&
    optional (object_with (fun q => optional is_string (field q "condition")))
      (field p "parameters")).

(** [TurnkeyPolicy], with the three string fields of the simplified format. *)
Definition is_TurnkeyPolicy : value -> bool :=
  object_with (fun p =>
    optional is_number (field p "required_approvals") &&
    optional (array_of is_SigningKey) (field p "signing_keys") &&
    optional (array_of is_AllowedActivity) (field p "allowed_activities") &&
    optional is_string (field p "policyName") &&
    optional is_string (field p "effect") &&
    optional is_string (field p "condition")).

(** [TurnkeyTransactionRequest] *)
Definition is_TurnkeyTransactionRequest : value -> bool :=
  object_with (fun p =>
    optional is_string (field p "timestampMs") &&
    optional is_string (field p "type") &&
    optional is_string (field p "organizationId") &&
    optional (object_with (fun q =>
                optional is_string (field q "type") &&
                optional is_string (field q "signWith") &&
                optional is_string (field q "unsignedTransaction")))
      (field p "parameters")).

Variant evaluator : Type := ConfigEvaluator | PolicyEvaluator | TransactionEvaluator.

(** The parameter type of each evaluator. *)
Definition well_typed (e : evaluator) : value -> bool :=
  match e with
  | ConfigEvaluator => is_TurnkeyConfig
  | PolicyEvaluator => is_TurnkeyPolicy
  | TransactionEvaluator => is_TurnkeyTransactionRequest
  end.

(** ** A host for the worked examples

    Integers print in decimal, which is how JavaScript prints every integer
    below 10^21, and a string of decimal digits reads as the integer it
    writes.  The examples at the end of the file apply the two functions to
    such integers and strings only. *)

Definition decimal_number_to_string (n : number) : string :=
  match n with
  | NaN => "NaN"
  | Infinity negative => if negative then "-Infinity" else "Infinity"
  | Finite q =>
      NilZero.string_of_int (Z.to_int (QArith_base.Qnum q / Z.pos (QArith_base.Qden q)))
  end.

Definition decimal_string_to_number (s : string) : number :=
  match s with
  | EmptyString => number_of_Z 0
  | _ => match NilZero.int_of_string s with
         | Some i => number_of_Z (Z.of_int i)
         | None => NaN
         end
  end.

(** ** Example documents *)

(** The valid configuration of tests/check.test.ts. *)
Definition valid_config : list (string * value) :=
  [("org_id", Str "test-org");
   ("wallet_id", Str "test-wallet");
   ("api_public_key", Str "TK1234567890");
   ("api_private_key", Str "this-is-a-long-enough-private-key-for-testing");
   ("base_url", Str "https://api.turnkey.com")].

Definition config_with_empty_org_id : list (string * value) :=
  [("org_id", Str EmptyString);
   ("wallet_id", Str "test-wallet");
   ("api_public_key", Str "TK1234567890");
   ("api_private_key", Str "this-is-a-long-enough-private-key-for-testing");
   ("base_url", Str "https://api.turnkey.com")].

(** [{ org_id: 'test-org', base_url: 8080 }] *)
Definition config_with_numeric_base_url : list (string * value) :=
  [("org_id", Str "test-org"); ("base_url", Number (number_of_Z 8080))].

(** [{ policyName: 'transfers', effect: 'EFFECT_ALLOW', condition: 42 }] *)
Definition policy_with_numeric_condition : list (string * value) :=
  [("policyName", Str "transfers");
   ("effect", Str "EFFECT_ALLOW");
   ("condition", Number (number_of_Z 42))].

(** A simplified policy that also carries a field of the structured format. *)
Definition simplified_policy_with_approvals : list (string * value) :=
  [("policyName", Str "transfers");
   ("effect", Str "EFFECT_ALLOW");
   ("condition", Str "solana.tx.transfers.all(transfer, transfer.from == 'address')");
   ("required_approvals", Number (number_of_Z 0))].

Definition simplified_policy_with_empty_effect : list (string * value) :=
  [("policyName", Str "transfers");
   ("effect", Str EmptyString);
   ("condition", Str "solana.tx.transfers.all(transfer, transfer.from == 'address')")].

(** The signing key of tests/check.test.ts. *)
Definition test_key : value :=
  Object [("key_id", Str "test-key"); ("name", Str "Test Key");
          ("public_key", Str "test-public-key"); ("algorithm", Str "ECDSA_SECP256K1")].

(** A structured policy whose first signing activity is well formed and whose
    second one is a SIGN_WITH_INTENT without parameters. *)
Definition policy_with_two_intents : list (string * value) :=
  [("required_approvals", Number (number_of_Z 1));
   ("signing_keys", Array [test_key]);
   ("allowed_activities",
    Array [Object [("type", Str "SIGN_WITH_INTENT"); ("resources", Array [Str "*"]);
                   ("parameters", Object [("intent_action", Str "eth_signTypedData_v4");
                                          ("intent_version", Str "1")])];
           Object [("type", Str "SIGN_WITH_INTENT"); ("resources", Array [Str "*"])]])].

(** The policy of the test on required_approvals. *)
Definition policy_with_zero_approvals : list (string * value) :=
  [("required_approvals", Number (number_of_Z 0));
   ("signing_keys", Array [test_key]);
   ("allowed_activities",
    Array [Object [("type", Str "SIGN_WITH_INTENT"); ("resources", Array [Str "*"])]])].

(** A signing request without [timestampMs]. *)
Definition request_without_timestamp : list (string * value) :=
  [("organizationId", Str "test-org");
   ("type", Str "ACTIVITY_TYPE_SIGN_TRANSACTION_V2");
   ("parameters",
    Object [("type", Str "TRANSACTION_TYPE_SOLANA");
            ("signWith", Str "address");
            ("unsignedTransaction", Str "0a1b2c")])].

(** A signing request without [parameters]. *)
Definition request_without_parameters : list (string * value) :=
  [("organizationId", Str "test-org");
   ("type", Str "ACTIVITY_TYPE_SIGN_TRANSACTION_V2");
   ("timestampMs", Str "1700000000000")].

(** A signing request that passes every check. *)
Definition valid_request : list (string * value) :=
  [("organizationId", Str "test-org");
   ("type", Str "ACTIVITY_TYPE_SIGN_TRANSACTION_V2");
   ("timestampMs", Str "1700000000000");
   ("parameters",
    Object [("type", Str "TRANSACTION_TYPE_ETHEREUM");
            ("signWith", Str "0x52908400098527886E0F7030069857D2E4169EE7");
            ("unsignedTransaction", Str "0x02f86b0180")])].

(** A signing request whose Ethereum address is too short. *)
Definition request_with_short_address : list (string * value) :=
  [("organizationId", Str "test-org");
   ("type", Str "ACTIVITY_TYPE_SIGN_TRANSACTION_V2");
   ("timestampMs", Str "1700000000000");
   ("parameters",
    Object [("type", Str "TRANSACTION_TYPE_ETHEREUM");
            ("signWith", Str "0x1234");
            ("unsignedTransaction", Str "0x02f86b0180")])].

(** A configuration with the keys of the first test of tests/check.test.ts
    and a base URL over HTTP. *)
Definition config_with_weak_keys : list (string * value) :=
  [("org_id", Str "test-org");
   ("wallet_id", Str "test-wallet");
   ("api_public_key", Str "test-key");
   ("api_private_key", Str "test-private-key");
   ("base_url", Str "http://api.turnkey.com")].

(** A structured policy whose second signing key has no [key_id] and whose
    second activity has an empty list of resources. *)
Definition policy_with_incomplete_entries : list (string * value) :=
  [("required_approvals", Number (number_of_Z 1));
   ("signing_keys", Array [test_key; Object [("public_key", Str "test-public-key")]]);
   ("allowed_activities",
    Array [Object [("type", Str "SIGN_TRANSACTION"); ("resources", Array [Str "*"])];
           Object [("type", Str "SIGN_TRANSACTION"); ("resources", Array [])]])].

(** A simplified policy whose effect is in lower case. *)
Definition simplified_policy_with_lowercase_effect : list (string * value) :=
  [("policyName", Str "transfers");
   ("effect", Str "effect_allow");
   ("condition", Str "solana.tx.transfers.all(transfer, transfer.from == 'address')")].

(** A signing request whose [signWith] is a number. *)
Definition request_with_numeric_signWith : list (string * value) :=
  [("organizationId", Str "test-org");
   ("type", Str "ACTIVITY_TYPE_SIGN_TRANSACTION_V2");
   ("timestampMs", Str "1700000000000");
   ("parameters",
    Object [("type", Str "TRANSACTION_TYPE_ETHEREUM");
            ("signWith", Number (number_of_Z 12345));
            ("unsignedTransaction", Str "0x00")])].

(** ** The surroundings of the command

    [checkConfig] reads a file, parses it and, in verbose mode, asks the
    OpenAI client for explanations.  What these collaborators answer is given
    by a [system]; the texts of the console carry the emoji of the source in
    UTF-8, and nothing measures them. *)

Record system : Type := {
  (** [path.resolve(process.cwd(), filePath)] *)
  resolve : string -> string;
  (** [fs.access(path)] resolves *)
  access : string -> bool;
  (** [fs.readFile(path, 'utf-8')], [None] when it rejects *)
  readFile : string -> option string;
  (** [JSON5.parse(fileContent)], [None] when it throws *)
  parse : string -> option value;
  (** [process.env.OPENAI_API_KEY], once [dotenv.config()] has run *)
  OPENAI_API_KEY : option string;
  (** [new OpenAI({ apiKey })] returns; [false] when the constructor throws *)
  new_OpenAI : option string -> bool;
  (** [openai.chat.completions.create(request)], [None] when it rejects *)
  create : value -> option value
}.

(** What a [catch] clause receives: an [Error] made by the program, an
    exception of an operator or a method, a failure of a collaborator. *)
Variant caught : Type :=
| Failed (message : string)
| Raised (e : error)
| Rejected.

(** A call of [console.log] or of [console.error]. *)
Variant entry : Type :=
| Stdout (argument : value)
| Stderr (label : string) (error : caught).

Definition escape : string := String (ascii_of_nat 27) EmptyString.

(** The [colors] object of check.ts. *)
Module colors.
Definition red (text : string) : string := escape ++ "[31m" ++ text ++ escape ++ "[0m".
Definition green (text : string) : string := escape ++ "[32m" ++ text ++ escape ++ "[0m".
Definition blue (text : string) : string := escape ++ "[34m" ++ text ++ escape ++ "[0m".
Definition yellow (text : string) : string := escape ++ "[33m" ++ text ++ escape ++ "[0m".
Definition cyan (text : string) : string := escape ++ "[36m" ++ text ++ escape ++ "[0m".
End colors.

(** *** [generateExplanation] *)

(** [v[0]] *)
Definition js_first (v : value) : outcome value :=
  match v with
  | Undefined | Null => Throws TypeError
  | Array l => Returns (match l with x :: _ => x | [] => Undefined end)
  | Str s => Returns (match s with
                      | String c _ => Str (String c EmptyString)
                      | EmptyString => Undefined
                      end)
  | Object properties => Returns (field properties "0")
  | _ => Returns Undefined
  end.

(** [v?.key] *)
Definition optional_field (v : value) (key : string) : outcome value :=
  match v with
  | Undefined | Null => Returns Undefined
  | _ => get_field v key
  end.

(** The template of the prompt; an absent suggestion prints as [undefined]. *)
Definition explanation_prompt (issue : string) (suggestion : option string) : string :=
  (js "\nYou are an expert in Turnkey API integration and crypto wallet infrastructure.\nExplain the following issue in simple terms and why it's important to fix:\n\nIssue: "
   ++ issue
   ++ js "\n\nSuggested fix: "
   ++ match suggestion with Some s => s | None => "undefined" end
   ++ js "\n\nProvide a clear explanation of:\n1. Why this issue occurs\n2. What problems it might cause\n3. How the suggested fix resolves the issue\n4. Any additional context that would help a developer understand\n")%string.

Definition completion_request (prompt : string) : value :=
  Object
    [("model", Str "gpt-3.5-turbo");
     ("messages",
      Array [Object [("role", Str "system");
                     ("content", Str "You are a helpful assistant that explains Turnkey API integration issues clearly and concisely.")];
             Object [("role", Str "user"); ("content", Str prompt)]]);
     ("max_tokens", Number (number_of_Z 500));
     ("temperature", Number (Finite (QArith_base.Qmake 7 10)))].

Definition key_not_configured : string :=
  "OpenAI API key not configured. Please set the OPENAI_API_KEY environment variable to enable detailed explanations.".

Definition unable_to_generate : string := "Unable to generate explanation.".

Definition failed_to_generate : string :=
  "Failed to generate explanation. Please check your OpenAI API key and try again.".

(** [response.choices[0]?.message?.content] *)
Definition first_content (response : value) : outcome value :=
  choices <- get_field response "choices" ;;
  first <- js_first choices ;;
  message <- optional_field first "message" ;;
  optional_field message "content".

(** The value the promise resolves to, and what the call wrote to the
    console. *)
Definition generateExplanation (sys : system) (issue : string) (suggestion : option string)
  : value * list entry :=
  match OPENAI_API_KEY sys with
  | None | Some EmptyString => (Str key_not_configured, [])
  | Some _ =>
      match create sys (completion_request (explanation_prompt issue suggestion)) with
      | None =>
          (Str failed_to_generate, [Stderr "Error generating explanation:" Rejected])
      | Some response =>
          match first_content response with
          | Returns content =>
              (if truthy content then content else Str unable_to_generate, [])
          | Throws e =>
              (Str failed_to_generate, [Stderr "Error generating explanation:" (Raised e)])
          end
      end
  end.

(** *** An example system

    One file, [policy.json], is on the disk; the parser knows the text of
    that file. *)
Definition example_system (key : option string) (answer : option value) : system :=
  {| resolve := fun path => ("/work/" ++ path)%string;
     access := fun path => String.eqb path "/work/policy.json";
     readFile := fun path =>
       if String.eqb path "/work/policy.json" then Some "{ required_approvals: 0 }" else None;
     parse := fun text =>
       if String.eqb text "{ required_approvals: 0 }"
       then Some (Object [("required_approvals", Number (number_of_Z 0))])
       else None;
     OPENAI_API_KEY := key;
     new_OpenAI := fun apiKey => match apiKey with Some _ => true | None => false end;
     create := fun _ => answer |}.

(** A completion with one choice. *)
Definition example_completion : value :=
  Object [("choices",
           Array [Object [("index", Number (number_of_Z 0));
                          ("message", Object [("role", Str "assistant");
                                              ("content", Str "The field is required.")])]])].

(** ** The engine, for any host implementation of number formatting

    [Number.prototype.toString] and the conversion of a string to a number
    are the host's; the embedding takes them as they are. *)
Section Engine.

Variable number_to_string : number -> string.
Variable string_to_number : string -> number.

(** [String(v)], which is also what a template literal, [+] with a string
    and [RegExp.prototype.test] apply to their operand.  An array is joined
    with commas; an object answers [[object Object]] unless a property of
    its own shadows [toString], and then nothing callable is left. *)
Fixpoint to_string (v : value) : outcome string :=
  match v with
  | Undefined => Returns "undefined"
  | Null => Returns "null"
  | Boolean b => Returns (if b then "true" else "false")
  | Number n => Returns (number_to_string n)
  | Str s => Returns s
  | Array l =>
      (fix join (l : list value) : outcome string :=
         match l with
         | [] => Returns EmptyString
         | x :: rest =>
             s <- match x with
                  | Undefined | Null => Returns EmptyString
                  | _ => to_string x
                  end ;;
             match rest with
             | [] => Returns s
             | _ => r <- join rest ;; Returns (s ++ "," ++ r)%string
             end
         end) l
  | Object properties =>
      if has_own "toString" properties then Throws TypeError
      else Returns "[object Object]"
  end.

(** [Number(v)]. *)
Definition to_number (v : value) : outcome number :=
  match v with
  | Undefined => Returns NaN
  | Null => Returns (number_of_Z 0)
  | Boolean b => Returns (number_of_Z (if b then 1 else 0))
  | Number n => Returns n
  | Str s => Returns (string_to_number s)
  | Array _ | Object _ => s <- to_string v ;; Returns (string_to_number s)
  end.

(** [v < k] for a number literal [k]. *)
Definition js_lt (v : value) (k : Z) : outcome bool :=
  n <- to_number v ;; Returns (number_ltb n (number_of_Z k)).

(** [v.length < k]. *)
Definition length_lt (v : value) (k : Z) : outcome bool :=
  len <- js_length v ;; js_lt len k.

(** [v.length === 0]. *)
Definition length_is_zero (v : value) : outcome bool :=
  len <- js_length v ;; Returns (strict_eq_zero len).

(** [v.length !== 42]. *)
Definition length_is_not (v : value) (k : nat) : outcome bool :=
  len <- js_length v ;;
  Returns (match len with
           | Number (Finite q) =>
               negb (QArith_base.Qnum q =? Z.of_nat k * Z.pos (QArith_base.Qden q))%Z
           | _ => true
           end).

(** [${index}] *)
Definition index_to_string (index : nat) : string :=
  number_to_string (number_of_nat index).

(** [!/^0x[0-9a-f]+$/i.test(v) && !/^[0-9a-f]+$/i.test(v)] *)
Definition not_hex (v : value) : outcome bool :=
  s <- to_string v ;; Returns (negb (matches_0x_hex s) && negb (matches_hex s)).

(** [!obj.key] and [obj.key] as a condition. *)
Definition falsy_field (obj : value) (key : string) : outcome bool :=
  v <- get_field obj key ;; Returns (negb (truthy v)).
Definition truthy_field (obj : value) (key : string) : outcome bool :=
  v <- get_field obj key ;; Returns (truthy v).

(** [if (c) { a } else { b }] *)
Definition if_else (c : outcome bool) (a b : stmt) : stmt :=
  x <- c ;; if x then a else b.

(** ** [analyzeConfig] (src/services/config.ts) *)

Definition check_org_id (config : value) : stmt :=
  when (falsy_field config "org_id")
    (report "Missing organization ID (org_id)"
       (js "Add your Turnkey organization ID to the configuration:\n```json\n{\n  \x22org_id\x22: \x22your-org-id\x22,\n  ...\n}\n```")).

Definition check_wallet_id (config : value) : stmt :=
  when (falsy_field config "wallet_id")
    (report "Missing wallet ID (wallet_id)"
       (js "Add your Turnkey wallet ID to the configuration:\n```json\n{\n  \x22wallet_id\x22: \x22your-wallet-id\x22,\n  ...\n}\n```")).

Definition check_api_public_key (config : value) : stmt :=
  when (falsy_field config "api_public_key")
    (report "Missing API public key (api_public_key)"
       (js "Add your Turnkey API public key to the configuration:\n```json\n{\n  \x22api_public_key\x22: \x22your-api-public-key\x22,\n  ...\n}\n```")).

Definition check_api_private_key (config : value) : stmt :=
  if_else (falsy_field config "api_private_key")
    (report "Missing API private key (api_private_key)"
       (js "Add your Turnkey API private key to the configuration. For security, consider using environment variables:\n```json\n{\n  \x22api_private_key\x22: \x22${TURNKEY_API_PRIVATE_KEY}\x22,\n  ...\n}\n```"))
    (when (key <- get_field config "api_private_key" ;;
           length_lt key 20 &&& not_ (js_includes key "$"))
       (report "API private key appears to be invalid or too short"
          (js "Ensure your API private key is correctly formatted. For security, consider using environment variables:\n```json\n{\n  \x22api_private_key\x22: \x22${TURNKEY_API_PRIVATE_KEY}\x22,\n  ...\n}\n```"))).

Definition check_base_url (config : value) : stmt :=
  if_else (falsy_field config "base_url")
    (report "Missing base URL (base_url)"
       (js "Add the Turnkey API base URL to the configuration:\n```json\n{\n  \x22base_url\x22: \x22https://api.turnkey.com\x22,\n  ...\n}\n```"))
    (when (url <- get_field config "base_url" ;; not_ (js_startsWith url "https://"))
       (url <- get_field config "base_url" ;;
        host <- js_replace_http url ;;
        report "Base URL should use HTTPS for security"
          (js "Update the base URL to use HTTPS:\n```json\n{\n  \x22base_url\x22: \x22https://"
           ++ host ++ js "\x22,\n  ...\n}\n```")%string)).

Definition check_api_public_key_format (config : value) : stmt :=
  when (truthy_field config "api_public_key" &&& truthy_field config "api_private_key" &&&
        (key <- get_field config "api_public_key" ;;
         not_ (js_includes key "TK") ||| length_lt key 10))
    (report "API public key format appears invalid (might cause 401 errors)"
       (js "Ensure your API public key starts with \x22TK\x22 and is correctly formatted according to Turnkey documentation")).

Definition analyzeConfig_pushes (config : value) : stmt :=
  check_org_id config ;;;
  check_wallet_id config ;;;
  check_api_public_key config ;;;
  check_api_private_key config ;;;
  check_base_url config ;;;
  check_api_public_key_format config.

Definition analyzeConfig (config : value) : outcome AnalysisResult :=
  t <- analyzeConfig_pushes config ;; Returns (result_of t).

(** ** [analyzePolicy] (src/services/policy.ts): the structured variant *)

Definition check_required_approvals (policy : value) : stmt :=
  if_else (approvals <- get_field policy "required_approvals" ;;
           Returns (is_undefined approvals))
    (report "Missing required_approvals field"
       (js "Add the required_approvals field to specify how many approvals are needed:\n```json\n{\n  \x22required_approvals\x22: 1,\n  ...\n}\n```"))
    (when (approvals <- get_field policy "required_approvals" ;; js_lt approvals 1)
       (report "required_approvals must be at least 1"
          (js "Update required_approvals to be at least 1:\n```json\n{\n  \x22required_approvals\x22: 1,\n  ...\n}\n```"))).

Definition check_signing_key (key : value) (index : nat) : stmt :=
  when (falsy_field key "key_id")
    (report ("Signing key at index " ++ index_to_string index ++ " is missing key_id")
       (js "Add key_id to the signing key at index " ++ index_to_string index
        ++ js ":\n```json\n\x22signing_keys\x22: [\n  {\n    \x22key_id\x22: \x22your-key-id\x22,\n    ...\n  }\n]\n```"))%string ;;;
  when (falsy_field key "public_key")
    (report ("Signing key at index " ++ index_to_string index ++ " is missing public_key")
       (js "Add public_key to the signing key at index " ++ index_to_string index
        ++ js ":\n```json\n\x22signing_keys\x22: [\n  {\n    \x22public_key\x22: \x22your-public-key\x22,\n    ...\n  }\n]\n```"))%string.

Definition check_signing_keys (policy : value) : stmt :=
  if_else (falsy_field policy "signing_keys" |||
           (keys <- get_field policy "signing_keys" ;; length_is_zero keys))
    (report "No signing keys defined in the policy"
       (js "Add at least one signing key to the policy:\n```json\n{\n  \x22signing_keys\x22: [\n    {\n      \x22key_id\x22: \x22your-key-id\x22,\n      \x22name\x22: \x22Key Name\x22,\n      \x22public_key\x22: \x22your-public-key\x22,\n      \x22algorithm\x22: \x22ECDSA_SECP256K1\x22\n    }\n  ],\n  ...\n}\n```"))
    (keys <- get_field policy "signing_keys" ;; js_forEach keys check_signing_key).

(** The checks on [activity.parameters.condition] (policy.ts, lines 62-80). *)
Definition check_activity_condition (activity : value) (index : nat) : stmt :=
  when (truthy_field activity "parameters" &&&
        (parameters <- get_field activity "parameters" ;; truthy_field parameters "condition"))
    (parameters <- get_field activity "parameters" ;;
     condition <- get_field parameters "condition" ;;
     when (js_includes condition "<SENDER_ADDRESS>")
       (report ("Solana policy condition at index " ++ index_to_string index
                ++ " contains placeholder '<SENDER_ADDRESS>'")
          (js "Replace '<SENDER_ADDRESS>' with an actual Solana address in the condition:\n```json\n\x22condition\x22: \x22solana.tx.transfers.all(transfer, transfer.from == 'actual_solana_address')\x22\n```"))%string ;;;
     when (js_includes condition "solana.tx.transfers")
       (when (not_ (js_includes condition ".all(") &&& not_ (js_includes condition ".any("))
          (report ("Solana policy condition at index " ++ index_to_string index
                   ++ " might be missing quantifier (all/any)")
             (js "Consider using 'all' or 'any' quantifier in your Solana condition:\n```json\n\x22condition\x22: \x22solana.tx.transfers.all(transfer, transfer.from == '<ADDRESS>')\x22\n```"))%string)).

Definition check_allowed_activity (activity : value) (index : nat) : stmt :=
  when (falsy_field activity "type")
    (report ("Allowed activity at index " ++ index_to_string index ++ " is missing type")
       (js "Add type to the allowed activity at index " ++ index_to_string index
        ++ js ":\n```json\n\x22allowed_activities\x22: [\n  {\n    \x22type\x22: \x22SIGN_WITH_INTENT\x22,\n    ...\n  }\n]\n```"))%string ;;;
  when (falsy_field activity "resources" |||
        (resources <- get_field activity "resources" ;; length_is_zero resources))
    (report ("Allowed activity at index " ++ index_to_string index ++ " has no resources defined")
       (js "Add resources to the allowed activity at index " ++ index_to_string index
        ++ js ":\n```json\n\x22allowed_activities\x22: [\n  {\n    \x22resources\x22: [\x22*\x22],\n    ...\n  }\n]\n```"))%string ;;;
  check_activity_condition activity index.

Definition check_allowed_activities (policy : value) : stmt :=
  if_else (falsy_field policy "allowed_activities" |||
           (activities <- get_field policy "allowed_activities" ;; length_is_zero activities))
    (report "No allowed_activities defined in the policy"
       (js "Add allowed_activities to specify what operations are permitted:\n```json\n{\n  \x22allowed_activities\x22: [\n    {\n      \x22type\x22: \x22SIGN_WITH_INTENT\x22,\n      \x22resources\x22: [\x22*\x22]\n    }\n  ],\n  ...\n}\n```"))
    (activities <- get_field policy "allowed_activities" ;;
     js_forEach activities check_allowed_activity).

(** The callback of [find]:
    [activity.type === 'SIGN_WITH_INTENT' || activity.type === 'SIGN_TRANSACTION']. *)
Definition is_signing_activity (activity : value) : outcome bool :=
  type <- get_field activity "type" ;;
  Returns (strict_eq_string type "SIGN_WITH_INTENT" || strict_eq_string type "SIGN_TRANSACTION").

Definition check_sign_with_intent (policy : value) : stmt :=
  activities <- get_field policy "allowed_activities" ;;
  signWithIntentActivity <- js_optional_find activities is_signing_activity ;;
  when (Returns (truthy signWithIntentActivity) &&&
        (type <- get_field signWithIntentActivity "type" ;;
         Returns (strict_eq_string type "SIGN_WITH_INTENT")))
    (if_else (falsy_field signWithIntentActivity "parameters")
       (report "SIGN_WITH_INTENT activity is missing parameters"
          (js "Add parameters to the SIGN_WITH_INTENT activity:\n```json\n{\n  \x22type\x22: \x22SIGN_WITH_INTENT\x22,\n  \x22parameters\x22: {\n    \x22intent_action\x22: \x22eth_signTypedData_v4\x22,\n    \x22intent_version\x22: \x221\x22\n  },\n  ...\n}\n```"))
       (when (parameters <- get_field signWithIntentActivity "parameters" ;;
              falsy_field parameters "intent_action")
          (report "SIGN_WITH_INTENT activity is missing intent_action parameter"
             (js "Add intent_action parameter to the SIGN_WITH_INTENT activity:\n```json\n\x22parameters\x22: {\n  \x22intent_action\x22: \x22eth_signTypedData_v4\x22,\n  ...\n}\n```")))).

(** Lines 17-99 of policy.ts: what [analyzePolicy] does past its first test. *)
Definition structured_policy_pushes (policy : value) : stmt :=
  check_required_approvals policy ;;;
  check_signing_keys policy ;;;
  check_allowed_activities policy ;;;
  check_sign_with_intent policy.

(** ** [analyzeSimplifiedPolicy] (src/services/policy.ts) *)

Definition check_policyName (policy : value) : stmt :=
  when (falsy_field policy "policyName")
    (report "Missing policyName field"
       (js "Add a descriptive policy name:\n```json\n{\n  \x22policyName\x22: \x22Your Policy Name\x22,\n  ...\n}\n```")).

Definition check_effect (policy : value) : stmt :=
  if_else (falsy_field policy "effect")
    (report "Missing effect field"
       (js "Add the effect field (EFFECT_ALLOW or EFFECT_DENY):\n```json\n{\n  \x22effect\x22: \x22EFFECT_ALLOW\x22,\n  ...\n}\n```"))
    (when (effect <- get_field policy "effect" ;;
           Returns (negb (strict_eq_string effect "EFFECT_ALLOW") &&
                    negb (strict_eq_string effect "EFFECT_DENY")))
       (effect <- get_field policy "effect" ;;
        text <- to_string effect ;;
        report ("Invalid effect value: " ++ text)%string
          (js "Use either \x22EFFECT_ALLOW\x22 or \x22EFFECT_DENY\x22 for the effect field"))).

Definition check_condition (policy : value) : stmt :=
  if_else (falsy_field policy "condition")
    (report "Missing condition field"
       (js "Add a condition expression:\n```json\n{\n  \x22condition\x22: \x22your.condition.expression\x22,\n  ...\n}\n```"))
    (condition <- get_field policy "condition" ;;
     when (js_includes condition "<SENDER_ADDRESS>")
       (report "Condition contains placeholder <SENDER_ADDRESS>"
          "Replace <SENDER_ADDRESS> with an actual blockchain address") ;;;
     when (js_includes condition "solana.tx.transfers")
       (when (not_ (js_includes condition ".all(") &&& not_ (js_includes condition ".any("))
          (report "Solana condition might be missing quantifier (all/any)"
             (js "Consider using \x22all\x22 or \x22any\x22 quantifier in your Solana condition:\n```json\n{\n  \x22condition\x22: \x22solana.tx.transfers.all(transfer, transfer.from == 'your_address')\x22,\n  ...\n}\n```")))).

Definition simplified_policy_checks (policy : value) : stmt :=
  check_policyName policy ;;;
  check_effect policy ;;;
  check_condition policy.

(** The text pushed when no issue was found (policy.ts, lines 147-153). *)
Definition policy_looks_valid (policy : value) : outcome string :=
  effect <- get_field policy "effect" ;;
  condition <- get_field policy "condition" ;;
  text <- to_string condition ;;
  Returns (js "Your policy looks valid! Here's how to use it with Turnkey:\n\n"
           ++ "1. This policy will "
           ++ (if strict_eq_string effect "EFFECT_ALLOW" then "allow" else "deny")
           ++ js " transactions that match the condition:\n"
           ++ "   `" ++ text ++ js "`\n\n"
           ++ js "2. For Solana conditions, make sure to replace any placeholders with actual addresses\n\n"
           ++ "3. You can apply this policy to your Turnkey organization or specific wallets")%string.

Definition analyzeSimplifiedPolicy_pushes (policy : value) : stmt :=
  t <- simplified_policy_checks policy ;;
  last <- match issues_of t with
          | [] => text <- policy_looks_valid policy ;; Returns [Suggestion text]
          | _ :: _ => skip
          end ;;
  Returns (t ++ last).

Definition analyzeSimplifiedPolicy (policy : value) : outcome AnalysisResult :=
  t <- analyzeSimplifiedPolicy_pushes policy ;; Returns (result_of t).

(** ['policyName' in policy && 'effect' in policy && 'condition' in policy] *)
Definition is_simplified_policy (policy : value) : outcome bool :=
  js_in "policyName" policy &&& js_in "effect" policy &&& js_in "condition" policy.

Definition analyzePolicy_pushes (policy : value) : stmt :=
  simplified <- is_simplified_policy policy ;;
  if simplified then analyzeSimplifiedPolicy_pushes policy
  else structured_policy_pushes policy.

Definition analyzePolicy (policy : value) : outcome AnalysisResult :=
  t <- analyzePolicy_pushes policy ;; Returns (result_of t).

(** ** [analyzeTransaction] (src/services/transaction.ts)

    [now] is what [Date.now()] answers during the call. *)

Definition sign_transaction_v2 : string := "ACTIVITY_TYPE_SIGN_TRANSACTION_V2".

Definition check_organizationId (transaction : value) : stmt :=
  when (falsy_field transaction "organizationId")
    (report "Missing organizationId field"
       (js "Add your Turnkey organization ID to the request:\n```json\n{\n  \x22organizationId\x22: \x22your-org-id\x22,\n  ...\n}\n```")).

Definition check_type (transaction : value) : stmt :=
  if_else (falsy_field transaction "type")
    (report "Missing type field"
       (js "Add the activity type to the request:\n```json\n{\n  \x22type\x22: \x22ACTIVITY_TYPE_SIGN_TRANSACTION_V2\x22,\n  ...\n}\n```"))
    (when (type <- get_field transaction "type" ;;
           Returns (negb (strict_eq_string type sign_transaction_v2)))
       (type <- get_field transaction "type" ;;
        text <- to_string type ;;
        report ("Unsupported transaction type: " ++ text)%string
          (js "Use \x22ACTIVITY_TYPE_SIGN_TRANSACTION_V2\x22 for the type field:\n```json\n{\n  \x22type\x22: \x22ACTIVITY_TYPE_SIGN_TRANSACTION_V2\x22,\n  ...\n}\n```"))).

Definition check_timestampMs (now : Z) (transaction : value) : stmt :=
  when (falsy_field transaction "timestampMs")
    (report "Missing timestampMs field"
       (js "Add a current timestamp in milliseconds:\n```json\n{\n  \x22timestampMs\x22: \x22"
        ++ number_to_string (number_of_Z now)
        ++ js "\x22,\n  ...\n}\n```")%string).

Definition supportedTypes : list string :=
  ["TRANSACTION_TYPE_ETHEREUM"; "TRANSACTION_TYPE_SOLANA"; "TRANSACTION_TYPE_BITCOIN"].

Definition check_parameters_type (parameters : value) : stmt :=
  if_else (falsy_field parameters "type")
    (report "Missing transaction type in parameters"
       (js "Add the transaction type to parameters:\n```json\n\x22parameters\x22: {\n  \x22type\x22: \x22TRANSACTION_TYPE_ETHEREUM\x22,\n  ...\n}\n```"))
    (when (type <- get_field parameters "type" ;;
           Returns (negb (existsb (strict_eq_string type) supportedTypes)))
       (type <- get_field parameters "type" ;;
        text <- to_string type ;;
        report ("Unsupported blockchain type: " ++ text)%string
          ("Use one of the supported blockchain types: " ++ String.concat ", " supportedTypes)%string)).

Definition check_signWith (parameters : value) : stmt :=
  if_else (falsy_field parameters "signWith")
    (report "Missing signWith address in parameters"
       (js "Add the address to sign with:\n```json\n\x22parameters\x22: {\n  \x22signWith\x22: \x22your-blockchain-address\x22,\n  ...\n}\n```"))
    (when (type <- get_field parameters "type" ;;
           Returns (strict_eq_string type "TRANSACTION_TYPE_ETHEREUM"))
       (when (address <- get_field parameters "signWith" ;;
              not_ (js_startsWith address "0x") ||| length_is_not address 42)
          (report "Invalid Ethereum address format"
             (js "Ethereum addresses should start with \x220x\x22 and be 42 characters long")))).

Definition check_unsignedTransaction (parameters : value) : stmt :=
  if_else (falsy_field parameters "unsignedTransaction")
    (report "Missing unsignedTransaction in parameters"
       (js "Add the unsigned transaction hex:\n```json\n\x22parameters\x22: {\n  \x22unsignedTransaction\x22: \x22your-unsigned-transaction-hex\x22,\n  ...\n}\n```"))
    (when (unsigned <- get_field parameters "unsignedTransaction" ;; not_hex unsigned)
       (report "Invalid transaction hex format"
          (js "Transaction hex should contain only hexadecimal characters, optionally starting with \x220x\x22"))).

Definition check_parameters (transaction : value) : stmt :=
  if_else (falsy_field transaction "parameters")
    (report "Missing parameters object"
       (js "Add the parameters object with transaction details:\n```json\n{\n  \x22parameters\x22: {\n    \x22type\x22: \x22TRANSACTION_TYPE_ETHEREUM\x22,\n    \x22signWith\x22: \x22your-ethereum-address\x22,\n    \x22unsignedTransaction\x22: \x22your-unsigned-transaction-hex\x22\n  },\n  ...\n}\n```"))
    (parameters <- get_field transaction "parameters" ;;
     check_parameters_type parameters ;;;
     check_signWith parameters ;;;
     check_unsignedTransaction parameters).

Definition transaction_checks (now : Z) (transaction : value) : stmt :=
  check_organizationId transaction ;;;
  check_type transaction ;;;
  check_timestampMs now transaction ;;;
  check_parameters transaction.

(** The text pushed when no issue was found (transaction.ts, lines 79-101). *)
Definition next_steps : string :=
  (js "Your transaction signing request looks valid! Here's how to use it with Turnkey:\n\n"
   ++ js "1. Use the Turnkey API to submit this request:\n"
   ++ js "```bash\n"
   ++ js "turnkey request --path /public/v1/submit/sign_transaction --body '<your-json-content>' --key-name your-key-name\n"
   ++ js "```\n\n"
   ++ js "2. From the response, extract the \x22signedTransaction\x22 value:\n"
   ++ js "```json\n"
   ++ js "{\n"
   ++ js "  \x22activity\x22: {\n"
   ++ js "    \x22result\x22: {\n"
   ++ js "      \x22signTransactionResult\x22: {\n"
   ++ js "        \x22signedTransaction\x22: \x220x...\x22 // This is what you need\n"
   ++ js "      }\n"
   ++ js "    }\n"
   ++ js "  }\n"
   ++ js "}\n"
   ++ js "```\n\n"
   ++ js "3. Broadcast the signed transaction to the blockchain network using etherscan:\n"
   ++ "https://etherscan.io/tx/0x..."
   ++ js "\n\n"
   ++ "4. Track your transaction on a blockchain explorer like Etherscan")%string.

Definition analyzeTransaction_pushes (now : Z) (transaction : value) : stmt :=
  t <- transaction_checks now transaction ;;
  last <- match issues_of t with
          | [] => Returns [Suggestion next_steps]
          | _ :: _ => skip
          end ;;
  Returns (t ++ last).

Definition analyzeTransaction (now : Z) (transaction : value) : outcome AnalysisResult :=
  t <- analyzeTransaction_pushes now transaction ;; Returns (result_of t).

(** ** The classification and dispatch of [checkConfig] (src/commands/check.ts) *)

Variant file_type : Type := Transaction | Policy | Config.

(** ['type' in data && data.type === 'ACTIVITY_TYPE_SIGN_TRANSACTION_V2'] *)
Definition is_transaction_request (data : value) : outcome bool :=
  js_in "type" data &&&
  (type <- get_field data "type" ;; Returns (strict_eq_string type sign_transaction_v2)).

(** ['required_approvals' in data || 'signing_keys' in data ||
     ('policyName' in data && 'effect' in data && 'condition' in data)] *)
Definition is_policy_file (data : value) : outcome bool :=
  js_in "required_approvals" data ||| js_in "signing_keys" data |||
  (js_in "policyName" data &&& js_in "effect" data &&& js_in "condition" data).

(** The value [fileType] takes, by the tests of lines 58-84. *)
Definition detect_file_type (data : value) : outcome file_type :=
  is_transaction <- is_transaction_request data ;;
  if is_transaction then Returns Transaction
  else is_policy <- is_policy_file data ;;
       if is_policy then Returns Policy else Returns Config.

(** The analysis the command runs on the parsed document: the detected type
    and the evaluator's result. *)
Definition checkConfig (now : Z) (data : value) : outcome (file_type * AnalysisResult) :=
  fileType <- detect_file_type data ;;
  result <- match fileType with
            | Transaction => analyzeTransaction now data
            | Policy => analyzePolicy data
            | Config => analyzeConfig data
            end ;;
  Returns (fileType, result).

(** An invocation of evaluator [e] on [document] while the clock reads [now]. *)
Definition evaluate_pushes (e : evaluator) (now : Z) (document : value) : stmt :=
  match e with
  | ConfigEvaluator => analyzeConfig_pushes document
  | PolicyEvaluator => analyzePolicy_pushes document
  | TransactionEvaluator => analyzeTransaction_pushes now document
  end.

Definition evaluate (e : evaluator) (now : Z) (document : value) : outcome AnalysisResult :=
  match e with
  | ConfigEvaluator => analyzeConfig document
  | PolicyEvaluator => analyzePolicy document
  | TransactionEvaluator => analyzeTransaction now document
  end.

(** ** The whole of [checkConfig], and its caller (src/index.ts) *)

(** The evaluator of a file type. *)
Definition analyze (fileType : file_type) (now : Z) (data : value) : outcome AnalysisResult :=
  match fileType with
  | Transaction => analyzeTransaction now data
  | Policy => analyzePolicy data
  | Config => analyzeConfig data
  end.

Definition detected (fileType : file_type) : string :=
  match fileType with
  | Transaction => colors.green "📝 Detected Turnkey transaction signing request"
  | Policy => colors.green "📋 Detected Turnkey policy file"
  | Config => colors.green "⚙️ Detected Turnkey configuration file"
  end.

(** The loop of lines 101-116, from index [i] on. *)
Fixpoint display_issues (sys : system) (verbose : bool) (i : nat)
  (remaining : list string) (suggestions : list string) : list entry :=
  match remaining with
  | [] => []
  | issue :: rest =>
      [Stdout (Str (colors.yellow (js "\n[Issue " ++ index_to_string (S i) ++ "]:")%string));
       Stdout (Str issue)]
      ++ match nth_error suggestions i with
         | Some suggestion =>
             if truthy (Str suggestion)
             then [Stdout (Str (colors.green (js "\n[Suggested Fix]:")));
                   Stdout (Str suggestion)]
             else []
         | None => []
         end
      ++ (if verbose
          then let explanation := generateExplanation sys issue (nth_error suggestions i) in
               Stdout (Str (colors.blue (js "\n[Detailed Explanation]:")))
               :: snd explanation ++ [Stdout (fst explanation)]
          else [])
      ++ display_issues sys verbose (S i) rest suggestions
  end.

(** Lines 86-116: what the command prints of a result. *)
Definition display (sys : system) (verbose : bool) (fileType : file_type)
  (result : AnalysisResult) : list entry :=
  match issues result with
  | [] =>
      Stdout (Str (colors.green "✅ No issues found!"))
      :: match suggestions result, fileType with
         | first :: _, Transaction =>
             [Stdout (Str (colors.blue (js "\n📋 Next steps:"))); Stdout (Str first)]
         | _, _ => []
         end
  | _ :: _ =>
      Stdout (Str (colors.yellow (js "\n🚨 Found "
                                  ++ index_to_string (length (issues result))
                                  ++ " potential issues:")%string))
      :: display_issues sys verbose 0 (issues result) (suggestions result)
  end.

Definition banner : entry :=
  Stdout (Str (colors.blue "🔍 Analyzing Turnkey configuration...")).

(** [checkConfig(filePath, options)]: what it prints, and what it throws if
    it throws. *)
Definition checkConfig_run (sys : system) (now : Z) (filePath : string) (verbose : bool)
  : list entry * option caught :=
  if negb (access sys (resolve sys filePath))
  then ([banner], Some (Failed ("File not found: " ++ filePath)%string))
  else
    match readFile sys (resolve sys filePath) with
    | None => ([banner], Some Rejected)
    | Some fileContent =>
        match parse sys fileContent with
        | None => ([banner], Some (Failed ("Invalid JSON format in file: " ++ filePath)%string))
        | Some data =>
            match detect_file_type data with
            | Throws e => ([banner], Some (Raised e))
            | Returns fileType =>
                match analyze fileType now data with
                | Throws e => ([banner; Stdout (Str (detected fileType))], Some (Raised e))
                | Returns result =>
                    (banner :: Stdout (Str (detected fileType))
                            :: display sys verbose fileType result,
                     None)
                end
            end
        end
    end.

(** The callback that src/index.ts gives to [action] for the [check]
    command, once it is called: the console, and the status [process.exit] is
    called with (0 when it is not called). *)
Definition check_action (sys : system) (now : Z) (file : string) (verbose : bool)
  : list entry * nat :=
  match checkConfig_run sys now file verbose with
  | (console, None) => (console, 0)
  | (console, Some error) => (console ++ [Stderr (colors.red "Error:") error], 1)
  end.

(** The body of the module of [generateExplanation] (check.ts, lines
    122-130): [new OpenAI({ apiKey: process.env.OPENAI_API_KEY })]. *)
Definition openai_client (sys : system) : bool :=
  new_OpenAI sys (OPENAI_API_KEY sys).

(** The program, started as [turnkey-copilot check <file>].  The imports of
    src/index.ts run the module bodies first, and among them the one that
    builds the OpenAI client; [program.parse] calls the action after that.
    Nothing catches an exception of a module body: the process ends with
    status 1, and the program has made no call of the console. *)
Definition turnkey_copilot_check (sys : system) (now : Z) (file : string) (verbose : bool)
  : list entry * nat :=
  if openai_client sys then check_action sys now file verbose else ([], 1).

(** ** Notions the properties are stated with *)

(** The simplified shape: the three keys are present. *)
Definition simplified_shape (properties : list (string * value)) : bool :=
  has_own "policyName" properties && has_own "effect" properties
  && has_own "condition" properties.

(** The document has a [type] field equal to the sentinel string. *)
Definition has_sentinel_type (properties : list (string * value)) : bool :=
  match lookup "type" properties with
  | Some (Str s) => String.eqb s "ACTIVITY_TYPE_SIGN_TRANSACTION_V2"
  | _ => false
  end.

(** The classification as the specification words it: first match wins. *)
Definition classification (properties : list (string * value)) : file_type :=
  if has_sentinel_type properties then Transaction
  else if has_own "required_approvals" properties
          || has_own "signing_keys" properties
          || simplified_shape properties
       then Policy
       else Config.

(** The top-level fields whose absence an evaluator reports, each with the
    issue it reports. *)
Definition reported_when_absent (e : evaluator) (properties : list (string * value))
  : list (string * string) :=
  match e with
  | ConfigEvaluator =>
      [("org_id", "Missing organization ID (org_id)");
       ("wallet_id", "Missing wallet ID (wallet_id)");
       ("api_public_key", "Missing API public key (api_public_key)");
       ("api_private_key", "Missing API private key (api_private_key)");
       ("base_url", "Missing base URL (base_url)")]
  | PolicyEvaluator =>
      if simplified_shape properties then []
      else [("required_approvals", "Missing required_approvals field");
            ("signing_keys", "No signing keys defined in the policy");
            ("allowed_activities", "No allowed_activities defined in the policy")]
  | TransactionEvaluator =>
      [("organizationId", "Missing organizationId field");
       ("type", "Missing type field");
       ("timestampMs", "Missing timestampMs field");
       ("parameters", "Missing parameters object")]
  end.

(** Every issue push is followed at once by the suggestion push of the same
    check, and nothing else is pushed. *)
Inductive aligned : trace -> Prop :=
| aligned_nil : aligned []
| aligned_cons (i s : string) (t : trace) :
    aligned t -> aligned (Issue i :: Suggestion s :: t).

(** [v.key] where it does not throw, [Undefined] elsewhere. *)
Definition property (v : value) (key : string) : value :=
  match v with
  | Object properties => field properties key
  | _ => Undefined
  end.

(** The rule in its own words, with no part of the program in it: the type
    of the entry is the string [SIGN_WITH_INTENT] or the string
    [SIGN_TRANSACTION]. *)
Definition signing_activity (activity : value) : bool :=
  match property activity "type" with
  | Str type => String.eqb type "SIGN_WITH_INTENT" || String.eqb type "SIGN_TRANSACTION"
  | _ => false
  end.

(** The first entry of [allowed_activities], in list order, whose type is
    [SIGN_WITH_INTENT] or [SIGN_TRANSACTION]. *)
Definition first_signing_activity (properties : list (string * value)) : option value :=
  match field properties "allowed_activities" with
  | Array activities => List.find signing_activity activities
  | _ => None
  end.

(** The entry is a [SIGN_WITH_INTENT] activity without [parameters]. *)
Definition intent_without_parameters (activity : value) : bool :=
  strict_eq_string (property activity "type") "SIGN_WITH_INTENT"
  && negb (truthy (property activity "parameters")).

(** The entry is a [SIGN_WITH_INTENT] activity whose [parameters] have no
    [intent_action]. *)
Definition intent_without_action (activity : value) : bool :=
  strict_eq_string (property activity "type") "SIGN_WITH_INTENT"
  && truthy (property activity "parameters")
  && negb (truthy (property (property activity "parameters") "intent_action")).

(** The issue that the rule on [SIGN_WITH_INTENT] owes to a policy: it is
    decided by the first signing activity alone. *)
Definition sign_with_intent_issue (properties : list (string * value)) : option string :=
  match first_signing_activity properties with
  | Some activity =>
      if intent_without_parameters activity
      then Some "SIGN_WITH_INTENT activity is missing parameters"
      else if intent_without_action activity
           then Some "SIGN_WITH_INTENT activity is missing intent_action parameter"
           else None
  | None => None
  end.

(** Issues other than the one on an invalid [effect]. *)
Definition not_invalid_effect (i : string) : bool :=
  negb (starts_with "Invalid effect value" i).

(** Issues other than the one on a missing [required_approvals]. *)
Definition not_missing_approvals (i : string) : bool :=
  negb (String.eqb i "Missing required_approvals field").

(** The issues of the rule on [SIGN_WITH_INTENT]. *)
Definition intent_issue (i : string) : bool :=
  starts_with "SIGN_WITH_INTENT activity is missing " i.

Definition no_intent_issue (i : string) : bool := negb (intent_issue i).

(** The issues of the sub-field checks of [parameters] in a transaction. *)
Definition subfield_issue (i : string) : bool :=
  String.eqb i "Missing transaction type in parameters"
  || starts_with "Unsupported blockchain type: " i
  || String.eqb i "Missing signWith address in parameters"
  || String.eqb i "Invalid Ethereum address format"
  || String.eqb i "Missing unsignedTransaction in parameters"
  || String.eqb i "Invalid transaction hex format".

(** Their suggestions. *)
Definition subfield_suggestion (s : string) : bool :=
  starts_with "Add the transaction type to parameters:" s
  || starts_with "Use one of the supported blockchain types: " s
  || starts_with "Add the address to sign with:" s
  || starts_with "Ethereum addresses should start with " s
  || starts_with "Add the unsigned transaction hex:" s
  || starts_with "Transaction hex should contain only hexadecimal characters" s.

(** What the checks of [organizationId], [type] and [timestampMs] may push. *)
Definition header_issue (i : string) : bool :=
  negb (subfield_issue i) && negb (String.eqb i "Missing parameters object").

Definition header_suggestion (s : string) : bool :=
  negb (subfield_suggestion s).

(** The issues of the structured-variant checks of [analyzePolicy]. *)
Definition structured_issue (i : string) : bool :=
  String.eqb i "Missing required_approvals field"
  || String.eqb i "required_approvals must be at least 1"
  || String.eqb i "No signing keys defined in the policy"
  || starts_with "Signing key at index " i
  || String.eqb i "No allowed_activities defined in the policy"
  || starts_with "Allowed activity at index " i
  || starts_with "Solana policy condition at index " i
  || starts_with "SIGN_WITH_INTENT activity is missing " i.

(** Every issue of a trace passes test [A] and every suggestion test [B]. *)
Definition each_push (A B : string -> bool) (e : push) : Prop :=
  match e with
  | Issue i => A i = true
  | Suggestion s => B s = true
  end.

Definition any_text (s : string) : bool := true.

(** The issues an invocation returns. *)
Definition issues_returned (o : outcome AnalysisResult) : outcome (list string) :=
  r <- o ;; Returns (issues r).

(** Two statements throw the same error, or complete with the same issues. *)
Definition same_issues (a b : stmt) : Prop :=
  match a, b with
  | Returns t1, Returns t2 => issues_of t1 = issues_of t2
  | Throws e1, Throws e2 => e1 = e2
  | _, _ => False
  end.

(** An expression or a statement completes: it does not throw. *)
Definition completes {A : Type} (m : outcome A) : Prop :=
  exists a, m = Returns a.

(** Statement [s] completes, and with issue [i] among its pushes. *)
Definition reports (i : string) (s : stmt) : Prop :=
  exists t, s = Returns t /\ In i (issues_of t).

(** A property of traces that holds of the empty trace and of the
    concatenation of two traces that have it. *)
Class TraceInvariant (I : trace -> Prop) : Prop := {
  inv_nil : I [];
  inv_app : forall t1 t2, I t1 -> I t2 -> I (t1 ++ t2)
}.

(** When statement [s] completes, its pushes satisfy [I]. *)
Definition ensures (I : trace -> Prop) (s : stmt) : Prop :=
  forall t, s = Returns t -> I t.

(** Issues other than the one on an unsupported transaction type. *)
Definition other_issue (i : string) : bool :=
  negb (starts_with "Unsupported transaction type" i).

(** Issues that no structured-variant check pushes. *)
Definition simplified_issue (i : string) : bool := negb (structured_issue i).

(** The list takes at most one issue from each slot, in the order of the
    slots; a slot is the test of the issues that may fill it. *)
Fixpoint in_order (slots : list (string -> bool)) (l : list string) : Prop :=
  match slots with
  | [] => l = []
  | slot :: rest =>
      in_order rest l \/
      match l with
      | i :: l' => slot i = true /\ in_order rest l'
      | [] => False
      end
  end.

(** The issue is one of these texts. *)
Definition one_of (texts : list string) (i : string) : bool :=
  existsb (String.eqb i) texts.

(** The issue is one of these texts, or starts with this prefix. *)
Definition one_of_or_prefixed (texts : list string) (prefix : string) (i : string) : bool :=
  one_of texts i || starts_with prefix i.

(** When statement [s] completes, its issues fill [slots] in order. *)
Definition fills (slots : list (string -> bool)) (s : stmt) : Prop :=
  forall t, s = Returns t -> in_order slots (issues_of t).

(** The slots of the checks of [analyzeConfig]. *)
Definition config_slots : list (string -> bool) :=
  [one_of ["Missing organization ID (org_id)"];
   one_of ["Missing wallet ID (wallet_id)"];
   one_of ["Missing API public key (api_public_key)"];
   one_of ["Missing API private key (api_private_key)";
           "API private key appears to be invalid or too short"];
   one_of ["Missing base URL (base_url)"; "Base URL should use HTTPS for security"];
   one_of ["API public key format appears invalid (might cause 401 errors)"]].

(** The slots of the checks of [analyzeTransaction]. *)
Definition transaction_slots : list (string -> bool) :=
  [one_of ["Missing organizationId field"];
   one_of_or_prefixed ["Missing type field"] "Unsupported transaction type: ";
   one_of ["Missing timestampMs field"];
   one_of_or_prefixed ["Missing parameters object"; "Missing transaction type in parameters"]
     "Unsupported blockchain type: ";
   one_of ["Missing signWith address in parameters"; "Invalid Ethereum address format"];
   one_of ["Missing unsignedTransaction in parameters"; "Invalid transaction hex format"]].

(** The slots of the checks of [analyzeSimplifiedPolicy]. *)
Definition simplified_policy_slots : list (string -> bool) :=
  [one_of ["Missing policyName field"];
   one_of_or_prefixed ["Missing effect field"] "Invalid effect value: ";
   one_of ["Missing condition field"; "Condition contains placeholder <SENDER_ADDRESS>"];
   one_of ["Solana condition might be missing quantifier (all/any)"]].

(** Issues other than [issue]. *)
Definition is_not (issue i : string) : bool := negb (String.eqb i issue).

(** A signing key with a [key_id] and a [public_key]. *)
Definition complete_key (key : value) : bool :=
  truthy (property key "key_id") && truthy (property key "public_key").

(** A condition that the checks of policy.ts let through: none, or a string
    without the placeholder which, if it names [solana.tx.transfers], has a
    quantifier. *)
Definition acceptable_condition (condition : value) : bool :=
  match condition with
  | Str s =>
      negb (string_includes "<SENDER_ADDRESS>" s)
      && (negb (string_includes "solana.tx.transfers" s)
          || string_includes ".all(" s || string_includes ".any(" s)
  | _ => negb (truthy condition)
  end.

(** An allowed activity with a [type], at least one resource, and an
    acceptable condition in its parameters. *)
Definition complete_activity (activity : value) : bool :=
  truthy (property activity "type")
  && match property activity "resources" with
     | Array (_ :: _) => true
     | _ => false
     end
  && acceptable_condition (property (property activity "parameters") "condition").

Definition nonempty (s : string) : bool := negb (String.eqb s EmptyString).

(** What the command is expected to print of the finding at position [i]:
    the numbered issue, its suggested fix and, in verbose mode, the
    explanation asked for that issue and that fix. *)
Definition block (sys : system) (verbose : bool) (i : nat) (issue suggestion : string)
  : list entry :=
  [Stdout (Str (colors.yellow (js "\n[Issue " ++ index_to_string (S i) ++ "]:")%string));
   Stdout (Str issue);
   Stdout (Str (colors.green (js "\n[Suggested Fix]:")));
   Stdout (Str suggestion)]
  ++ (if verbose
      then let explanation := generateExplanation sys issue (Some suggestion) in
           Stdout (Str (colors.blue (js "\n[Detailed Explanation]:")))
           :: snd explanation ++ [Stdout (fst explanation)]
      else []).

Fixpoint blocks (sys : system) (verbose : bool) (i : nat) (findings : list (string * string))
  : list entry :=
  match findings with
  | [] => []
  | (issue, suggestion) :: rest =>
      block sys verbose i issue suggestion ++ blocks sys verbose (S i) rest
  end.

(** * Properties *)

(** ** Traces and their projections *)

Lemma issues_of_app (t1 t2 : trace) :
  issues_of (t1 ++ t2) = issues_of t1 ++ issues_of t2.
Proof.
  induction t1 as [|[i|s] t1 IH]; simpl; [reflexivity | f_equal; exact IH | exact IH].
Qed.

Lemma suggestions_of_app (t1 t2 : trace) :
  suggestions_of (t1 ++ t2) = suggestions_of t1 ++ suggestions_of t2.
Proof.
  induction t1 as [|[i|s] t1 IH]; simpl; [reflexivity | exact IH | f_equal; exact IH].
Qed.

Lemma aligned_app (t1 t2 : trace) : aligned t1 -> aligned t2 -> aligned (t1 ++ t2).
Proof.
  induction 1 as [|i s t H IH]; intros H2; simpl.
  - exact H2.
  - constructor. apply IH, H2.
Qed.

Lemma aligned_lengths (t : trace) :
  aligned t -> length (suggestions_of t) = length (issues_of t).
Proof.
  induction 1 as [|i s t H IH]; simpl; [reflexivity | now rewrite IH].
Qed.

Lemma aligned_no_issue (t : trace) : aligned t -> issues_of t = [] -> t = [].
Proof.
  destruct 1; simpl; [reflexivity | discriminate].
Qed.

(** ** Properties that every check of a run preserves *)

#[local] Instance aligned_invariant : TraceInvariant aligned.
Proof. split; [constructor | exact aligned_app]. Qed.

#[local] Instance Forall_invariant (P : push -> Prop) : TraceInvariant (Forall P).
Proof. split; [constructor | intros t1 t2 H1 H2; apply Forall_app; split; assumption]. Qed.

Section Ensures.

Context {I : trace -> Prop} `{TraceInvariant I}.

Lemma ensures_skip : ensures I skip.
Proof. intros t [= <-]. apply inv_nil. Qed.

Lemma ensures_throws (e : error) : ensures I (Throws e).
Proof. intros t [=]. Qed.

Lemma ensures_report (i s : string) : I [Issue i; Suggestion s] -> ensures I (report i s).
Proof. intros HI t [= <-]. exact HI. Qed.

Lemma ensures_bind {A : Type} (e : outcome A) (f : A -> stmt) :
  (forall a, ensures I (f a)) -> ensures I (x <- e ;; f x).
Proof. intros Hf t. destruct e as [a|err]; simpl; [apply Hf | discriminate]. Qed.

Lemma ensures_seq (a b : stmt) : ensures I a -> ensures I b -> ensures I (a ;;; b).
Proof.
  intros Ha Hb t. unfold seq.
  destruct a as [t1|]; simpl; [|discriminate].
  destruct b as [t2|]; simpl; [|discriminate].
  intros [= <-]. apply inv_app; [apply Ha | apply Hb]; reflexivity.
Qed.

Lemma ensures_if (c : bool) (a b : stmt) :
  ensures I a -> ensures I b -> ensures I (if c then a else b).
Proof. destruct c; auto. Qed.

Lemma ensures_if_else (c : outcome bool) (a b : stmt) :
  ensures I a -> ensures I b -> ensures I (if_else c a b).
Proof. intros Ha Hb. apply ensures_bind. intros x. now apply ensures_if. Qed.

Lemma ensures_when (c : outcome bool) (body : stmt) :
  ensures I body -> ensures I (when c body).
Proof. intros Hb. apply ensures_bind. intros x. apply ensures_if; [exact Hb | apply ensures_skip]. Qed.

Lemma ensures_forEach_from (f : value -> nat -> stmt) :
  (forall x index, ensures I (f x index)) ->
  forall l index, ensures I (forEach_from index l f).
Proof.
  intros Hf l. induction l as [|x l IH]; intros index; simpl.
  - apply ensures_skip.
  - apply ensures_seq; [apply Hf | apply IH].
Qed.

Lemma ensures_forEach (v : value) (f : value -> nat -> stmt) :
  (forall x index, ensures I (f x index)) -> ensures I (js_forEach v f).
Proof.
  intros Hf. destruct v; simpl; try apply ensures_throws.
  now apply ensures_forEach_from.
Qed.

Lemma ensures_closing (checks closing : stmt) :
  ensures I checks -> ensures I closing ->
  ensures I (t <- checks ;;
             last <- match issues_of t with [] => closing | _ :: _ => skip end ;;
             Returns (t ++ last)).
Proof.
  intros Hc Hl t. destruct checks as [t0|]; cbn [bind]; [|discriminate].
  destruct (issues_of t0).
  - destruct closing as [last|]; cbn [bind]; [|discriminate].
    intros [= <-]. apply inv_app; [now apply Hc | now apply Hl].
  - cbn. intros [= <-]. apply inv_app; [now apply Hc | apply inv_nil].
Qed.

End Ensures.

Create HintDb checks.
#[local] Hint Unfold
  analyzeConfig_pushes check_org_id check_wallet_id check_api_public_key
  check_api_private_key check_base_url check_api_public_key_format
  structured_policy_pushes check_required_approvals check_signing_keys
  check_signing_key check_allowed_activities check_allowed_activity
  check_activity_condition check_sign_with_intent
  simplified_policy_checks check_policyName check_effect check_condition
  transaction_checks check_organizationId check_type check_timestampMs
  check_parameters check_parameters_type check_signWith check_unsignedTransaction
  : checks.

(** Breaks a goal [ensures I s] along the structure of [s], leaving each
    [report] to [leaf]. *)
Ltac ensures_by leaf :=
  autounfold with checks;
  repeat first
    [ apply ensures_skip
    | apply ensures_throws
    | apply ensures_report; leaf
    | apply ensures_seq
    | apply ensures_when
    | apply ensures_if_else
    | apply ensures_if
    | apply ensures_forEach; intros ? ?
    | apply ensures_bind; intros ? ].

(** ** Suggestions and issues go in pairs *)

Lemma aligned_report (i s : string) : aligned [Issue i; Suggestion s].
Proof. repeat constructor. Qed.

Lemma analyzeConfig_aligned (config : value) :
  ensures aligned (analyzeConfig_pushes config).
Proof. ensures_by ltac:(apply aligned_report). Qed.

Lemma structured_policy_aligned (policy : value) :
  ensures aligned (structured_policy_pushes policy).
Proof. ensures_by ltac:(apply aligned_report). Qed.

Lemma simplified_policy_aligned (policy : value) :
  ensures aligned (simplified_policy_checks policy).
Proof. ensures_by ltac:(apply aligned_report). Qed.

Lemma transaction_checks_aligned (now : Z) (transaction : value) :
  ensures aligned (transaction_checks now transaction).
Proof. ensures_by ltac:(apply aligned_report). Qed.

(** The shape of a complete run: pairs only, or the one suggestion that
    [analyzeTransaction] and [analyzeSimplifiedPolicy] push when they found
    no issue. *)
Lemma analyzeSimplifiedPolicy_shape (policy : value) (t : trace) :
  analyzeSimplifiedPolicy_pushes policy = Returns t ->
  aligned t \/ exists s, t = [Suggestion s].
Proof.
  unfold analyzeSimplifiedPolicy_pushes.
  destruct (simplified_policy_checks policy) as [t0|] eqn:E0; simpl; [|discriminate].
  pose proof (simplified_policy_aligned policy t0 E0) as Ht0.
  destruct (issues_of t0) eqn:Ei.
  - destruct (policy_looks_valid policy) as [text|]; simpl; [|discriminate].
    intros [= <-]. right. exists text. now rewrite (aligned_no_issue t0 Ht0 Ei).
  - simpl. intros [= <-]. left. now rewrite app_nil_r.
Qed.

Lemma analyzeTransaction_shape (now : Z) (transaction : value) (t : trace) :
  analyzeTransaction_pushes now transaction = Returns t ->
  aligned t \/ exists s, t = [Suggestion s].
Proof.
  unfold analyzeTransaction_pushes.
  destruct (transaction_checks now transaction) as [t0|] eqn:E0; simpl; [|discriminate].
  pose proof (transaction_checks_aligned now transaction t0 E0) as Ht0.
  destruct (issues_of t0) eqn:Ei; simpl; intros [= <-].
  - right. exists next_steps. now rewrite (aligned_no_issue t0 Ht0 Ei).
  - left. now rewrite app_nil_r.
Qed.

Lemma evaluate_pushes_shape (e : evaluator) (now : Z) (document : value) (t : trace) :
  evaluate_pushes e now document = Returns t ->
  aligned t \/
  (exists s, t = [Suggestion s]) /\
  (e = TransactionEvaluator \/
   e = PolicyEvaluator /\ is_simplified_policy document = Returns true).
Proof.
  destruct e; simpl.
  - intros E. left. exact (analyzeConfig_aligned document t E).
  - unfold analyzePolicy_pushes.
    destruct (is_simplified_policy document) as [[|]|] eqn:Es; simpl; [| |discriminate].
    + intros E. destruct (analyzeSimplifiedPolicy_shape document t E) as [Ha|Hs];
        [left; exact Ha | right; split; [exact Hs | right; split; reflexivity]].
    + intros E. left. exact (structured_policy_aligned document t E).
  - intros E. destruct (analyzeTransaction_shape now document t E) as [Ha|Hs];
      [left; exact Ha | right; split; [exact Hs | left; reflexivity]].
Qed.

Lemma evaluate_result (e : evaluator) (now : Z) (document : value) :
  evaluate e now document = (t <- evaluate_pushes e now document ;; Returns (result_of t)).
Proof. destruct e; reflexivity. Qed.

(** A run of analyzeTransaction without an issue pushes the next steps, and
    nothing else. *)
Lemma analyzeTransaction_without_issue (now : Z) (transaction : value) (t : trace) :
  analyzeTransaction_pushes now transaction = Returns t ->
  issues_of t = [] -> t = [Suggestion next_steps].
Proof.
  unfold analyzeTransaction_pushes.
  destruct (transaction_checks now transaction) as [t0|] eqn:E0; cbn [bind]; [|discriminate].
  pose proof (transaction_checks_aligned now transaction t0 E0) as Ht0.
  destruct (issues_of t0) eqn:Ei; cbn [bind skip]; intros [= <-] Hi.
  - now rewrite (aligned_no_issue t0 Ht0 Ei).
  - rewrite issues_of_app, Ei in Hi. discriminate Hi.
Qed.

(** A run of analyzeSimplifiedPolicy without an issue pushes the text on the
    use of the policy, and nothing else. *)
Lemma analyzeSimplifiedPolicy_without_issue (policy : value) (t : trace) :
  analyzeSimplifiedPolicy_pushes policy = Returns t ->
  issues_of t = [] ->
  exists text, policy_looks_valid policy = Returns text /\ t = [Suggestion text].
Proof.
  unfold analyzeSimplifiedPolicy_pushes.
  destruct (simplified_policy_checks policy) as [t0|] eqn:E0; cbn [bind]; [|discriminate].
  pose proof (simplified_policy_aligned policy t0 E0) as Ht0.
  destruct (issues_of t0) eqn:Ei.
  - destruct (policy_looks_valid policy) as [text|]; cbn [bind]; [|discriminate].
    intros [= <-] _. exists text. now rewrite (aligned_no_issue t0 Ht0 Ei).
  - cbn [bind skip]. intros [= <-] Hi. rewrite issues_of_app, Ei in Hi. discriminate Hi.
Qed.

(** C8. Whenever an evaluator returns, its suggestions are at least as many
    as its issues; with at least one issue the two lists have the same
    length; the lengths differ only when there is no issue and exactly one
    suggestion, and then the evaluator is analyzeTransaction or analyzePolicy
    on the simplified path.  Without an issue, analyzeTransaction returns
    exactly one suggestion, the text of the next steps; analyzePolicy on the
    simplified path returns exactly one suggestion, the text on the use of
    the policy; analyzeConfig and analyzePolicy on the structured path return
    none.  In the run every issue push is followed at once by the suggestion
    push of the same check, so that the suggestion at index i comes from the
    check of the issue at index i. *)
Theorem suggestions_pair_with_issues
  (e : evaluator) (now : Z) (document : value) (r : AnalysisResult) :
  evaluate e now document = Returns r ->
  length (issues r) <= length (suggestions r)
  /\ (issues r <> [] -> length (suggestions r) = length (issues r))
  /\ (length (suggestions r) <> length (issues r) ->
      issues r = [] /\ length (suggestions r) = 1
      /\ (e = TransactionEvaluator \/
          e = PolicyEvaluator /\ is_simplified_policy document = Returns true))
  /\ (issues r = [] ->
      match e with
      | ConfigEvaluator => suggestions r = []
      | PolicyEvaluator =>
          (is_simplified_policy document = Returns true ->
           exists text, policy_looks_valid document = Returns text
                        /\ suggestions r = [text])
          /\ (is_simplified_policy document = Returns false -> suggestions r = [])
      | TransactionEvaluator => suggestions r = [next_steps]
      end)
  /\ exists t, evaluate_pushes e now document = Returns t /\ r = result_of t
               /\ (aligned t \/ exists s, t = [Suggestion s]).
Proof.
  rewrite evaluate_result.
  destruct (evaluate_pushes e now document) as [t|] eqn:E; simpl; [|discriminate].
  intros [= <-]. simpl.
  assert (Hclean : issues_of t = [] ->
                   match e with
                   | ConfigEvaluator => suggestions_of t = []
                   | PolicyEvaluator =>
                       (is_simplified_policy document = Returns true ->
                        exists text, policy_looks_valid document = Returns text
                                     /\ suggestions_of t = [text])
                       /\ (is_simplified_policy document = Returns false ->
                           suggestions_of t = [])
                   | TransactionEvaluator => suggestions_of t = [next_steps]
                   end).
  { intros Hi. destruct e; cbn [evaluate_pushes] in E.
    - now rewrite (aligned_no_issue t (analyzeConfig_aligned document t E) Hi).
    - unfold analyzePolicy_pushes in E. split; intros Hs; rewrite Hs in E; cbn [bind] in E.
      + destruct (analyzeSimplifiedPolicy_without_issue document t E Hi) as [text [El ->]].
        now exists text.
      + now rewrite (aligned_no_issue t (structured_policy_aligned document t E) Hi).
    - now rewrite (analyzeTransaction_without_issue now document t E Hi). }
  destruct (evaluate_pushes_shape e now document t E) as [Ha|[[s ->] He]].
  - pose proof (aligned_lengths t Ha) as L.
    split; [lia|]. split; [intros _; exact L|]. split; [intros D; contradiction|].
    split; [exact Hclean|].
    exists t. split; [reflexivity|]. split; [reflexivity|]. now left.
  - simpl. split; [lia|]. split; [intros D; contradiction|].
    split; [intros _; split; [reflexivity|]; split; [reflexivity|exact He]|].
    split; [exact Hclean|].
    exists [Suggestion s]. split; [reflexivity|]. split; [reflexivity|].
    right. now exists s.
Qed.

(** ** Tests that every push of a run passes *)

Lemma each_push_issues (A B : string -> bool) (t : trace) :
  Forall (each_push A B) t -> Forall (fun i => A i = true) (issues_of t).
Proof.
  induction 1 as [|[i|s] t Hx Ht IH]; simpl; [constructor | constructor; assumption | assumption].
Qed.

Lemma each_push_suggestions (A B : string -> bool) (t : trace) :
  Forall (each_push A B) t -> Forall (fun s => B s = true) (suggestions_of t).
Proof.
  induction 1 as [|[i|s] t Hx Ht IH]; simpl; [constructor | assumption | constructor; assumption].
Qed.

Ltac each_push_leaf := repeat constructor.

Lemma analyzeSimplifiedPolicy_pushes_eq (policy : value) :
  analyzeSimplifiedPolicy_pushes policy =
  (t <- simplified_policy_checks policy ;;
   last <- match issues_of t with
           | [] => text <- policy_looks_valid policy ;; Returns [Suggestion text]
           | _ :: _ => skip
           end ;;
   Returns (t ++ last)).
Proof. reflexivity. Qed.

Lemma analyzeTransaction_pushes_eq (now : Z) (transaction : value) :
  analyzeTransaction_pushes now transaction =
  (t <- transaction_checks now transaction ;;
   last <- match issues_of t with
           | [] => Returns [Suggestion next_steps]
           | _ :: _ => skip
           end ;;
   Returns (t ++ last)).
Proof. reflexivity. Qed.

(** ** The pipeline never reports an unsupported transaction type *)

Lemma analyzeConfig_other_issues (config : value) :
  ensures (Forall (each_push other_issue any_text)) (analyzeConfig_pushes config).
Proof. ensures_by each_push_leaf. Qed.

Lemma analyzePolicy_other_issues (policy : value) :
  ensures (Forall (each_push other_issue any_text)) (analyzePolicy_pushes policy).
Proof.
  unfold analyzePolicy_pushes. apply ensures_bind. intros simplified. apply ensures_if.
  - rewrite analyzeSimplifiedPolicy_pushes_eq. apply ensures_closing.
    + ensures_by each_push_leaf.
    + apply ensures_bind. intros text. intros t [= <-]. each_push_leaf.
  - ensures_by each_push_leaf.
Qed.

(** On a document that the command takes for a transaction request, the
    test of [type] in [analyzeTransaction] pushes nothing. *)
Lemma check_type_of_transaction_request (data : value) :
  is_transaction_request data = Returns true -> check_type data = skip.
Proof.
  unfold is_transaction_request, and_then, check_type, if_else, when, falsy_field.
  destruct (js_in "type" data) as [[|]|]; simpl; try discriminate.
  destruct (get_field data "type") as [type|]; simpl; [|discriminate].
  destruct type; simpl; try discriminate.
  intros [= E]. apply String.eqb_eq in E. subst s. reflexivity.
Qed.

Lemma analyzeTransaction_other_issues (now : Z) (data : value) :
  is_transaction_request data = Returns true ->
  ensures (Forall (each_push other_issue any_text)) (analyzeTransaction_pushes now data).
Proof.
  intros Htx. rewrite analyzeTransaction_pushes_eq. apply ensures_closing.
  - unfold transaction_checks. rewrite (check_type_of_transaction_request data Htx).
    apply ensures_seq; [ensures_by each_push_leaf|].
    apply ensures_seq; [apply ensures_skip|].
    ensures_by each_push_leaf.
  - intros t [= <-]. each_push_leaf.
Qed.

(** C10. In the pipeline of checkConfig, analyzeTransaction runs only on a
    document whose type equals ACTIVITY_TYPE_SIGN_TRANSACTION_V2; on such a
    document the test of type pushes nothing, so the branch of the
    unsupported transaction type never executes, and no result of the
    pipeline holds an issue that starts with Unsupported transaction type. *)
Theorem unsupported_transaction_type_unreachable (now : Z) (data : value) :
  (detect_file_type data = Returns Transaction ->
   is_transaction_request data = Returns true /\ check_type data = skip)
  /\ forall (fileType : file_type) (r : AnalysisResult),
       checkConfig now data = Returns (fileType, r) ->
       Forall (fun i => starts_with "Unsupported transaction type" i = false) (issues r).
Proof.
  assert (Hdetect : detect_file_type data = Returns Transaction ->
                    is_transaction_request data = Returns true).
  { unfold detect_file_type.
    destruct (is_transaction_request data) as [[|]|]; simpl; try discriminate; [reflexivity|].
    destruct (is_policy_file data) as [[|]|]; simpl; discriminate. }
  split.
  - intros Hd. split; [now apply Hdetect | now apply check_type_of_transaction_request, Hdetect].
  - intros fileType r. unfold checkConfig.
    destruct (detect_file_type data) as [ft|] eqn:Ed; simpl; [|discriminate].
    assert (Hall : forall t, Forall (each_push other_issue any_text) t ->
                   Forall (fun i => starts_with "Unsupported transaction type" i = false)
                          (issues_of t)).
    { intros t Ht. apply each_push_issues in Ht.
      eapply Forall_impl; [|exact Ht]. intros i. unfold other_issue.
      now destruct (starts_with "Unsupported transaction type" i). }
    destruct ft.
    + unfold analyzeTransaction.
      destruct (analyzeTransaction_pushes now data) as [t|] eqn:Et; simpl; [|discriminate].
      intros [= _ <-]. apply Hall.
      exact (analyzeTransaction_other_issues now data (Hdetect eq_refl) t Et).
    + unfold analyzePolicy.
      destruct (analyzePolicy_pushes data) as [t|] eqn:Et; simpl; [|discriminate].
      intros [= _ <-]. apply Hall. exact (analyzePolicy_other_issues data t Et).
    + unfold analyzeConfig.
      destruct (analyzeConfig_pushes data) as [t|] eqn:Et; simpl; [|discriminate].
      intros [= _ <-]. apply Hall. exact (analyzeConfig_other_issues data t Et).
Qed.

(** ** Classification *)

(** C3, as amended. A parsed document that is an object is classified by the
    first match: a transaction when it has a type field equal to
    ACTIVITY_TYPE_SIGN_TRANSACTION_V2, otherwise a policy when it has a
    required_approvals key, a signing_keys key or all of policyName, effect
    and condition, otherwise a config; a document that is an array is a
    config. *)
Theorem detect_file_type_first_match :
  (forall properties : list (string * value),
     detect_file_type (Object properties) = Returns (classification properties))
  /\ (forall elements : list value,
        detect_file_type (Array elements) = Returns Config).
Proof.
  split; [|reflexivity].
  intros properties.
  unfold detect_file_type, is_transaction_request, is_policy_file, classification,
    has_sentinel_type, simplified_shape, and_then, or_else, strict_eq_string.
  cbn [js_in get_field bind]. unfold has_own at 1, field.
  destruct (lookup "type" properties) as [type|]; cbn [bind].
  - destruct type; cbn [bind];
      try (destruct (String.eqb s sign_transaction_v2) eqn:Es;
           unfold sign_transaction_v2 in Es; rewrite Es; cbn [bind]; try reflexivity);
    destruct (has_own "required_approvals" properties),
             (has_own "signing_keys" properties),
             (has_own "policyName" properties),
             (has_own "effect" properties),
             (has_own "condition" properties); reflexivity.
  - destruct (has_own "required_approvals" properties),
             (has_own "signing_keys" properties),
             (has_own "policyName" properties),
             (has_own "effect" properties),
             (has_own "condition" properties); reflexivity.
Qed.

(** ** Values of fields, truthiness and lengths *)

Lemma field_lookup (properties : list (string * value)) (key : string) (v : value) :
  lookup key properties = Some v -> field properties key = v.
Proof. unfold field. now intros ->. Qed.

Lemma truthy_nonempty (s : string) : s <> EmptyString -> truthy (Str s) = true.
Proof.
  intros Hs. simpl. destruct (String.eqb_spec s EmptyString); [contradiction | reflexivity].
Qed.

Lemma length_nonempty (s : string) (n : nat) : S n <= String.length s -> s <> EmptyString.
Proof. intros Hn ->. simpl in Hn. lia. Qed.

Lemma starts_with_nonempty (a : ascii) (p s : string) :
  starts_with (String a p) s = true -> s <> EmptyString.
Proof. intros Hp ->. discriminate. Qed.

Lemma number_ltb_of_nat (n : nat) (k : Z) :
  number_ltb (number_of_nat n) (number_of_Z k) = (Z.of_nat n <? k)%Z.
Proof. unfold number_ltb, number_of_nat, number_of_Z. simpl. now rewrite !Z.mul_1_r. Qed.

Lemma length_lt_string (s : string) (k : Z) :
  length_lt (Str s) k = Returns (Z.of_nat (String.length s) <? k)%Z.
Proof.
  unfold length_lt, js_lt. cbn [js_length bind to_number]. now rewrite number_ltb_of_nat.
Qed.

(** ** A valid configuration *)

(** C5. A config whose org_id and wallet_id are non-empty strings, whose
    api_public_key contains TK and has at least 10 characters, whose
    api_private_key has at least 20 characters and whose base_url starts with
    https:// gets an empty list of issues and an empty list of suggestions. *)
Theorem valid_config_has_no_findings
  (properties : list (string * value))
  (org_id wallet_id api_public_key api_private_key base_url : string) :
  lookup "org_id" properties = Some (Str org_id) ->
  lookup "wallet_id" properties = Some (Str wallet_id) ->
  lookup "api_public_key" properties = Some (Str api_public_key) ->
  lookup "api_private_key" properties = Some (Str api_private_key) ->
  lookup "base_url" properties = Some (Str base_url) ->
  org_id <> EmptyString ->
  wallet_id <> EmptyString ->
  string_includes "TK" api_public_key = true ->
  10 <= String.length api_public_key ->
  20 <= String.length api_private_key ->
  starts_with "https://" base_url = true ->
  analyzeConfig (Object properties) = Returns {| issues := []; suggestions := [] |}.
Proof.
  intros Horg Hwallet Hpub Hpriv Hurl Horg' Hwallet' HTK Hpub' Hpriv' Hhttps.
  apply field_lookup in Horg, Hwallet, Hpub, Hpriv, Hurl.
  pose proof (truthy_nonempty _ Horg') as Torg.
  pose proof (truthy_nonempty _ Hwallet') as Twallet.
  pose proof (truthy_nonempty _ (length_nonempty _ 9 Hpub')) as Tpub.
  pose proof (truthy_nonempty _ (length_nonempty _ 19 Hpriv')) as Tpriv.
  pose proof (truthy_nonempty _ (starts_with_nonempty _ _ _ Hhttps)) as Turl.
  assert (Lpub : (Z.of_nat (String.length api_public_key) <? 10)%Z = false)
    by (apply Z.ltb_ge; lia).
  assert (Lpriv : (Z.of_nat (String.length api_private_key) <? 20)%Z = false)
    by (apply Z.ltb_ge; lia).
  unfold analyzeConfig, analyzeConfig_pushes.
  autounfold with checks.
  unfold when, if_else, falsy_field, truthy_field, and_then, or_else, not_.
  cbn [get_field bind].
  rewrite Horg, Hwallet, Hpub, Hpriv, Hurl.
  rewrite Torg, Twallet, Tpub, Tpriv, Turl.
  rewrite !length_lt_string, Lpub, Lpriv.
  cbn [negb bind js_startsWith js_includes].
  rewrite Hhttps, HTK.
  reflexivity.
Qed.

(** ** The simplified policy format takes precedence *)

Lemma is_simplified_policy_object (properties : list (string * value)) :
  is_simplified_policy (Object properties) = Returns (simplified_shape properties).
Proof.
  unfold is_simplified_policy, simplified_shape, and_then. cbn [js_in bind].
  destruct (has_own "policyName" properties), (has_own "effect" properties),
    (has_own "condition" properties); reflexivity.
Qed.

(** [analyzeSimplifiedPolicy] reads three fields of its document and nothing else. *)
Lemma analyzeSimplifiedPolicy_reads (p q : list (string * value)) :
  field p "policyName" = field q "policyName" ->
  field p "effect" = field q "effect" ->
  field p "condition" = field q "condition" ->
  analyzeSimplifiedPolicy (Object p) = analyzeSimplifiedPolicy (Object q).
Proof.
  intros Hname Heffect Hcondition.
  unfold analyzeSimplifiedPolicy, analyzeSimplifiedPolicy_pushes, policy_looks_valid.
  autounfold with checks. unfold falsy_field. cbn [get_field].
  now rewrite Hname, Heffect, Hcondition.
Qed.

Lemma analyzeSimplifiedPolicy_issues (policy : value) :
  ensures (Forall (each_push simplified_issue any_text)) (analyzeSimplifiedPolicy_pushes policy).
Proof.
  rewrite analyzeSimplifiedPolicy_pushes_eq. apply ensures_closing.
  - ensures_by each_push_leaf.
  - apply ensures_bind. intros text t [= <-]. each_push_leaf.
Qed.

(** C4. On a policy document that has the keys policyName, effect and
    condition, analyzePolicy returns what the simplified rules return: its
    result is that of analyzeSimplifiedPolicy, it is the same for every other
    such document with the same three values whatever its required_approvals,
    signing_keys and allowed_activities, and it holds no issue of a
    structured-variant check. *)
Theorem simplified_policy_skips_structured_checks (properties : list (string * value)) :
  simplified_shape properties = true ->
  analyzePolicy (Object properties) = analyzeSimplifiedPolicy (Object properties)
  /\ (forall other : list (string * value),
        simplified_shape other = true ->
        field other "policyName" = field properties "policyName" ->
        field other "effect" = field properties "effect" ->
        field other "condition" = field properties "condition" ->
        analyzePolicy (Object other) = analyzePolicy (Object properties))
  /\ (forall r : AnalysisResult,
        analyzePolicy (Object properties) = Returns r ->
        Forall (fun i => structured_issue i = false) (issues r)).
Proof.
  intros Hshape.
  assert (Hsimplified : forall q, simplified_shape q = true ->
            analyzePolicy (Object q) = analyzeSimplifiedPolicy (Object q)).
  { intros q Hq. unfold analyzePolicy, analyzePolicy_pushes.
    rewrite is_simplified_policy_object, Hq. reflexivity. }
  split; [now apply Hsimplified|]. split.
  - intros other Hother Hname Heffect Hcondition.
    rewrite (Hsimplified other Hother), (Hsimplified properties Hshape).
    now apply analyzeSimplifiedPolicy_reads.
  - intros r. rewrite (Hsimplified properties Hshape). unfold analyzeSimplifiedPolicy.
    destruct (analyzeSimplifiedPolicy_pushes (Object properties)) as [t|] eqn:Et;
      cbn [bind]; [|discriminate].
    intros [= <-]. cbn [issues result_of].
    pose proof (each_push_issues _ _ _ (analyzeSimplifiedPolicy_issues _ t Et)) as Hall.
    eapply Forall_impl; [|exact Hall]. intros i. unfold simplified_issue.
    now destruct (structured_issue i).
Qed.

(** ** What an invocation owes to the clock *)

Lemma same_issues_refl (a : stmt) : same_issues a a.
Proof. destruct a; reflexivity. Qed.

Lemma same_issues_seq (a1 a2 b1 b2 : stmt) :
  same_issues a1 a2 -> same_issues b1 b2 -> same_issues (a1 ;;; b1) (a2 ;;; b2).
Proof.
  unfold same_issues, seq.
  destruct a1, a2; cbn [bind]; try contradiction; [|auto].
  destruct b1, b2; cbn [bind]; try contradiction; [|auto].
  intros Ha Hb. now rewrite !issues_of_app, Ha, Hb.
Qed.

Lemma same_issues_closing (c1 c2 : stmt) (closing : trace) :
  same_issues c1 c2 ->
  same_issues
    (t <- c1 ;;
     last <- match issues_of t with [] => Returns closing | _ :: _ => skip end ;;
     Returns (t ++ last))
    (t <- c2 ;;
     last <- match issues_of t with [] => Returns closing | _ :: _ => skip end ;;
     Returns (t ++ last)).
Proof.
  unfold same_issues.
  destruct c1 as [t1|], c2 as [t2|]; cbn [bind]; try contradiction; [|auto].
  intros E. rewrite E. destruct (issues_of t2) eqn:E2; cbn;
    rewrite !issues_of_app; congruence.
Qed.

Lemma check_timestampMs_same_issues (now1 now2 : Z) (transaction : value) :
  same_issues (check_timestampMs now1 transaction) (check_timestampMs now2 transaction).
Proof.
  unfold check_timestampMs, when.
  destruct (falsy_field transaction "timestampMs") as [[|]|]; reflexivity.
Qed.

Lemma check_timestampMs_present (now1 now2 : Z) (transaction : value) :
  truthy_field transaction "timestampMs" = Returns true ->
  check_timestampMs now1 transaction = check_timestampMs now2 transaction.
Proof.
  unfold check_timestampMs, when, truthy_field, falsy_field.
  destruct (get_field transaction "timestampMs") as [v|]; cbn [bind]; [|discriminate].
  intros [= ->]. reflexivity.
Qed.

Lemma same_issues_returned (a b : stmt) :
  same_issues a b ->
  issues_returned (t <- a ;; Returns (result_of t))
  = issues_returned (t <- b ;; Returns (result_of t)).
Proof.
  unfold same_issues, issues_returned.
  destruct a, b; cbn; try contradiction; now intros ->.
Qed.

(** C1, as amended. analyzeConfig and analyzePolicy are functions of their
    document alone.  Two invocations of analyzeTransaction on one document
    return the same issues, or both throw, whatever the clock reads; their
    suggestions are the same too when the clock reads the same or when the
    timestampMs of the document is truthy. *)
Theorem evaluators_deterministic_up_to_clock
  (e : evaluator) (now1 now2 : Z) (document : value) :
  issues_returned (evaluate e now1 document) = issues_returned (evaluate e now2 document)
  /\ (e <> TransactionEvaluator \/ now1 = now2 \/
      truthy_field document "timestampMs" = Returns true ->
      evaluate e now1 document = evaluate e now2 document).
Proof.
  destruct e; try (split; reflexivity).
  split.
  - cbn [evaluate]. unfold analyzeTransaction. apply same_issues_returned.
    rewrite !analyzeTransaction_pushes_eq. apply same_issues_closing.
    unfold transaction_checks.
    repeat (apply same_issues_seq;
            try apply same_issues_refl; try apply check_timestampMs_same_issues).
  - intros [He|[->|Hts]]; [congruence | reflexivity |].
    cbn [evaluate]. unfold analyzeTransaction, analyzeTransaction_pushes, transaction_checks.
    now rewrite (check_timestampMs_present now1 now2 document Hts).
Qed.

(** ** Documents of the declared types are evaluated without exception *)

Lemma completes_seq (a b : stmt) : completes a -> completes b -> completes (a ;;; b).
Proof. intros [t1 ->] [t2 ->]. eexists. reflexivity. Qed.

Lemma completes_forEach_from (ok : value -> bool) (f : value -> nat -> stmt) :
  (forall x index, ok x = true -> completes (f x index)) ->
  forall l index, forallb ok l = true -> completes (forEach_from index l f).
Proof.
  intros Hf l. induction l as [|x l IH]; intros index Hl; cbn [forEach_from].
  - eexists. reflexivity.
  - cbn [forallb] in Hl. apply andb_prop in Hl as [Hx Hl].
    apply completes_seq; [now apply Hf | now apply IH].
Qed.

(** Closes a case in which a field holds a value outside its type. *)
Ltac mistyped :=
  match goal with H : optional _ _ = true |- _ => discriminate H end.

Ltac unfold_check :=
  autounfold with checks;
  unfold when, if_else, falsy_field, truthy_field, and_then, or_else, not_,
    length_lt, length_is_zero, length_is_not, js_lt, not_hex;
  cbn [get_field bind].

(** Splits on every test of the goal, then reads the result off. *)
Ltac by_cases :=
  unfold completes;
  repeat (cbn; match goal with |- context [if ?b then _ else _] => destruct b end);
  cbn; eexists; reflexivity.

Lemma check_org_id_completes (p : list (string * value)) :
  completes (check_org_id (Object p)).
Proof. unfold_check. by_cases. Qed.

Lemma check_wallet_id_completes (p : list (string * value)) :
  completes (check_wallet_id (Object p)).
Proof. unfold_check. by_cases. Qed.

Lemma check_api_public_key_completes (p : list (string * value)) :
  completes (check_api_public_key (Object p)).
Proof. unfold_check. by_cases. Qed.

Lemma check_api_private_key_completes (p : list (string * value)) :
  optional is_string (field p "api_private_key") = true ->
  completes (check_api_private_key (Object p)).
Proof.
  intros H. unfold_check. destruct (field p "api_private_key"); try mistyped; by_cases.
Qed.

Lemma check_base_url_completes (p : list (string * value)) :
  optional is_string (field p "base_url") = true ->
  completes (check_base_url (Object p)).
Proof.
  intros H. unfold_check. destruct (field p "base_url"); try mistyped; by_cases.
Qed.

Lemma check_api_public_key_format_completes (p : list (string * value)) :
  optional is_string (field p "api_public_key") = true ->
  completes (check_api_public_key_format (Object p)).
Proof.
  intros H. unfold_check. destruct (field p "api_public_key"); try mistyped; by_cases.
Qed.

Ltac split_typing H :=
  repeat match type of H with
         | (_ && _)%bool = true =>
             let H' := fresh H in apply andb_prop in H as [H H']
         end.

Lemma check_required_approvals_completes (p : list (string * value)) :
  optional is_number (field p "required_approvals") = true ->
  completes (check_required_approvals (Object p)).
Proof.
  intros H. unfold_check. destruct (field p "required_approvals"); try mistyped; by_cases.
Qed.

Lemma check_signing_key_completes (key : value) (index : nat) :
  is_SigningKey key = true -> completes (check_signing_key key index).
Proof.
  destruct key; try discriminate. intros _. unfold_check. by_cases.
Qed.

Lemma check_signing_keys_completes (p : list (string * value)) :
  optional (array_of is_SigningKey) (field p "signing_keys") = true ->
  completes (check_signing_keys (Object p)).
Proof.
  intros H. unfold check_signing_keys, if_else, falsy_field, or_else, length_is_zero.
  cbn [get_field bind].
  destruct (field p "signing_keys") as [| | | | |keys|]; try discriminate H.
  - eexists. reflexivity.
  - cbn [truthy negb bind js_length]. destruct (strict_eq_zero _).
    + eexists. reflexivity.
    + cbn [js_forEach]. apply (completes_forEach_from is_SigningKey);
        [intros; now apply check_signing_key_completes | exact H].
Qed.

Lemma check_activity_condition_completes (q : list (string * value)) (index : nat) :
  optional (object_with (fun r => optional is_string (field r "condition")))
    (field q "parameters") = true ->
  completes (check_activity_condition (Object q) index).
Proof.
  intros H. unfold_check.
  destruct (field q "parameters") as [| | | | | |r]; try mistyped; [by_cases|].
  cbn [optional object_with] in H. cbn [truthy get_field bind].
  destruct (field r "condition"); try mistyped; by_cases.
Qed.

Lemma check_allowed_activity_completes (activity : value) (index : nat) :
  is_AllowedActivity activity = true -> completes (check_allowed_activity activity index).
Proof.
  destruct activity as [| | | | | |q]; try discriminate. cbn [is_AllowedActivity object_with].
  intros H. split_typing H.
  unfold check_allowed_activity. repeat apply completes_seq.
  - unfold_check. by_cases.
  - unfold_check. destruct (field q "resources"); by_cases.
  - now apply check_activity_condition_completes.
Qed.

Lemma check_allowed_activities_completes (p : list (string * value)) :
  optional (array_of is_AllowedActivity) (field p "allowed_activities") = true ->
  completes (check_allowed_activities (Object p)).
Proof.
  intros H. unfold check_allowed_activities, if_else, falsy_field, or_else, length_is_zero.
  cbn [get_field bind].
  destruct (field p "allowed_activities") as [| | | | |activities|]; try discriminate H.
  - eexists. reflexivity.
  - cbn [truthy negb bind js_length]. destruct (strict_eq_zero _).
    + eexists. reflexivity.
    + cbn [js_forEach]. apply (completes_forEach_from is_AllowedActivity);
        [intros; now apply check_allowed_activity_completes | exact H].
Qed.

(** What [find] answers on a list of activities: [undefined], or one of them. *)
Lemma find_first_activity (activities : list value) :
  forallb is_AllowedActivity activities = true ->
  exists x, find_first is_signing_activity activities = Returns x
            /\ (x = Undefined \/ is_AllowedActivity x = true).
Proof.
  induction activities as [|a l IH]; cbn [find_first forallb].
  - intros _. exists Undefined. split; [reflexivity | now left].
  - intros H. apply andb_prop in H as [Ha Hl].
    destruct a as [| | | | | |q]; try discriminate Ha.
    unfold is_signing_activity at 1. cbn [get_field bind].
    destruct (_ || _)%bool.
    + exists (Object q). split; [reflexivity | now right].
    + now apply IH.
Qed.

Lemma check_sign_with_intent_completes (p : list (string * value)) :
  optional (array_of is_AllowedActivity) (field p "allowed_activities") = true ->
  completes (check_sign_with_intent (Object p)).
Proof.
  intros H. unfold check_sign_with_intent. cbn [get_field bind].
  destruct (field p "allowed_activities") as [| | | | |activities|]; try discriminate H.
  - eexists. reflexivity.
  - cbn [js_optional_find].
    destruct (find_first_activity activities H) as [x [-> [->|Hx]]]; cbn [bind].
    + eexists. reflexivity.
    + destruct x as [| | | | | |q]; try discriminate Hx.
      unfold_check. destruct (field q "parameters"); by_cases.
Qed.

Lemma structured_policy_completes (p : list (string * value)) :
  is_TurnkeyPolicy (Object p) = true -> completes (structured_policy_pushes (Object p)).
Proof.
  cbn [is_TurnkeyPolicy object_with]. intros H. split_typing H.
  unfold structured_policy_pushes. repeat apply completes_seq.
  - now apply check_required_approvals_completes.
  - now apply check_signing_keys_completes.
  - now apply check_allowed_activities_completes.
  - now apply check_sign_with_intent_completes.
Qed.

Lemma analyzeConfig_pushes_completes (p : list (string * value)) :
  is_TurnkeyConfig (Object p) = true -> completes (analyzeConfig_pushes (Object p)).
Proof.
  cbn [is_TurnkeyConfig object_with]. intros H. split_typing H.
  unfold analyzeConfig_pushes. repeat apply completes_seq.
  - apply check_org_id_completes.
  - apply check_wallet_id_completes.
  - apply check_api_public_key_completes.
  - now apply check_api_private_key_completes.
  - now apply check_base_url_completes.
  - now apply check_api_public_key_format_completes.
Qed.

Lemma simplified_policy_checks_completes (p : list (string * value)) :
  optional is_string (field p "effect") = true ->
  optional is_string (field p "condition") = true ->
  completes (simplified_policy_checks (Object p)).
Proof.
  intros He Hc. unfold simplified_policy_checks. repeat apply completes_seq.
  - unfold_check. by_cases.
  - unfold_check. destruct (field p "effect"); try mistyped; by_cases.
  - unfold_check. destruct (field p "condition"); try mistyped; by_cases.
Qed.

Lemma policy_looks_valid_completes (p : list (string * value)) :
  optional is_string (field p "condition") = true ->
  completes (policy_looks_valid (Object p)).
Proof.
  intros Hc. unfold policy_looks_valid. cbn [get_field bind].
  destruct (field p "condition"); try mistyped; eexists; reflexivity.
Qed.

Lemma completes_closing (checks closing : stmt) :
  completes checks -> completes closing ->
  completes (t <- checks ;;
             last <- match issues_of t with [] => closing | _ :: _ => skip end ;;
             Returns (t ++ last)).
Proof.
  intros [t ->] [last ->]. cbn [bind]. destruct (issues_of t); eexists; reflexivity.
Qed.

Lemma analyzeSimplifiedPolicy_completes (p : list (string * value)) :
  optional is_string (field p "effect") = true ->
  optional is_string (field p "condition") = true ->
  completes (analyzeSimplifiedPolicy_pushes (Object p)).
Proof.
  intros He Hc. rewrite analyzeSimplifiedPolicy_pushes_eq. apply completes_closing.
  - now apply simplified_policy_checks_completes.
  - destruct (policy_looks_valid_completes p Hc) as [text ->]. eexists. reflexivity.
Qed.

Lemma analyzePolicy_pushes_completes (p : list (string * value)) :
  is_TurnkeyPolicy (Object p) = true -> completes (analyzePolicy_pushes (Object p)).
Proof.
  intros H. unfold analyzePolicy_pushes. rewrite is_simplified_policy_object. cbn [bind].
  destruct (simplified_shape p).
  - cbn [is_TurnkeyPolicy object_with] in H. split_typing H.
    now apply analyzeSimplifiedPolicy_completes.
  - now apply structured_policy_completes.
Qed.

Lemma check_parameters_completes (p : list (string * value)) :
  optional (object_with (fun q =>
              optional is_string (field q "type") &&
              optional is_string (field q "signWith") &&
              optional is_string (field q "unsignedTransaction")))
    (field p "parameters") = true ->
  completes (check_parameters (Object p)).
Proof.
  intros H. unfold check_parameters, if_else, falsy_field. cbn [get_field bind].
  destruct (field p "parameters") as [| | | | | |q]; try discriminate H.
  - eexists. reflexivity.
  - cbn [optional object_with] in H. split_typing H. cbn [truthy negb bind].
    repeat apply completes_seq.
    + unfold_check. destruct (field q "type"); try mistyped; by_cases.
    + unfold_check. destruct (field q "signWith"); try mistyped; by_cases.
    + unfold_check. destruct (field q "unsignedTransaction"); try mistyped; by_cases.
Qed.

Lemma check_organizationId_completes (p : list (string * value)) :
  completes (check_organizationId (Object p)).
Proof. unfold_check. by_cases. Qed.

Lemma check_type_completes (p : list (string * value)) :
  optional is_string (field p "type") = true -> completes (check_type (Object p)).
Proof.
  intros H. unfold_check. destruct (field p "type"); try mistyped; by_cases.
Qed.

Lemma check_timestampMs_completes (now : Z) (p : list (string * value)) :
  completes (check_timestampMs now (Object p)).
Proof. unfold_check. by_cases. Qed.

Lemma transaction_checks_completes (now : Z) (p : list (string * value)) :
  is_TurnkeyTransactionRequest (Object p) = true ->
  completes (transaction_checks now (Object p)).
Proof.
  cbn [is_TurnkeyTransactionRequest object_with]. intros H. split_typing H.
  unfold transaction_checks. repeat apply completes_seq.
  - apply check_organizationId_completes.
  - now apply check_type_completes.
  - apply check_timestampMs_completes.
  - now apply check_parameters_completes.
Qed.

Lemma analyzeTransaction_pushes_completes (now : Z) (p : list (string * value)) :
  is_TurnkeyTransactionRequest (Object p) = true ->
  completes (analyzeTransaction_pushes now (Object p)).
Proof.
  intros H. rewrite analyzeTransaction_pushes_eq. apply completes_closing.
  - now apply transaction_checks_completes.
  - eexists. reflexivity.
Qed.

Lemma evaluate_pushes_completes (e : evaluator) (now : Z) (document : value) :
  well_typed e document = true -> completes (evaluate_pushes e now document).
Proof.
  destruct e; cbn [well_typed evaluate_pushes]; intros H;
    destruct document; try discriminate H.
  - now apply analyzeConfig_pushes_completes.
  - now apply analyzePolicy_pushes_completes.
  - now apply analyzeTransaction_pushes_completes.
Qed.

(** ** Absent fields are reported *)

Lemma field_absent (p : list (string * value)) (key : string) :
  lookup key p = None -> field p key = Undefined.
Proof. unfold field. now intros ->. Qed.

Lemma reports_report (i s : string) : reports i (report i s).
Proof. eexists. split; [reflexivity | now left]. Qed.

Lemma reports_seq_l (i : string) (a b : stmt) :
  reports i a -> completes b -> reports i (a ;;; b).
Proof.
  intros [t1 [-> Hi]] [t2 ->]. eexists. split; [reflexivity|].
  rewrite issues_of_app. apply in_or_app. now left.
Qed.

Lemma reports_seq_r (i : string) (a b : stmt) :
  completes a -> reports i b -> reports i (a ;;; b).
Proof.
  intros [t1 ->] [t2 [-> Hi]]. eexists. split; [reflexivity|].
  rewrite issues_of_app. apply in_or_app. now right.
Qed.

Lemma reports_closing (i : string) (checks closing : stmt) :
  reports i checks ->
  reports i (t <- checks ;;
             last <- match issues_of t with [] => closing | _ :: _ => skip end ;;
             Returns (t ++ last)).
Proof.
  intros [t [-> Hi]]. cbn [bind]. destruct (issues_of t) eqn:E; [contradiction|].
  eexists. split; [reflexivity|]. rewrite issues_of_app, E. apply in_or_app. now left.
Qed.

Lemma reports_result (i : string) (s : stmt) :
  reports i s -> exists r, (t <- s ;; Returns (result_of t)) = Returns r /\ In i (issues r).
Proof. intros [t [-> Hi]]. eexists. split; [reflexivity | exact Hi]. Qed.

Create HintDb totality.
#[local] Hint Resolve
  check_org_id_completes check_wallet_id_completes check_api_public_key_completes
  check_api_private_key_completes check_base_url_completes
  check_api_public_key_format_completes
  check_required_approvals_completes check_signing_keys_completes
  check_allowed_activities_completes check_sign_with_intent_completes
  check_organizationId_completes check_type_completes check_timestampMs_completes
  check_parameters_completes
  : totality.

(** Finds, in a sequence of checks, the one that reports for the absent
    field of hypothesis [Habsent]; the other checks complete. *)
Ltac this_check Habsent :=
  solve [ unfold_check; rewrite Habsent; apply reports_report ].

Ltac find_report Habsent :=
  first
    [ this_check Habsent
    | apply reports_seq_l; [this_check Habsent | repeat apply completes_seq; auto with totality]
    | apply reports_seq_r; [auto with totality | find_report Habsent] ].

Lemma analyzeConfig_reports_absent (p : list (string * value)) (key issue : string) :
  is_TurnkeyConfig (Object p) = true ->
  In (key, issue) (reported_when_absent ConfigEvaluator p) ->
  lookup key p = None ->
  reports issue (analyzeConfig_pushes (Object p)).
Proof.
  cbn [is_TurnkeyConfig object_with]. intros H. split_typing H.
  intros Hin Habsent. apply field_absent in Habsent. unfold analyzeConfig_pushes.
  cbn [reported_when_absent In] in Hin.
  repeat (destruct Hin as [[= <- <-]|Hin]; [find_report Habsent|]).
  contradiction.
Qed.

Lemma analyzePolicy_reports_absent (p : list (string * value)) (key issue : string) :
  is_TurnkeyPolicy (Object p) = true ->
  In (key, issue) (reported_when_absent PolicyEvaluator p) ->
  lookup key p = None ->
  reports issue (analyzePolicy_pushes (Object p)).
Proof.
  cbn [is_TurnkeyPolicy object_with]. intros H. split_typing H.
  intros Hin Habsent. apply field_absent in Habsent.
  unfold analyzePolicy_pushes. rewrite is_simplified_policy_object. cbn [bind].
  cbn [reported_when_absent] in Hin.
  destruct (simplified_shape p); [contradiction|].
  unfold structured_policy_pushes. cbn [In] in Hin.
  repeat (destruct Hin as [[= <- <-]|Hin]; [find_report Habsent|]).
  contradiction.
Qed.

Lemma analyzeTransaction_reports_absent
  (now : Z) (p : list (string * value)) (key issue : string) :
  is_TurnkeyTransactionRequest (Object p) = true ->
  In (key, issue) (reported_when_absent TransactionEvaluator p) ->
  lookup key p = None ->
  reports issue (analyzeTransaction_pushes now (Object p)).
Proof.
  cbn [is_TurnkeyTransactionRequest object_with]. intros H. split_typing H.
  intros Hin Habsent. apply field_absent in Habsent.
  rewrite analyzeTransaction_pushes_eq. apply reports_closing.
  unfold transaction_checks. cbn [reported_when_absent In] in Hin.
  repeat (destruct Hin as [[= <- <-]|Hin]; [find_report Habsent|]).
  contradiction.
Qed.

(** C2, as amended. On a document of its parameter type (every field it
    declares is absent or holds a value of the declared type) an evaluator
    returns a result and raises no exception, and each top-level field whose
    absence it reports is, when absent, reported in that result. *)
Theorem well_typed_documents_are_evaluated
  (e : evaluator) (now : Z) (properties : list (string * value)) :
  well_typed e (Object properties) = true ->
  exists r : AnalysisResult,
    evaluate e now (Object properties) = Returns r
    /\ forall key issue : string,
         In (key, issue) (reported_when_absent e properties) ->
         lookup key properties = None ->
         In issue (issues r).
Proof.
  intros H. rewrite evaluate_result.
  destruct (evaluate_pushes_completes e now (Object properties) H) as [t Et].
  rewrite Et. cbn [bind]. eexists. split; [reflexivity|].
  intros key issue Hin Habsent. cbn [issues result_of].
  assert (Hr : reports issue (evaluate_pushes e now (Object properties))).
  { destruct e; cbn [well_typed evaluate_pushes] in *.
    - now apply (analyzeConfig_reports_absent properties key).
    - now apply (analyzePolicy_reports_absent properties key).
    - now apply (analyzeTransaction_reports_absent now properties key). }
  destruct Hr as [t' [Et' Hi]]. rewrite Et in Et'. now injection Et' as ->.
Qed.

(** ** A transaction request without parameters *)

Lemma header_checks_pushes (now : Z) (transaction : value) :
  ensures (Forall (each_push header_issue header_suggestion))
    (check_organizationId transaction ;;; check_type transaction ;;;
     check_timestampMs now transaction).
Proof. ensures_by each_push_leaf. Qed.

Lemma check_parameters_absent (p : list (string * value)) :
  truthy (field p "parameters") = false ->
  exists s, check_parameters (Object p) = report "Missing parameters object" s
            /\ subfield_suggestion s = false.
Proof.
  intros Hp. unfold check_parameters, if_else, falsy_field. cbn [get_field bind].
  rewrite Hp. cbn [negb]. eexists. split; reflexivity.
Qed.

Lemma seq_assoc (a b c : stmt) : (a ;;; b) ;;; c = a ;;; b ;;; c.
Proof.
  unfold seq. destruct a, b, c; cbn [bind]; try reflexivity. now rewrite app_assoc.
Qed.

Lemma count_occ_none (l : list string) (x : string) :
  Forall (fun i => String.eqb i x = false) l -> count_occ string_dec l x = 0.
Proof.
  intros H. apply count_occ_not_In. intros Hin.
  rewrite Forall_forall in H. specialize (H x Hin). now rewrite String.eqb_refl in H.
Qed.

(** C7. On a transaction document without a parameters object, the check of
    parameters pushes the issue Missing parameters object with its suggestion
    and nothing else; a result of analyzeTransaction reports that issue
    exactly once and holds no issue and no suggestion of the checks of
    parameters.type, parameters.signWith and parameters.unsignedTransaction;
    and there is a result whenever the type of the document, if present, is
    a string. *)
Theorem missing_parameters_skips_subfield_checks
  (now : Z) (properties : list (string * value)) :
  truthy (field properties "parameters") = false ->
  (exists s, check_parameters (Object properties)
             = report "Missing parameters object" s)
  /\ (forall r : AnalysisResult,
        analyzeTransaction now (Object properties) = Returns r ->
        count_occ string_dec (issues r) "Missing parameters object" = 1
        /\ Forall (fun i => subfield_issue i = false) (issues r)
        /\ Forall (fun s => subfield_suggestion s = false) (suggestions r))
  /\ (optional is_string (field properties "type") = true ->
      completes (analyzeTransaction now (Object properties))).
Proof.
  intros Hp.
  destruct (check_parameters_absent properties Hp) as [s [Es Hs]].
  split; [now exists s|]. split.
  - intros r. unfold analyzeTransaction, analyzeTransaction_pushes, transaction_checks.
    rewrite <- (seq_assoc (check_type _)), <- (seq_assoc (check_organizationId _)).
    rewrite Es.
    destruct (check_organizationId (Object properties) ;;;
              check_type (Object properties) ;;;
              check_timestampMs now (Object properties)) as [t|] eqn:Et; [|discriminate].
    pose proof (header_checks_pushes now (Object properties) t Et) as Ht.
    pose proof (each_push_issues _ _ _ Ht) as Hi.
    pose proof (each_push_suggestions _ _ _ Ht) as Hsugg.
    unfold seq, report. cbn [bind]. rewrite issues_of_app.
    assert (Elast : forall last : stmt,
              match (issues_of t ++ issues_of [Issue "Missing parameters object"; Suggestion s])
              with [] => last | _ :: _ => skip end = skip)
      by (intros last; destruct (issues_of t); reflexivity).
    rewrite Elast. unfold skip. cbn [bind]. rewrite app_nil_r. intros [= <-].
    cbn [issues suggestions result_of]. rewrite issues_of_app, suggestions_of_app.
    cbn [issues_of suggestions_of].
    split; [|split].
    + rewrite count_occ_app. rewrite count_occ_none; [reflexivity|].
      eapply Forall_impl; [|exact Hi]. intros i. unfold header_issue.
      intros H. apply andb_prop in H as [_ H]. now apply negb_true_iff in H.
    + apply Forall_app. split; [|repeat constructor].
      eapply Forall_impl; [|exact Hi]. intros i. unfold header_issue.
      intros H. apply andb_prop in H as [H _]. now apply negb_true_iff in H.
    + apply Forall_app. split; [|repeat constructor; exact Hs].
      eapply Forall_impl; [|exact Hsugg]. intros x. unfold header_suggestion.
      intros H. now apply negb_true_iff in H.
  - intros Htype. unfold analyzeTransaction.
    assert (Hrun : completes (analyzeTransaction_pushes now (Object properties))).
    { rewrite analyzeTransaction_pushes_eq. apply completes_closing.
      - unfold transaction_checks. repeat apply completes_seq; auto with totality.
        unfold completes. rewrite Es. eexists. reflexivity.
      - eexists. reflexivity. }
    destruct Hrun as [t ->]. eexists. reflexivity.
Qed.

(** ** The rule on SIGN_WITH_INTENT looks at the first signing activity *)

(** Where the callback of [find] answers, it answers what the rule says. *)
Lemma signing_activity_callback (activity : value) (b : bool) :
  is_signing_activity activity = Returns b -> signing_activity activity = b.
Proof.
  unfold is_signing_activity, signing_activity.
  destruct activity as [| | | | | |q]; cbn [get_field bind property];
    try discriminate; try (now intros [= <-]).
  intros [= <-]. now destruct (field q "type").
Qed.

Lemma is_signing_activity_object (q : list (string * value)) :
  is_signing_activity (Object q) = Returns (signing_activity (Object q)).
Proof.
  unfold is_signing_activity, signing_activity. cbn [get_field bind property].
  now destruct (field q "type").
Qed.

Lemma find_first_signing_activity (activities : list value) (x : value) :
  find_first is_signing_activity activities = Returns x ->
  match List.find signing_activity activities with
  | Some a => x = a /\ signing_activity a = true
  | None => x = Undefined
  end.
Proof.
  induction activities as [|a l IH]; cbn [find_first List.find].
  - now intros [= <-].
  - destruct (is_signing_activity a) as [[|]|] eqn:Ea; cbn [bind]; try discriminate;
      rewrite (signing_activity_callback _ _ Ea).
    + intros [= <-]. split; [reflexivity|]. exact (signing_activity_callback _ _ Ea).
    + exact IH.
Qed.

Lemma get_field_truthy (v : value) (key : string) :
  truthy v = true -> get_field v key = Returns (property v key).
Proof. destruct v; try discriminate; reflexivity. Qed.

Lemma check_sign_with_intent_issues (p : list (string * value)) (t : trace) :
  check_sign_with_intent (Object p) = Returns t ->
  issues_of t = match sign_with_intent_issue p with Some i => [i] | None => [] end.
Proof.
  unfold check_sign_with_intent, sign_with_intent_issue, first_signing_activity.
  cbn [get_field bind].
  destruct (field p "allowed_activities") as [| | | | |activities|];
    cbn [js_optional_find bind]; try discriminate; try (now intros [= <-]).
  destruct (find_first is_signing_activity activities) as [x|] eqn:Ex;
    cbn [bind]; [|discriminate].
  apply find_first_signing_activity in Ex.
  destruct (List.find signing_activity activities) as [a|].
  - destruct Ex as [-> Ha]. unfold signing_activity in Ha.
    destruct a as [| | | | | |q]; try discriminate Ha. clear Ha.
    unfold intent_without_parameters, intent_without_action.
    unfold when, if_else, and_then, falsy_field. cbn [truthy get_field bind property].
    destruct (strict_eq_string (field q "type") "SIGN_WITH_INTENT"); cbn [bind andb].
    + destruct (truthy (field q "parameters")) eqn:Ep; cbn [negb bind].
      * rewrite (get_field_truthy _ "intent_action" Ep). cbn [bind].
        destruct (truthy (property (field q "parameters") "intent_action"));
          cbn [negb]; now intros [= <-].
      * now intros [= <-].
    + now intros [= <-].
  - subst x. now intros [= <-].
Qed.

Lemma structured_prefix_pushes (policy : value) :
  ensures (Forall (each_push no_intent_issue any_text))
    (check_required_approvals policy ;;; check_signing_keys policy ;;;
     check_allowed_activities policy).
Proof. ensures_by each_push_leaf. Qed.

(** C6. On the structured path, an issue of the rule on SIGN_WITH_INTENT is
    in the result exactly when the first entry of allowed_activities whose
    type is SIGN_WITH_INTENT or SIGN_TRANSACTION calls for it: missing
    parameters when that entry is a SIGN_WITH_INTENT without parameters,
    missing intent_action when it is a SIGN_WITH_INTENT whose parameters lack
    intent_action, and nothing otherwise, whatever the later entries hold.
    A policy of the declared type does get a result. *)
Theorem sign_with_intent_checks_first_match_only (properties : list (string * value)) :
  simplified_shape properties = false ->
  (forall r : AnalysisResult,
     analyzePolicy (Object properties) = Returns r ->
     forall i : string,
       intent_issue i = true ->
       (In i (issues r) <-> sign_with_intent_issue properties = Some i))
  /\ (is_TurnkeyPolicy (Object properties) = true ->
      completes (analyzePolicy (Object properties))).
Proof.
  intros Hshape. split.
  - intros r. unfold analyzePolicy, analyzePolicy_pushes.
    rewrite is_simplified_policy_object, Hshape. cbn [bind].
    unfold structured_policy_pushes.
    rewrite <- (seq_assoc (check_signing_keys _)), <- (seq_assoc (check_required_approvals _)).
    destruct (check_required_approvals (Object properties) ;;;
              check_signing_keys (Object properties) ;;;
              check_allowed_activities (Object properties)) as [t|] eqn:Et;
      [|discriminate].
    destruct (check_sign_with_intent (Object properties)) as [t'|] eqn:Et';
      [|discriminate].
    unfold seq. cbn [bind]. intros [= <-] i Hi. cbn [issues result_of].
    rewrite issues_of_app, (check_sign_with_intent_issues properties t' Et').
    pose proof (each_push_issues _ _ _ (structured_prefix_pushes _ t Et)) as Hprefix.
    rewrite Forall_forall in Hprefix.
    split.
    + intros Hin. apply in_app_or in Hin as [Hin|Hin].
      * apply Hprefix in Hin. unfold no_intent_issue in Hin. now rewrite Hi in Hin.
      * destruct (sign_with_intent_issue properties); cbn [In] in Hin;
          [now destruct Hin as [->|[]] | contradiction].
    + intros ->. apply in_or_app. right. now left.
  - intros Htyped. unfold analyzePolicy.
    destruct (analyzePolicy_pushes_completes properties Htyped) as [t ->].
    eexists. reflexivity.
Qed.

(** ** Presence is truthiness, except for required_approvals *)

Lemma check_effect_empty (p : list (string * value)) :
  field p "effect" = Str EmptyString ->
  exists s, check_effect (Object p) = report "Missing effect field" s.
Proof.
  intros He. unfold_check. rewrite He. eexists. reflexivity.
Qed.

Lemma check_required_approvals_zero (p : list (string * value)) :
  field p "required_approvals" = Number (number_of_Z 0) ->
  exists s, check_required_approvals (Object p)
            = report "required_approvals must be at least 1" s.
Proof.
  intros Ha. unfold_check. rewrite Ha. eexists. reflexivity.
Qed.

Lemma seq_returns (a b : stmt) (t : trace) :
  a ;;; b = Returns t ->
  exists t1 t2, a = Returns t1 /\ b = Returns t2 /\ t = t1 ++ t2.
Proof.
  unfold seq. destruct a as [t1|]; cbn [bind]; [|discriminate].
  destruct b as [t2|]; cbn [bind]; [|discriminate].
  intros [= <-]. now exists t1, t2.
Qed.

Lemma closing_returns (checks closing : stmt) (t : trace) :
  (t0 <- checks ;;
   last <- match issues_of t0 with [] => closing | _ :: _ => skip end ;;
   Returns (t0 ++ last)) = Returns t ->
  exists t0 last, checks = Returns t0 /\ t = t0 ++ last
                  /\ (last = [] \/ closing = Returns last).
Proof.
  destruct checks as [t0|]; cbn [bind]; [|discriminate].
  destruct (issues_of t0).
  - destruct closing as [last|]; cbn [bind]; [|discriminate].
    intros [= <-]. exists t0, last. auto.
  - cbn. intros [= <-]. exists t0, []. auto.
Qed.

(** C9. A field that is present but holds the empty string is reported as
    missing: a result of analyzeConfig on a config with an empty org_id holds
    Missing organization ID (org_id), and a result of analyzeSimplifiedPolicy
    on a policy with an empty effect holds Missing effect field and no issue
    on an invalid effect.  required_approvals is compared with undefined
    instead: a result of analyzePolicy on a structured policy whose
    required_approvals is 0 holds that it must be at least 1, not that the
    field is missing.  In each case there is a result when the other fields
    have their declared types. *)
Theorem empty_string_is_reported_missing :
  (forall p : list (string * value),
     lookup "org_id" p = Some (Str EmptyString) ->
     (forall r, analyzeConfig (Object p) = Returns r ->
                In "Missing organization ID (org_id)" (issues r))
     /\ (is_TurnkeyConfig (Object p) = true -> completes (analyzeConfig (Object p))))
  /\ (forall p : list (string * value),
        lookup "effect" p = Some (Str EmptyString) ->
        (forall r, analyzeSimplifiedPolicy (Object p) = Returns r ->
                   In "Missing effect field" (issues r)
                   /\ Forall (fun i => starts_with "Invalid effect value" i = false)
                             (issues r))
        /\ (optional is_string (field p "condition") = true ->
            completes (analyzeSimplifiedPolicy (Object p))))
  /\ (forall p : list (string * value),
        lookup "required_approvals" p = Some (Number (number_of_Z 0)) ->
        simplified_shape p = false ->
        (forall r, analyzePolicy (Object p) = Returns r ->
                   In "required_approvals must be at least 1" (issues r)
                   /\ ~ In "Missing required_approvals field" (issues r))
        /\ (is_TurnkeyPolicy (Object p) = true -> completes (analyzePolicy (Object p)))).
Proof.
  split; [|split].
  - intros p Horg. apply field_lookup in Horg. split.
    + intros r. unfold analyzeConfig.
      destruct (analyzeConfig_pushes (Object p)) as [t|] eqn:Et; cbn [bind]; [|discriminate].
      intros [= <-]. cbn [issues result_of].
      unfold analyzeConfig_pushes in Et.
      apply seq_returns in Et as [t1 [t2 [E1 [_ ->]]]].
      revert E1. unfold_check. rewrite Horg. intros [= <-]. now left.
    + intros H. unfold analyzeConfig.
      destruct (analyzeConfig_pushes_completes p H) as [t ->]. eexists. reflexivity.
  - intros p Heffect. apply field_lookup in Heffect.
    destruct (check_effect_empty p Heffect) as [s Es]. split.
    + intros r. unfold analyzeSimplifiedPolicy.
      destruct (analyzeSimplifiedPolicy_pushes (Object p)) as [t|] eqn:Et;
        cbn [bind]; [|discriminate].
      intros [= <-]. cbn [issues result_of].
      assert (He : ensures (Forall (each_push not_invalid_effect any_text))
                     (analyzeSimplifiedPolicy_pushes (Object p))).
      { rewrite analyzeSimplifiedPolicy_pushes_eq. unfold simplified_policy_checks.
        rewrite Es. apply ensures_closing.
        - ensures_by each_push_leaf.
        - apply ensures_bind. intros text t0 [= <-]. each_push_leaf. }
      specialize (He t Et). apply each_push_issues in He.
      rewrite analyzeSimplifiedPolicy_pushes_eq in Et.
      apply closing_returns in Et as [t0 [last [E0 [-> _]]]].
      unfold simplified_policy_checks in E0. rewrite Es in E0.
      apply seq_returns in E0 as [t1 [t2 [_ [E2 ->]]]].
      apply seq_returns in E2 as [t3 [t4 [E3 [_ ->]]]].
      injection E3 as <-. split.
      * rewrite !issues_of_app. apply in_or_app. left. apply in_or_app. right. now left.
      * eapply Forall_impl; [|exact He]. intros i. unfold not_invalid_effect.
        now destruct (starts_with "Invalid effect value" i).
    + intros Hcondition.
      assert (Htyped : optional is_string (field p "effect") = true) by now rewrite Heffect.
      destruct (analyzeSimplifiedPolicy_completes p Htyped Hcondition) as [t Et].
      unfold analyzeSimplifiedPolicy. rewrite Et. eexists. reflexivity.
  - intros p Happrovals Hshape. apply field_lookup in Happrovals.
    destruct (check_required_approvals_zero p Happrovals) as [s Es]. split.
    + intros r. unfold analyzePolicy, analyzePolicy_pushes.
      rewrite is_simplified_policy_object, Hshape. cbn [bind].
      destruct (structured_policy_pushes (Object p)) as [t|] eqn:Et;
        cbn [bind]; [|discriminate].
      intros [= <-]. cbn [issues result_of].
      unfold structured_policy_pushes in Et. rewrite Es in Et.
      apply seq_returns in Et as [t1 [t2 [E1 [E2 ->]]]]. injection E1 as <-.
      cbn [app issues_of]. split; [now left|].
      assert (He : ensures (Forall (each_push not_missing_approvals any_text))
                     (check_signing_keys (Object p) ;;; check_allowed_activities (Object p) ;;;
                      check_sign_with_intent (Object p))) by ensures_by each_push_leaf.
      specialize (He t2 E2). apply each_push_issues in He.
      rewrite Forall_forall in He. intros [Hneq|Hin]; [discriminate Hneq|].
      apply He in Hin. unfold not_missing_approvals in Hin.
      now rewrite String.eqb_refl in Hin.
    + intros Htyped. unfold analyzePolicy.
      destruct (analyzePolicy_pushes_completes p Htyped) as [t ->]. eexists. reflexivity.
Qed.

(** * Further properties of the evaluators *)

(** ** One issue per check, in the order of the checks *)

Lemma in_order_nil (slots : list (string -> bool)) : in_order slots [].
Proof. induction slots as [|slot rest IH]; [reflexivity | now left]. Qed.

Lemma in_order_app (s1 s2 : list (string -> bool)) (l1 l2 : list string) :
  in_order s1 l1 -> in_order s2 l2 -> in_order (s1 ++ s2) (l1 ++ l2).
Proof.
  revert l1. induction s1 as [|slot rest IH]; intros l1; cbn [in_order app].
  - now intros ->.
  - intros [H1|H1] H2.
    + left. now apply IH.
    + destruct l1 as [|i l1]; [contradiction|]. destruct H1 as [Hi H1].
      right. cbn [app]. split; [exact Hi | now apply IH].
Qed.

Lemma in_order_length (slots : list (string -> bool)) (l : list string) :
  in_order slots l -> length l <= length slots.
Proof.
  revert l. induction slots as [|slot rest IH]; intros l; cbn [in_order].
  - now intros ->.
  - intros [H|H].
    + specialize (IH l H). cbn [length]. lia.
    + destruct l as [|i l]; [contradiction|]. destruct H as [_ H].
      specialize (IH l H). cbn [length]. lia.
Qed.

Lemma fills_seq (s1 s2 : list (string -> bool)) (a b : stmt) :
  fills s1 a -> fills s2 b -> fills (s1 ++ s2) (a ;;; b).
Proof.
  intros Ha Hb t Et. apply seq_returns in Et as [t1 [t2 [E1 [E2 ->]]]].
  rewrite issues_of_app. apply in_order_app; [now apply Ha | now apply Hb].
Qed.

(** Follows every path of a check down to what it returns. *)
Ltac explore :=
  repeat (cbn [bind];
          match goal with
          | |- context [bind ?m _] =>
              lazymatch m with
              | context [bind _ _] => fail
              | context [if _ then _ else _] => fail
              | _ => destruct m
              end
          | |- context [if ?b then _ else _] => destruct b
          end).

(** Places the issues of a list in their slots. *)
Ltac fill :=
  cbn [in_order];
  first [ reflexivity
        | right; split; [reflexivity|]; fill
        | left; fill ].

(** Proves [fills slots check] for a check that fills its slots at once. *)
Ltac fills_by_cases :=
  intros ? ;
  unfold_check; unfold report, skip, seq; explore;
  first [ discriminate
        | intros [= <-]; cbn [issues_of app]; fill ].

Lemma check_org_id_fills (config : value) :
  fills [one_of ["Missing organization ID (org_id)"]] (check_org_id config).
Proof. fills_by_cases. Qed.

Lemma check_wallet_id_fills (config : value) :
  fills [one_of ["Missing wallet ID (wallet_id)"]] (check_wallet_id config).
Proof. fills_by_cases. Qed.

Lemma check_api_public_key_fills (config : value) :
  fills [one_of ["Missing API public key (api_public_key)"]] (check_api_public_key config).
Proof. fills_by_cases. Qed.

Lemma check_api_private_key_fills (config : value) :
  fills [one_of ["Missing API private key (api_private_key)";
                 "API private key appears to be invalid or too short"]]
    (check_api_private_key config).
Proof. fills_by_cases. Qed.

Lemma check_base_url_fills (config : value) :
  fills [one_of ["Missing base URL (base_url)"; "Base URL should use HTTPS for security"]]
    (check_base_url config).
Proof. fills_by_cases. Qed.

Lemma check_api_public_key_format_fills (config : value) :
  fills [one_of ["API public key format appears invalid (might cause 401 errors)"]]
    (check_api_public_key_format config).
Proof. fills_by_cases. Qed.

(** X1. The issues of a result of analyzeConfig come in the order of the six
    checks, at most one per check: org_id, wallet_id, api_public_key,
    api_private_key (missing or too short, never both), base_url (missing or
    not HTTPS, never both), format of the public key.  There are at most six
    of them. *)
Theorem analyzeConfig_issues_in_order (config : value) (r : AnalysisResult) :
  analyzeConfig config = Returns r ->
  in_order config_slots (issues r) /\ length (issues r) <= 6.
Proof.
  unfold analyzeConfig.
  destruct (analyzeConfig_pushes config) as [t|] eqn:Et; cbn [bind]; [|discriminate].
  intros [= <-]. cbn [issues result_of].
  assert (H : fills config_slots (analyzeConfig_pushes config)).
  { unfold analyzeConfig_pushes, config_slots.
    apply (fills_seq [_] [_; _; _; _; _]); [apply check_org_id_fills|].
    apply (fills_seq [_] [_; _; _; _]); [apply check_wallet_id_fills|].
    apply (fills_seq [_] [_; _; _]); [apply check_api_public_key_fills|].
    apply (fills_seq [_] [_; _]); [apply check_api_private_key_fills|].
    apply (fills_seq [_] [_]); [apply check_base_url_fills|].
    apply check_api_public_key_format_fills. }
  split; [exact (H t Et) | exact (in_order_length _ _ (H t Et))].
Qed.

Lemma issues_of_closing (checks closing : stmt) (t : trace) :
  (forall last, closing = Returns last -> issues_of last = []) ->
  (t0 <- checks ;;
   last <- match issues_of t0 with [] => closing | _ :: _ => skip end ;;
   Returns (t0 ++ last)) = Returns t ->
  exists t0, checks = Returns t0 /\ issues_of t = issues_of t0.
Proof.
  intros Hclosing Et. apply closing_returns in Et as [t0 [last [E0 [-> [->|El]]]]].
  - exists t0. now rewrite app_nil_r.
  - exists t0. split; [exact E0|]. rewrite issues_of_app, (Hclosing last El). apply app_nil_r.
Qed.

Lemma check_organizationId_fills (transaction : value) :
  fills [one_of ["Missing organizationId field"]] (check_organizationId transaction).
Proof. fills_by_cases. Qed.

Lemma check_type_fills (transaction : value) :
  fills [one_of_or_prefixed ["Missing type field"] "Unsupported transaction type: "]
    (check_type transaction).
Proof. fills_by_cases. Qed.

Lemma check_timestampMs_fills (now : Z) (transaction : value) :
  fills [one_of ["Missing timestampMs field"]] (check_timestampMs now transaction).
Proof. fills_by_cases. Qed.

Lemma check_parameters_fills (transaction : value) :
  fills [one_of_or_prefixed
           ["Missing parameters object"; "Missing transaction type in parameters"]
           "Unsupported blockchain type: ";
         one_of ["Missing signWith address in parameters"; "Invalid Ethereum address format"];
         one_of ["Missing unsignedTransaction in parameters";
                 "Invalid transaction hex format"]]
    (check_parameters transaction).
Proof.
  unfold check_parameters, if_else. intros t.
  destruct (falsy_field transaction "parameters") as [[|]|]; cbn [bind]; [| |discriminate].
  - intros [= <-]. cbn [issues_of]. fill.
  - destruct (get_field transaction "parameters") as [parameters|]; cbn [bind]; [|discriminate].
    revert t.
    apply (fills_seq [_] [_; _]); [fills_by_cases|].
    apply (fills_seq [_] [_]); fills_by_cases.
Qed.

(** X2. The issues of a result of analyzeTransaction come in the order of
    the checks, at most one per check: organizationId, type (missing or
    unsupported, never both), timestampMs, then the parameters object or the
    type of the parameters, signWith (missing or not an Ethereum address) and
    unsignedTransaction (missing or not hexadecimal).  There are at most six
    of them. *)
Theorem analyzeTransaction_issues_in_order
  (now : Z) (transaction : value) (r : AnalysisResult) :
  analyzeTransaction now transaction = Returns r ->
  in_order transaction_slots (issues r) /\ length (issues r) <= 6.
Proof.
  unfold analyzeTransaction.
  destruct (analyzeTransaction_pushes now transaction) as [t|] eqn:Et;
    cbn [bind]; [|discriminate].
  intros [= <-]. cbn [issues result_of].
  rewrite analyzeTransaction_pushes_eq in Et.
  apply issues_of_closing in Et as [t0 [E0 ->]]; [|now intros last [= <-]].
  assert (H : fills transaction_slots (transaction_checks now transaction)).
  { unfold transaction_checks, transaction_slots.
    apply (fills_seq [_] [_; _; _; _; _]); [apply check_organizationId_fills|].
    apply (fills_seq [_] [_; _; _; _]); [apply check_type_fills|].
    apply (fills_seq [_] [_; _; _]); [apply check_timestampMs_fills|].
    apply check_parameters_fills. }
  split; [exact (H t0 E0) | exact (in_order_length _ _ (H t0 E0))].
Qed.

Lemma check_policyName_fills (policy : value) :
  fills [one_of ["Missing policyName field"]] (check_policyName policy).
Proof. fills_by_cases. Qed.

Lemma check_effect_fills (policy : value) :
  fills [one_of_or_prefixed ["Missing effect field"] "Invalid effect value: "]
    (check_effect policy).
Proof. fills_by_cases. Qed.

Lemma check_condition_fills (policy : value) :
  fills [one_of ["Missing condition field"; "Condition contains placeholder <SENDER_ADDRESS>"];
         one_of ["Solana condition might be missing quantifier (all/any)"]]
    (check_condition policy).
Proof. fills_by_cases. Qed.

(** X3. The issues of a result of analyzeSimplifiedPolicy come in the order
    of the checks, at most one per check: policyName, effect (missing or
    invalid, never both), condition (missing or holding the placeholder,
    never both), quantifier of a Solana condition.  There are at most four
    of them. *)
Theorem analyzeSimplifiedPolicy_issues_in_order (policy : value) (r : AnalysisResult) :
  analyzeSimplifiedPolicy policy = Returns r ->
  in_order simplified_policy_slots (issues r) /\ length (issues r) <= 4.
Proof.
  unfold analyzeSimplifiedPolicy.
  destruct (analyzeSimplifiedPolicy_pushes policy) as [t|] eqn:Et;
    cbn [bind]; [|discriminate].
  intros [= <-]. cbn [issues result_of].
  rewrite analyzeSimplifiedPolicy_pushes_eq in Et.
  apply issues_of_closing in Et as [t0 [E0 ->]].
  - assert (H : fills simplified_policy_slots (simplified_policy_checks policy)).
    { unfold simplified_policy_checks, simplified_policy_slots.
      apply (fills_seq [_] [_; _; _]); [apply check_policyName_fills|].
      apply (fills_seq [_] [_; _]); [apply check_effect_fills|].
      apply check_condition_fills. }
    split; [exact (H t0 E0) | exact (in_order_length _ _ (H t0 E0))].
  - intros last. destruct (policy_looks_valid policy); cbn [bind]; [|discriminate].
    now intros [= <-].
Qed.

(** ** Well-formed documents are accepted *)

Lemma string_includes_app (needle a b : string) :
  string_includes needle (a ++ needle ++ b) = true.
Proof.
  induction a as [|c a IH]; cbn [append].
  - assert (H : forall n s, starts_with n (n ++ s) = true).
    { induction n as [|x n IHn]; intros s; cbn; [reflexivity|].
      now rewrite Ascii.eqb_refl, IHn. }
    destruct needle as [|x n]; [destruct b; reflexivity|].
    cbn [string_includes append]. pose proof (H (String x n) b) as Hs.
    cbn [append] in Hs. now rewrite Hs.
  - cbn [string_includes]. rewrite IH. apply orb_true_r.
Qed.

Lemma length_is_not_string (s : string) (k : nat) :
  length_is_not (Str s) k = Returns (negb (Nat.eqb (String.length s) k)).
Proof.
  unfold length_is_not. cbn [js_length bind number_of_nat number_of_Z].
  cbn [QArith_base.inject_Z QArith_base.Qnum QArith_base.Qden].
  rewrite Z.mul_1_r. f_equal. f_equal.
  destruct (Nat.eqb_spec (String.length s) k) as [->|Hne].
  - apply Z.eqb_refl.
  - apply Z.eqb_neq. lia.
Qed.

(** X4. A signing request with an organizationId, the sentinel type, a
    timestampMs, and parameters that hold a supported blockchain type, a
    signWith address (which, for Ethereum, starts with 0x and has 42
    characters) and a hexadecimal unsignedTransaction with or without the 0x
    prefix, gets no issue and exactly one suggestion, the text of the next
    steps. *)
Theorem valid_transaction_gets_next_steps
  (now : Z) (p q : list (string * value)) (type signWith unsignedTransaction : string) :
  truthy (field p "organizationId") = true ->
  field p "type" = Str sign_transaction_v2 ->
  truthy (field p "timestampMs") = true ->
  field p "parameters" = Object q ->
  field q "type" = Str type ->
  In type supportedTypes ->
  field q "signWith" = Str signWith ->
  signWith <> EmptyString ->
  (type = "TRANSACTION_TYPE_ETHEREUM" ->
   starts_with "0x" signWith = true /\ String.length signWith = 42) ->
  field q "unsignedTransaction" = Str unsignedTransaction ->
  matches_0x_hex unsignedTransaction || matches_hex unsignedTransaction = true ->
  analyzeTransaction now (Object p)
  = Returns {| issues := []; suggestions := [next_steps] |}.
Proof.
  intros Horg Htype Hts Hparameters Hqtype Hsupported HsignWith Hnonempty Heth Hunsigned Hhex.
  assert (Hu : truthy (Str unsignedTransaction) = true).
  { apply truthy_nonempty. intros ->. discriminate Hhex. }
  assert (Ht : truthy (Str type) = true).
  { destruct Hsupported as [<-|[<-|[<-|[]]]]; reflexivity. }
  assert (Hs : existsb (strict_eq_string (Str type)) supportedTypes = true).
  { destruct Hsupported as [<-|[<-|[<-|[]]]]; reflexivity. }
  pose proof (truthy_nonempty _ Hnonempty) as Hsw.
  unfold analyzeTransaction, analyzeTransaction_pushes, transaction_checks.
  autounfold with checks.
  unfold when, if_else, falsy_field, or_else, not_, not_hex.
  cbn [get_field bind].
  rewrite Horg, Htype, Hts, Hparameters. cbn [truthy negb bind get_field].
  rewrite Hqtype, HsignWith, Hunsigned, Ht, Hsw, Hu, Hs.
  cbn [negb bind to_string js_startsWith].
  rewrite length_is_not_string.
  assert (Hno : negb (matches_0x_hex unsignedTransaction)
                && negb (matches_hex unsignedTransaction) = false).
  { destruct (matches_0x_hex unsignedTransaction), (matches_hex unsignedTransaction);
      try reflexivity; discriminate Hhex. }
  rewrite Hno.
  destruct (strict_eq_string (Str type) "TRANSACTION_TYPE_ETHEREUM") eqn:Ee.
  - cbn [strict_eq_string] in Ee. apply String.eqb_eq in Ee.
    destruct (Heth Ee) as [H0x Hlen]. rewrite H0x, Hlen. reflexivity.
  - reflexivity.
Qed.

(** X5. A simplified policy with a policyName, an effect that is
    EFFECT_ALLOW or EFFECT_DENY, and a non-empty condition without the
    placeholder (and with a quantifier if it names solana.tx.transfers) gets
    no issue and exactly one suggestion, which says whether the policy will
    allow or deny and quotes the condition. *)
Theorem valid_simplified_policy_looks_valid
  (p : list (string * value)) (effect condition : string) :
  simplified_shape p = true ->
  truthy (field p "policyName") = true ->
  field p "effect" = Str effect ->
  effect = "EFFECT_ALLOW" \/ effect = "EFFECT_DENY" ->
  field p "condition" = Str condition ->
  condition <> EmptyString ->
  string_includes "<SENDER_ADDRESS>" condition = false ->
  (string_includes "solana.tx.transfers" condition = true ->
   string_includes ".all(" condition = true \/ string_includes ".any(" condition = true) ->
  exists text : string,
    analyzePolicy (Object p) = Returns {| issues := []; suggestions := [text] |}
    /\ string_includes
         (if String.eqb effect "EFFECT_ALLOW"
          then "1. This policy will allow transactions"
          else "1. This policy will deny transactions") text = true
    /\ string_includes condition text = true.
Proof.
  intros Hshape Hname Heffect Hvalue Hcondition Hnonempty Hplaceholder Hquantifier.
  pose proof (truthy_nonempty _ Hnonempty) as Hc.
  assert (Hrun : analyzePolicy (Object p) =
                 (text <- policy_looks_valid (Object p) ;;
                  Returns {| issues := []; suggestions := [text] |})).
  { unfold analyzePolicy, analyzePolicy_pushes.
    rewrite is_simplified_policy_object, Hshape. cbn [bind].
    unfold analyzeSimplifiedPolicy_pushes, simplified_policy_checks.
    autounfold with checks. unfold when, if_else, falsy_field, and_then, not_.
    cbn [get_field bind]. rewrite Hname, Heffect, Hcondition, Hc.
    assert (He : truthy (Str effect) = true) by (destruct Hvalue as [->| ->]; reflexivity).
    assert (Hv : negb (strict_eq_string (Str effect) "EFFECT_ALLOW")
                 && negb (strict_eq_string (Str effect) "EFFECT_DENY") = false)
      by (destruct Hvalue as [->| ->]; reflexivity).
    rewrite He, Hv. cbn [negb bind js_includes]. rewrite Hplaceholder. cbn [bind].
    destruct (string_includes "solana.tx.transfers" condition) eqn:Es; cbn [bind].
    - destruct (Hquantifier eq_refl) as [Hq|Hq]; rewrite Hq; cbn [negb bind].
      + unfold policy_looks_valid. cbn [get_field bind]. now rewrite Heffect, Hcondition.
      + destruct (string_includes ".all(" condition); cbn [negb bind];
          unfold policy_looks_valid; cbn [get_field bind]; now rewrite Heffect, Hcondition.
    - unfold policy_looks_valid. cbn [get_field bind]. now rewrite Heffect, Hcondition. }
  rewrite Hrun. unfold policy_looks_valid. cbn [get_field bind].
  rewrite Heffect, Hcondition. cbn [to_string bind].
  eexists. split; [reflexivity|]. split.
  - destruct Hvalue as [->| ->].
    + exact (string_includes_app "1. This policy will allow transactions"
               (js "Your policy looks valid! Here's how to use it with Turnkey:\n\n") _).
    + exact (string_includes_app "1. This policy will deny transactions"
               (js "Your policy looks valid! Here's how to use it with Turnkey:\n\n") _).
  - destruct Hvalue as [->| ->].
    + exact (string_includes_app condition
               (js "Your policy looks valid! Here's how to use it with Turnkey:\n\n1. This policy will allow transactions that match the condition:\n   `") _).
    + exact (string_includes_app condition
               (js "Your policy looks valid! Here's how to use it with Turnkey:\n\n1. This policy will deny transactions that match the condition:\n   `") _).
Qed.

Lemma complete_key_passes (key : value) (index : nat) :
  complete_key key = true -> check_signing_key key index = skip.
Proof.
  unfold complete_key. intros H. apply andb_prop in H as [Hid Hkey].
  destruct key; try discriminate Hid. cbn [property] in Hid, Hkey.
  unfold check_signing_key, when, falsy_field, seq. cbn [get_field bind].
  now rewrite Hid, Hkey.
Qed.

Lemma acceptable_condition_passes (q : list (string * value)) (index : nat) :
  acceptable_condition (property (field q "parameters") "condition") = true ->
  check_activity_condition (Object q) index = skip.
Proof.
  unfold check_activity_condition, when, truthy_field, and_then.
  cbn [get_field bind].
  destruct (truthy (field q "parameters")) eqn:Ep; [|reflexivity].
  rewrite (get_field_truthy _ "condition" Ep). cbn [bind].
  destruct (property (field q "parameters") "condition") as [| |b|n|s| |];
    cbn [acceptable_condition]; intros H;
    try (apply negb_true_iff in H; rewrite H; reflexivity).
  apply andb_prop in H as [Hplaceholder Hquantifier].
  apply negb_true_iff in Hplaceholder.
  destruct s as [|c s]; [reflexivity|]. cbn [truthy bind js_includes].
  rewrite Hplaceholder. unfold not_, seq. cbn [bind].
  destruct (string_includes "solana.tx.transfers" (String c s)); [|reflexivity].
  cbn [negb orb] in Hquantifier. cbn [bind].
  destruct (string_includes ".all(" (String c s)); [reflexivity|].
  cbn [orb] in Hquantifier. now rewrite Hquantifier.
Qed.

Lemma complete_activity_is_object (activity : value) :
  complete_activity activity = true -> exists q, activity = Object q.
Proof.
  unfold complete_activity. intros H. apply andb_prop in H as [H _].
  apply andb_prop in H as [H _]. destruct activity; try discriminate H. now eexists.
Qed.

Lemma complete_activity_passes (activity : value) (index : nat) :
  complete_activity activity = true -> check_allowed_activity activity index = skip.
Proof.
  intros H. destruct (complete_activity_is_object _ H) as [q ->].
  unfold complete_activity in H. apply andb_prop in H as [H Hcondition].
  apply andb_prop in H as [Htype Hresources]. cbn [property] in Htype, Hresources, Hcondition.
  unfold check_allowed_activity. rewrite (acceptable_condition_passes q index Hcondition).
  unfold when, falsy_field, or_else, length_is_zero, seq. cbn [get_field bind].
  rewrite Htype. cbn [negb bind].
  destruct (field q "resources") as [| | | | |[|x l]|]; try discriminate Hresources.
  reflexivity.
Qed.

Lemma forEach_passes (f : value -> nat -> stmt) (good : value -> bool) (l : list value) :
  (forall x i, good x = true -> f x i = skip) ->
  forallb good l = true -> forall index, forEach_from index l f = skip.
Proof.
  intros Hf. induction l as [|x l IH]; cbn [forallb forEach_from]; [reflexivity|].
  intros H index. apply andb_prop in H as [Hx Hl].
  now rewrite (Hf x index Hx), (IH Hl).
Qed.

Lemma find_first_objects (activities : list value) :
  forallb complete_activity activities = true ->
  find_first is_signing_activity activities
  = Returns (match List.find signing_activity activities with
             | Some a => a
             | None => Undefined
             end).
Proof.
  induction activities as [|a l IH]; cbn [forallb find_first List.find]; [reflexivity|].
  intros H. apply andb_prop in H as [Ha Hl].
  destruct (complete_activity_is_object _ Ha) as [q ->].
  rewrite is_signing_activity_object. cbn [bind].
  destruct (signing_activity (Object q)); [reflexivity|].
  exact (IH Hl).
Qed.

Lemma check_sign_with_intent_aligned (policy : value) :
  ensures aligned (check_sign_with_intent policy).
Proof. ensures_by ltac:(apply aligned_report). Qed.

(** X6. A structured policy whose required_approvals is a number not below
    1, whose signing keys all have a key_id and a public_key, whose allowed
    activities all have a type, at least one resource and an acceptable
    condition, and whose first signing activity owes nothing to the rule on
    SIGN_WITH_INTENT, gets an empty result: no issue and no suggestion. *)
Theorem complete_structured_policy_has_no_findings
  (p : list (string * value)) (n : number) (keys activities : list value) :
  simplified_shape p = false ->
  field p "required_approvals" = Number n ->
  number_ltb n (number_of_Z 1) = false ->
  field p "signing_keys" = Array keys ->
  keys <> [] ->
  forallb complete_key keys = true ->
  field p "allowed_activities" = Array activities ->
  activities <> [] ->
  forallb complete_activity activities = true ->
  sign_with_intent_issue p = None ->
  analyzePolicy (Object p) = Returns {| issues := []; suggestions := [] |}.
Proof.
  intros Hshape Happrovals Hn Hkeys Hk Hcomplete Hactivities Ha Hall Hintent.
  unfold analyzePolicy, analyzePolicy_pushes.
  rewrite is_simplified_policy_object, Hshape. cbn [bind].
  assert (E1 : check_required_approvals (Object p) = skip).
  { unfold check_required_approvals, if_else, when, js_lt. cbn [get_field bind].
    rewrite Happrovals. cbn [is_undefined to_number bind]. now rewrite Hn. }
  assert (E2 : check_signing_keys (Object p) = skip).
  { unfold check_signing_keys, if_else, falsy_field, or_else, length_is_zero.
    cbn [get_field bind]. rewrite Hkeys.
    destruct keys as [|k keys]; [contradiction|]. cbn [truthy negb bind js_length js_forEach].
    apply (forEach_passes _ complete_key); [|exact Hcomplete].
    intros x i. apply complete_key_passes. }
  assert (E3 : check_allowed_activities (Object p) = skip).
  { unfold check_allowed_activities, if_else, falsy_field, or_else, length_is_zero.
    cbn [get_field bind]. rewrite Hactivities.
    destruct activities as [|a l]; [contradiction|].
    cbn [truthy negb bind js_length js_forEach].
    apply (forEach_passes _ complete_activity); [|exact Hall].
    intros x i. apply complete_activity_passes. }
  assert (E4 : check_sign_with_intent (Object p) = skip).
  { destruct (check_sign_with_intent (Object p)) as [t|e] eqn:Et.
    - pose proof (check_sign_with_intent_issues p t Et) as Hi. rewrite Hintent in Hi.
      pose proof (check_sign_with_intent_aligned (Object p) t Et) as Hal.
      destruct Hal; [reflexivity|discriminate Hi].
    - exfalso. revert Et. unfold check_sign_with_intent. cbn [get_field bind].
      rewrite Hactivities. cbn [js_optional_find]. rewrite (find_first_objects _ Hall).
      cbn [bind]. pose proof (forallb_forall complete_activity activities) as [Hin _].
      specialize (Hin Hall).
      destruct (List.find signing_activity activities) as [a|] eqn:Ef.
      + apply find_some in Ef as [Hmem _].
        destruct (complete_activity_is_object _ (Hin a Hmem)) as [q ->].
        unfold when, if_else, and_then, falsy_field. cbn [truthy get_field bind].
        destruct (strict_eq_string (field q "type") "SIGN_WITH_INTENT"); cbn [bind];
          [|discriminate].
        destruct (truthy (field q "parameters")) eqn:Ep; cbn [negb bind]; [|discriminate].
        rewrite (get_field_truthy _ "intent_action" Ep). cbn [bind].
        destruct (truthy (property (field q "parameters") "intent_action"));
          discriminate.
      + discriminate. }
  unfold structured_policy_pushes. now rewrite E1, E2, E3, E4.
Qed.

(** ** When an issue is reported *)

Lemma not_reported (issue : string) (s : stmt) (t : trace) :
  ensures (Forall (each_push (is_not issue) any_text)) s ->
  s = Returns t -> ~ In issue (issues_of t).
Proof.
  intros Hs Et Hin. specialize (Hs t Et). apply each_push_issues in Hs.
  rewrite Forall_forall in Hs. apply Hs in Hin. unfold is_not in Hin.
  now rewrite String.eqb_refl in Hin.
Qed.

Lemma truthy_string (s : string) : truthy (Str s) = true <-> s <> EmptyString.
Proof.
  split; [|apply truthy_nonempty]. intros H ->. discriminate H.
Qed.

Lemma strict_eq_string_true (v : value) (s : string) :
  strict_eq_string v s = true <-> v = Str s.
Proof.
  destruct v; cbn [strict_eq_string]; split; try discriminate.
  - intros H. apply String.eqb_eq in H. now subst.
  - intros [= ->]. apply String.eqb_refl.
Qed.

Lemma check_signWith_ethereum (parameters : value) (t : trace) :
  check_signWith parameters = Returns t ->
  In "Invalid Ethereum address format" (issues_of t) <->
  exists (q : list (string * value)) (signWith : string),
    parameters = Object q
    /\ field q "type" = Str "TRANSACTION_TYPE_ETHEREUM"
    /\ field q "signWith" = Str signWith
    /\ signWith <> EmptyString
    /\ (starts_with "0x" signWith = false \/ String.length signWith <> 42).
Proof.
  destruct parameters as [| |b|n|s|l|q];
    try (cbn; discriminate);
    try (cbn; intros [= <-]; split;
         [ intros [H|[]]; discriminate H | intros [q [w [H _]]]; discriminate H ]).
  unfold check_signWith, if_else, when, falsy_field, or_else, not_. cbn [get_field bind].
  destruct (truthy (field q "signWith")) eqn:Ht; cbn [negb bind].
  - destruct (strict_eq_string (field q "type") "TRANSACTION_TYPE_ETHEREUM") eqn:Ee.
    + apply strict_eq_string_true in Ee.
      destruct (field q "signWith") as [| | | |w| |] eqn:Ew; cbn [js_startsWith bind];
        try discriminate.
      apply truthy_string in Ht.
      destruct (starts_with "0x" w) eqn:Es; cbn [negb bind].
      * rewrite length_is_not_string. cbn [bind].
        destruct (Nat.eqb_spec (String.length w) 42) as [El|El]; cbn [negb];
          intros [= <-]; cbn [issues_of In]; split.
        -- intros [].
        -- intros [q' [w' [[= <-] [_ [Hw [_ [H|H]]]]]]]; rewrite Ew in Hw;
             injection Hw as <-; [rewrite Es in H; discriminate H | contradiction].
        -- intros _. exists q, w. repeat split; auto.
        -- intros _. now left.
      * intros [= <-]. cbn [issues_of In]. split; [|intros _; now left].
        intros _. exists q, w. repeat split; auto.
    + intros [= <-]. cbn [issues_of In]. split; [intros []|].
      intros [q' [w' [[= <-] [Hty _]]]]. apply strict_eq_string_true in Hty.
      rewrite Hty in Ee. discriminate Ee.
  - intros [= <-]. cbn [issues_of In]. split; [intros [H|[]]; discriminate H|].
    intros [q' [w' [[= <-] [_ [Hw [Hne _]]]]]]. rewrite Hw in Ht.
    apply truthy_string in Hne. rewrite Hne in Ht. discriminate Ht.
Qed.

(** X7. A result of analyzeTransaction holds the issue 'Invalid Ethereum
    address format' exactly when parameters is an object whose type is
    TRANSACTION_TYPE_ETHEREUM and whose signWith is a non-empty string that
    does not start with 0x or is not 42 characters long. *)
Theorem ethereum_address_issue_iff
  (now : Z) (p : list (string * value)) (r : AnalysisResult) :
  analyzeTransaction now (Object p) = Returns r ->
  In "Invalid Ethereum address format" (issues r) <->
  exists (q : list (string * value)) (signWith : string),
    field p "parameters" = Object q
    /\ field q "type" = Str "TRANSACTION_TYPE_ETHEREUM"
    /\ field q "signWith" = Str signWith
    /\ signWith <> EmptyString
    /\ (starts_with "0x" signWith = false \/ String.length signWith <> 42).
Proof.
  unfold analyzeTransaction.
  destruct (analyzeTransaction_pushes now (Object p)) as [t|] eqn:Et;
    cbn [bind]; [|discriminate].
  intros [= <-]. cbn [issues result_of].
  rewrite analyzeTransaction_pushes_eq in Et.
  apply issues_of_closing in Et as [t0 [E0 ->]]; [|now intros last [= <-]].
  unfold transaction_checks in E0.
  apply seq_returns in E0 as [t1 [t1' [E1 [E0 ->]]]].
  apply seq_returns in E0 as [t2 [t2' [E2 [E0 ->]]]].
  apply seq_returns in E0 as [t3 [t4 [E3 [E4 ->]]]].
  rewrite !issues_of_app.
  assert (N1 : ~ In "Invalid Ethereum address format" (issues_of t1))
    by (eapply not_reported; [|exact E1]; ensures_by each_push_leaf).
  assert (N2 : ~ In "Invalid Ethereum address format" (issues_of t2))
    by (eapply not_reported; [|exact E2]; ensures_by each_push_leaf).
  assert (N3 : ~ In "Invalid Ethereum address format" (issues_of t3))
    by (eapply not_reported; [|exact E3]; ensures_by each_push_leaf).
  assert (H4 : In "Invalid Ethereum address format" (issues_of t4) <->
               exists (q : list (string * value)) (signWith : string),
                 field p "parameters" = Object q
                 /\ field q "type" = Str "TRANSACTION_TYPE_ETHEREUM"
                 /\ field q "signWith" = Str signWith
                 /\ signWith <> EmptyString
                 /\ (starts_with "0x" signWith = false \/ String.length signWith <> 42)).
  { revert E4. unfold check_parameters, if_else, falsy_field. cbn [get_field bind].
    destruct (truthy (field p "parameters")) eqn:Ep; cbn [negb bind].
    - intros E4.
      apply seq_returns in E4 as [ta [ta' [Ea [E4 ->]]]].
      apply seq_returns in E4 as [tb [tc [Eb [Ec ->]]]].
      rewrite !issues_of_app.
      assert (Na : ~ In "Invalid Ethereum address format" (issues_of ta))
    by (eapply not_reported; [|exact Ea]; ensures_by each_push_leaf).
      assert (Nc : ~ In "Invalid Ethereum address format" (issues_of tc))
    by (eapply not_reported; [|exact Ec]; ensures_by each_push_leaf).
      pose proof (check_signWith_ethereum _ tb Eb) as Hb.
      rewrite !in_app_iff. tauto.
    - intros [= <-]. cbn [issues_of In]. split; [intros [H|[]]; discriminate H|].
      intros [q [w [Hq _]]]. rewrite Hq in Ep. discriminate Ep. }
  rewrite !in_app_iff. tauto.
Qed.

Lemma analyzeConfig_returns (config : value) (r : AnalysisResult) :
  analyzeConfig config = Returns r ->
  exists t1 t2 t3 t4 t5 t6 : trace,
    check_org_id config = Returns t1
    /\ check_wallet_id config = Returns t2
    /\ check_api_public_key config = Returns t3
    /\ check_api_private_key config = Returns t4
    /\ check_base_url config = Returns t5
    /\ check_api_public_key_format config = Returns t6
    /\ r = result_of (t1 ++ t2 ++ t3 ++ t4 ++ t5 ++ t6).
Proof.
  unfold analyzeConfig.
  destruct (analyzeConfig_pushes config) as [t|] eqn:Et; cbn [bind]; [|discriminate].
  intros [= <-]. unfold analyzeConfig_pushes in Et.
  apply seq_returns in Et as [t1 [t1' [E1 [Et ->]]]].
  apply seq_returns in Et as [t2 [t2' [E2 [Et ->]]]].
  apply seq_returns in Et as [t3 [t3' [E3 [Et ->]]]].
  apply seq_returns in Et as [t4 [t4' [E4 [Et ->]]]].
  apply seq_returns in Et as [t5 [t6 [E5 [E6 ->]]]].
  now exists t1, t2, t3, t4, t5, t6.
Qed.

Ltac elsewhere E :=
  eapply not_reported; [|exact E]; ensures_by each_push_leaf.

(** X8. With a string for api_private_key, a result of analyzeConfig holds
    the issue 'API private key appears to be invalid or too short' exactly
    when the key is not empty, is shorter than 20 characters and has no
    dollar sign. *)
Theorem short_private_key_issue_iff
  (p : list (string * value)) (key : string) (r : AnalysisResult) :
  field p "api_private_key" = Str key ->
  analyzeConfig (Object p) = Returns r ->
  In "API private key appears to be invalid or too short" (issues r) <->
  key <> EmptyString /\ String.length key < 20 /\ string_includes "$" key = false.
Proof.
  intros Hkey Hr.
  apply analyzeConfig_returns in Hr
    as [t1 [t2 [t3 [t4 [t5 [t6 [E1 [E2 [E3 [E4 [E5 [E6 ->]]]]]]]]]]]].
  cbn [issues result_of]. rewrite !issues_of_app, !in_app_iff.
  assert (N1 : ~ In "API private key appears to be invalid or too short" (issues_of t1))
    by elsewhere E1.
  assert (N2 : ~ In "API private key appears to be invalid or too short" (issues_of t2))
    by elsewhere E2.
  assert (N3 : ~ In "API private key appears to be invalid or too short" (issues_of t3))
    by elsewhere E3.
  assert (N5 : ~ In "API private key appears to be invalid or too short" (issues_of t5))
    by elsewhere E5.
  assert (N6 : ~ In "API private key appears to be invalid or too short" (issues_of t6))
    by elsewhere E6.
  assert (H4 : In "API private key appears to be invalid or too short" (issues_of t4) <->
               key <> EmptyString /\ String.length key < 20
               /\ string_includes "$" key = false).
  { revert E4. unfold check_api_private_key, if_else, when, falsy_field, and_then, not_.
    cbn [get_field bind]. rewrite Hkey, length_lt_string.
    destruct (truthy (Str key)) eqn:Ht; cbn [negb bind js_includes].
    - apply truthy_string in Ht.
      destruct (Z.ltb_spec (Z.of_nat (String.length key)) 20) as [Hl|Hl]; cbn [bind].
      + destruct (string_includes "$" key); cbn [negb]; intros [= <-];
          cbn [issues_of In]; split; try tauto; try (intros _; repeat split; auto; lia).
        intros [_ [_ H]]. discriminate H.
      + intros [= <-]. cbn [issues_of In]. split; [tauto|]. intros [_ [H _]]. lia.
    - intros [= <-]. cbn [issues_of In]. split; [intros [H|[]]; discriminate H|].
      intros [H _]. apply truthy_string in H. rewrite H in Ht. discriminate Ht. }
  tauto.
Qed.

(** X9. With a string for base_url, a result of analyzeConfig holds the
    issue 'Base URL should use HTTPS for security' exactly when the URL is
    not empty and does not start with https://; the suggested fix then
    proposes https:// followed by the URL without a leading http://. *)
Theorem insecure_base_url_issue_iff
  (p : list (string * value)) (url : string) (r : AnalysisResult) :
  field p "base_url" = Str url ->
  analyzeConfig (Object p) = Returns r ->
  (In "Base URL should use HTTPS for security" (issues r) <->
   url <> EmptyString /\ starts_with "https://" url = false)
  /\ (In "Base URL should use HTTPS for security" (issues r) ->
      In (js "Update the base URL to use HTTPS:\n```json\n{\n  \x22base_url\x22: \x22https://"
          ++ (if starts_with "http://" url then drop 7 url else url)
          ++ js "\x22,\n  ...\n}\n```")%string
         (suggestions r)).
Proof.
  intros Hurl Hr.
  apply analyzeConfig_returns in Hr
    as [t1 [t2 [t3 [t4 [t5 [t6 [E1 [E2 [E3 [E4 [E5 [E6 ->]]]]]]]]]]]].
  cbn [issues suggestions result_of].
  rewrite !issues_of_app, !suggestions_of_app, !in_app_iff.
  assert (N1 : ~ In "Base URL should use HTTPS for security" (issues_of t1))
    by elsewhere E1.
  assert (N2 : ~ In "Base URL should use HTTPS for security" (issues_of t2))
    by elsewhere E2.
  assert (N3 : ~ In "Base URL should use HTTPS for security" (issues_of t3))
    by elsewhere E3.
  assert (N4 : ~ In "Base URL should use HTTPS for security" (issues_of t4))
    by elsewhere E4.
  assert (N6 : ~ In "Base URL should use HTTPS for security" (issues_of t6))
    by elsewhere E6.
  assert (H5 : (In "Base URL should use HTTPS for security" (issues_of t5) <->
                url <> EmptyString /\ starts_with "https://" url = false)
               /\ (In "Base URL should use HTTPS for security" (issues_of t5) ->
                   In (js "Update the base URL to use HTTPS:\n```json\n{\n  \x22base_url\x22: \x22https://"
                       ++ (if starts_with "http://" url then drop 7 url else url)
                       ++ js "\x22,\n  ...\n}\n```")%string
                      (suggestions_of t5))).
  { revert E5. unfold check_base_url, if_else, when, falsy_field, not_.
    cbn [get_field bind]. rewrite Hurl.
    destruct (truthy (Str url)) eqn:Ht; cbn [negb bind js_startsWith js_replace_http].
    - apply truthy_string in Ht.
      destruct (starts_with "https://" url); cbn [negb bind]; intros [= <-];
        cbn [issues_of suggestions_of In].
      + split; [split; [tauto|]|tauto]. intros [_ H]. discriminate H.
      + split; [split; auto|]. intros _. now left.
    - intros [= <-]. cbn [issues_of suggestions_of In].
      split; [split|]; try (intros [H|[]]; discriminate H).
      intros [H _]. apply truthy_string in H. rewrite H in Ht. discriminate Ht. }
  tauto.
Qed.

(** X10. With a string for api_public_key, a result of analyzeConfig holds
    the issue on the format of the public key exactly when that key is not
    empty, api_private_key is truthy, and the public key has no TK in it or
    is shorter than 10 characters: a key passes with TK anywhere in it. *)
Theorem public_key_format_issue_iff
  (p : list (string * value)) (key : string) (r : AnalysisResult) :
  field p "api_public_key" = Str key ->
  analyzeConfig (Object p) = Returns r ->
  In "API public key format appears invalid (might cause 401 errors)" (issues r) <->
  key <> EmptyString /\ truthy (field p "api_private_key") = true
  /\ (string_includes "TK" key = false \/ String.length key < 10).
Proof.
  intros Hkey Hr.
  apply analyzeConfig_returns in Hr
    as [t1 [t2 [t3 [t4 [t5 [t6 [E1 [E2 [E3 [E4 [E5 [E6 ->]]]]]]]]]]]].
  cbn [issues result_of]. rewrite !issues_of_app, !in_app_iff.
  assert (N1 : ~ In "API public key format appears invalid (might cause 401 errors)"
                 (issues_of t1)) by elsewhere E1.
  assert (N2 : ~ In "API public key format appears invalid (might cause 401 errors)"
                 (issues_of t2)) by elsewhere E2.
  assert (N3 : ~ In "API public key format appears invalid (might cause 401 errors)"
                 (issues_of t3)) by elsewhere E3.
  assert (N4 : ~ In "API public key format appears invalid (might cause 401 errors)"
                 (issues_of t4)) by elsewhere E4.
  assert (N5 : ~ In "API public key format appears invalid (might cause 401 errors)"
                 (issues_of t5)) by elsewhere E5.
  assert (H6 : In "API public key format appears invalid (might cause 401 errors)"
                 (issues_of t6) <->
               key <> EmptyString /\ truthy (field p "api_private_key") = true
               /\ (string_includes "TK" key = false \/ String.length key < 10)).
  { revert E6. unfold check_api_public_key_format, when, truthy_field, and_then, or_else, not_.
    cbn [get_field bind]. rewrite Hkey, length_lt_string.
    destruct (truthy (Str key)) eqn:Ht; cbn [bind].
    - apply truthy_string in Ht.
      destruct (truthy (field p "api_private_key")); cbn [bind js_includes].
      + destruct (string_includes "TK" key); cbn [negb bind].
        * destruct (Z.ltb_spec (Z.of_nat (String.length key)) 10) as [Hl|Hl];
            intros [= <-]; cbn [issues_of In]; split; try tauto.
          -- intros _. repeat split; auto. right. lia.
          -- intros [_ [_ [H|H]]]; [discriminate H | lia].
        * intros [= <-]. cbn [issues_of In]. split; [|tauto].
          intros _. repeat split; auto.
      + intros [= <-]. cbn [issues_of In]. split; [tauto|]. intros [_ [H _]]. discriminate H.
    - intros [= <-]. cbn [issues_of In]. split; [tauto|].
      intros [H _]. apply truthy_string in H. rewrite H in Ht. discriminate Ht. }
  tauto.
Qed.

(** ** Entries of a list are reported with their own index *)

Lemma forEach_from_nth (f : value -> nat -> stmt) (l : list value) :
  forall (index i : nat) (x : value) (t : trace),
    forEach_from index l f = Returns t ->
    nth_error l i = Some x ->
    exists tx : trace,
      f x (index + i) = Returns tx
      /\ (forall issue, In issue (issues_of tx) -> In issue (issues_of t)).
Proof.
  induction l as [|y l IH]; intros index i x t Et Hx.
  - destruct i; discriminate Hx.
  - cbn [forEach_from] in Et. apply seq_returns in Et as [ty [tl [Ey [El ->]]]].
    destruct i as [|i]; cbn [nth_error] in Hx.
    + injection Hx as <-. exists ty. rewrite Nat.add_0_r. split; [exact Ey|].
      intros issue Hin. rewrite issues_of_app. apply in_or_app. now left.
    + destruct (IH (S index) i x tl El Hx) as [tx [Ex Hin]].
      exists tx. rewrite <- Nat.add_succ_comm. split; [exact Ex|].
      intros issue H. rewrite issues_of_app. apply in_or_app. right. now apply Hin.
Qed.

Lemma structured_policy_returns (p : list (string * value)) (r : AnalysisResult) :
  simplified_shape p = false ->
  analyzePolicy (Object p) = Returns r ->
  exists t1 t2 t3 t4 : trace,
    check_required_approvals (Object p) = Returns t1
    /\ check_signing_keys (Object p) = Returns t2
    /\ check_allowed_activities (Object p) = Returns t3
    /\ check_sign_with_intent (Object p) = Returns t4
    /\ r = result_of (t1 ++ t2 ++ t3 ++ t4).
Proof.
  intros Hshape. unfold analyzePolicy, analyzePolicy_pushes.
  rewrite is_simplified_policy_object, Hshape. cbn [bind].
  destruct (structured_policy_pushes (Object p)) as [t|] eqn:Et; cbn [bind]; [|discriminate].
  intros [= <-]. unfold structured_policy_pushes in Et.
  apply seq_returns in Et as [t1 [t1' [E1 [Et ->]]]].
  apply seq_returns in Et as [t2 [t2' [E2 [Et ->]]]].
  apply seq_returns in Et as [t3 [t4 [E3 [E4 ->]]]].
  now exists t1, t2, t3, t4.
Qed.

(** X11. In a result of analyzePolicy on a structured policy, the signing
    key at position i of signing_keys (counted from 0) is reported under the
    index i: as missing key_id if its key_id is falsy, and as missing
    public_key if its public_key is falsy. *)
Theorem incomplete_signing_key_reported_at_its_index
  (p : list (string * value)) (keys : list value) (i : nat) (key : value)
  (r : AnalysisResult) :
  simplified_shape p = false ->
  field p "signing_keys" = Array keys ->
  nth_error keys i = Some key ->
  analyzePolicy (Object p) = Returns r ->
  (truthy (property key "key_id") = false ->
   In ("Signing key at index " ++ index_to_string i ++ " is missing key_id")%string
      (issues r))
  /\ (truthy (property key "public_key") = false ->
      In ("Signing key at index " ++ index_to_string i ++ " is missing public_key")%string
         (issues r)).
Proof.
  intros Hshape Hkeys Hkey Hr.
  apply structured_policy_returns in Hr as [t1 [t2 [t3 [t4 [_ [E2 [_ [_ ->]]]]]]]];
    [|exact Hshape].
  cbn [issues result_of]. rewrite !issues_of_app.
  revert E2. unfold check_signing_keys, if_else, falsy_field, or_else, length_is_zero.
  cbn [get_field bind]. rewrite Hkeys.
  destruct keys as [|k keys]; [destruct i; discriminate Hkey|].
  cbn [truthy negb bind js_length js_forEach]. intros E2.
  destruct (forEach_from_nth _ _ 0 i key t2 E2 Hkey) as [tx [Ex Hin]].
  cbn [Nat.add] in Ex.
  assert (Hx : (truthy (property key "key_id") = false ->
                In ("Signing key at index " ++ index_to_string i ++ " is missing key_id")%string
                   (issues_of tx))
               /\ (truthy (property key "public_key") = false ->
                   In ("Signing key at index " ++ index_to_string i
                       ++ " is missing public_key")%string (issues_of tx))).
  { revert Ex. unfold check_signing_key, when, falsy_field, seq.
    destruct key as [| |b|n|s|l|q]; try discriminate; cbn [get_field property bind].
    5: destruct (truthy (field q "key_id")), (truthy (field q "public_key")).
    all: cbn [truthy negb bind]; intros [= <-]; cbn [issues_of app In];
      split; intros H; try discriminate H; auto. }
  split; intros H; apply in_or_app; right; apply in_or_app; left;
    apply Hin, Hx, H.
Qed.

(** X12. In a result of analyzePolicy on a structured policy, the allowed
    activity at position i of allowed_activities (counted from 0) is
    reported under the index i: as missing type if its type is falsy, and as
    having no resources if its resources are falsy or an empty array. *)
Theorem incomplete_activity_reported_at_its_index
  (p : list (string * value)) (activities : list value) (i : nat) (activity : value)
  (r : AnalysisResult) :
  simplified_shape p = false ->
  field p "allowed_activities" = Array activities ->
  nth_error activities i = Some activity ->
  analyzePolicy (Object p) = Returns r ->
  (truthy (property activity "type") = false ->
   In ("Allowed activity at index " ++ index_to_string i ++ " is missing type")%string
      (issues r))
  /\ (truthy (property activity "resources") = false
      \/ property activity "resources" = Array [] ->
      In ("Allowed activity at index " ++ index_to_string i
          ++ " has no resources defined")%string (issues r)).
Proof.
  intros Hshape Hactivities Hactivity Hr.
  apply structured_policy_returns in Hr as [t1 [t2 [t3 [t4 [_ [_ [E3 [_ ->]]]]]]]];
    [|exact Hshape].
  cbn [issues result_of]. rewrite !issues_of_app.
  revert E3. unfold check_allowed_activities, if_else, falsy_field, or_else, length_is_zero.
  cbn [get_field bind]. rewrite Hactivities.
  destruct activities as [|a l]; [destruct i; discriminate Hactivity|].
  cbn [truthy negb bind js_length js_forEach]. intros E3.
  destruct (forEach_from_nth _ _ 0 i activity t3 E3 Hactivity) as [tx [Ex Hin]].
  cbn [Nat.add] in Ex.
  unfold check_allowed_activity in Ex.
  apply seq_returns in Ex as [ta [ta' [Ea [Ex ->]]]].
  apply seq_returns in Ex as [tb [tc [Eb [_ ->]]]].
  split.
  - intros H. apply in_or_app; right. apply in_or_app; right. apply in_or_app; left.
    apply Hin. rewrite issues_of_app. apply in_or_app. left.
    revert Ea. unfold when, falsy_field.
    destruct activity; try discriminate; cbn [get_field property bind] in *;
      rewrite ?H; cbn [negb bind]; intros [= <-]; now left.
  - intros H. apply in_or_app; right. apply in_or_app; right. apply in_or_app; left.
    apply Hin. rewrite !issues_of_app. apply in_or_app. right. apply in_or_app. left.
    revert Eb. unfold when, falsy_field, or_else, length_is_zero.
    destruct activity; try discriminate; cbn [get_field property bind] in *.
    all: destruct H as [H|H]; rewrite ?H; cbn [truthy negb bind js_length];
      try discriminate H; try (intros [= <-]; now left).
Qed.

(** ** What the command prints *)

Lemma analyze_returns (fileType : file_type) (now : Z) (data : value) (r : AnalysisResult) :
  analyze fileType now data = Returns r ->
  exists (e : evaluator) (t : trace),
    evaluate_pushes e now data = Returns t /\ r = result_of t
    /\ (fileType = Transaction <-> e = TransactionEvaluator).
Proof.
  destruct fileType; cbn [analyze].
  - unfold analyzeTransaction.
    destruct (analyzeTransaction_pushes now data) as [t|] eqn:Et; cbn [bind]; [|discriminate].
    intros [= <-]. exists TransactionEvaluator, t. repeat split; auto.
  - unfold analyzePolicy.
    destruct (analyzePolicy_pushes data) as [t|] eqn:Et; cbn [bind]; [|discriminate].
    intros [= <-]. exists PolicyEvaluator, t. repeat split; auto; discriminate.
  - unfold analyzeConfig.
    destruct (analyzeConfig_pushes data) as [t|] eqn:Et; cbn [bind]; [|discriminate].
    intros [= <-]. exists ConfigEvaluator, t. repeat split; auto; discriminate.
Qed.

Lemma policy_looks_valid_nonempty (policy : value) (text : string) :
  policy_looks_valid policy = Returns text -> nonempty text = true.
Proof.
  unfold policy_looks_valid.
  destruct (get_field policy "effect"); cbn [bind]; [|discriminate].
  destruct (get_field policy "condition") as [c|]; cbn [bind]; [|discriminate].
  destruct (to_string c); cbn [bind]; [|discriminate].
  now intros [= <-].
Qed.

Lemma suggestions_nonempty (e : evaluator) (now : Z) (document : value) :
  ensures (Forall (each_push any_text nonempty)) (evaluate_pushes e now document).
Proof.
  destruct e; cbn [evaluate_pushes].
  - ensures_by each_push_leaf.
  - unfold analyzePolicy_pushes. apply ensures_bind. intros [|].
    + rewrite analyzeSimplifiedPolicy_pushes_eq. apply ensures_closing.
      * ensures_by each_push_leaf.
      * intros t. destruct (policy_looks_valid document) as [text|] eqn:El;
          cbn [bind]; [|discriminate].
        intros [= <-]. constructor; [|constructor].
        exact (policy_looks_valid_nonempty _ _ El).
    + ensures_by each_push_leaf.
  - rewrite analyzeTransaction_pushes_eq. apply ensures_closing.
    + ensures_by each_push_leaf.
    + intros t [= <-]. repeat constructor.
Qed.

Lemma display_issues_aligned (sys : system) (verbose : bool) (t : trace) :
  aligned t -> Forall (each_push any_text nonempty) t ->
  forall shown : list string,
    display_issues sys verbose (length shown) (issues_of t) (shown ++ suggestions_of t)
    = blocks sys verbose (length shown) (combine (issues_of t) (suggestions_of t)).
Proof.
  induction 1 as [|i s t Ht IH]; intros Hne shown; [reflexivity|].
  cbn [issues_of suggestions_of combine blocks display_issues].
  inversion Hne as [|? ? _ Hne']; subst. inversion Hne' as [|? ? Hs Hne'']; subst.
  cbn [each_push] in Hs.
  assert (Hn : nth_error (shown ++ s :: suggestions_of t) (length shown) = Some s).
  { rewrite nth_error_app2, Nat.sub_diag; [reflexivity|apply Nat.le_refl]. }
  rewrite Hn. unfold nonempty in Hs. cbn [truthy]. rewrite Hs.
  specialize (IH Hne'' (shown ++ [s])).
  rewrite <- app_assoc, length_app, Nat.add_1_r in IH. cbn [app] in IH.
  rewrite IH. unfold block. rewrite <- !app_assoc. reflexivity.
Qed.

(** X13. When an evaluator's result has issues, the command prints their
    number and then, for each issue in order, its number (from 1), the issue,
    the heading of the suggested fix and the suggestion at the same
    position; in verbose mode the explanation is asked for that issue with
    that suggestion.  Issues and suggestions are as many. *)
Theorem every_issue_is_printed_with_its_fix
  (sys : system) (verbose : bool) (fileType : file_type) (now : Z) (data : value)
  (r : AnalysisResult) :
  analyze fileType now data = Returns r ->
  issues r <> [] ->
  length (issues r) = length (suggestions r)
  /\ display sys verbose fileType r
     = Stdout (Str (colors.yellow (js "\n🚨 Found "
                                   ++ index_to_string (length (issues r))
                                   ++ " potential issues:")%string))
       :: blocks sys verbose 0 (combine (issues r) (suggestions r)).
Proof.
  intros Hr Hissues.
  apply analyze_returns in Hr as [e [t [Et [-> _]]]].
  cbn [issues suggestions result_of] in *.
  pose proof (suggestions_nonempty e now data t Et) as Hne.
  assert (Hal : aligned t).
  { destruct (evaluate_pushes_shape e now data t Et) as [Hal|[[s ->] _]];
      [exact Hal | now contradiction Hissues]. }
  split; [symmetry; now apply aligned_lengths|].
  unfold display. cbn [issues suggestions result_of].
  pose proof (display_issues_aligned sys verbose t Hal Hne []) as Hd.
  cbn [length app] in Hd. rewrite Hd.
  destruct (issues_of t); [contradiction|reflexivity].
Qed.

(** X14. When an evaluator's result has no issue, the command prints
    'No issues found!' and, for a transaction request only, the next steps,
    which are the fixed text of analyzeTransaction; the suggestion that
    analyzePolicy makes for a valid simplified policy is not printed. *)
Theorem clean_result_display
  (sys : system) (verbose : bool) (fileType : file_type) (now : Z) (data : value)
  (r : AnalysisResult) :
  analyze fileType now data = Returns r ->
  issues r = [] ->
  display sys verbose fileType r
  = Stdout (Str (colors.green "✅ No issues found!"))
    :: match fileType with
       | Transaction =>
           [Stdout (Str (colors.blue (js "\n📋 Next steps:"))); Stdout (Str next_steps)]
       | _ => []
       end.
Proof.
  intros Hr Hissues. unfold display. rewrite Hissues.
  destruct fileType; cbn [analyze] in Hr.
  - unfold analyzeTransaction in Hr.
    destruct (analyzeTransaction_pushes now data) as [t|] eqn:Et; cbn [bind] in Hr;
      [|discriminate].
    injection Hr as <-. cbn [issues suggestions result_of] in *.
    rewrite analyzeTransaction_pushes_eq in Et.
    destruct (transaction_checks now data) as [t0|] eqn:E0; cbn [bind] in Et; [|discriminate].
    pose proof (transaction_checks_aligned now data t0 E0) as Hal.
    destruct (issues_of t0) eqn:Ei; cbn [bind skip] in Et; injection Et as <-.
    + rewrite (aligned_no_issue t0 Hal Ei). reflexivity.
    + rewrite issues_of_app, Ei in Hissues. discriminate Hissues.
  - destruct (suggestions r); reflexivity.
  - destruct (suggestions r); reflexivity.
Qed.

(** ** The exit status of the command *)

(** X15. The check command exits with status 0 exactly when the OpenAI
    client could be built at start-up, the file is there, can be read,
    parses, and its analysis completes; the status does not depend on whether
    issues were found.  Otherwise it exits with 1. *)
Theorem exit_status_ignores_issues
  (sys : system) (now : Z) (file : string) (verbose : bool) :
  (snd (turnkey_copilot_check sys now file verbose) = 0
   \/ snd (turnkey_copilot_check sys now file verbose) = 1)
  /\ (snd (turnkey_copilot_check sys now file verbose) = 0 <->
      new_OpenAI sys (OPENAI_API_KEY sys) = true
      /\ exists (content : string) (data : value) (result : file_type * AnalysisResult),
           access sys (resolve sys file) = true
           /\ readFile sys (resolve sys file) = Some content
           /\ parse sys content = Some data
           /\ checkConfig now data = Returns result).
Proof.
  unfold turnkey_copilot_check, openai_client.
  destruct (new_OpenAI sys (OPENAI_API_KEY sys)); cbn [snd];
    [|split; [now right|]; split; [discriminate|]; intros [H _]; discriminate H].
  unfold check_action, checkConfig_run, checkConfig.
  destruct (access sys (resolve sys file)); cbn [negb].
  - destruct (readFile sys (resolve sys file)) as [content|].
    + destruct (parse sys content) as [data|] eqn:Ep.
      * destruct (detect_file_type data) as [fileType|] eqn:Ed.
        -- destruct (analyze fileType now data) as [r|] eqn:Ea; cbn [snd].
           ++ split; [now left|]. split; [|reflexivity]. intros _.
              split; [reflexivity|].
              exists content, data, (fileType, r). repeat split; auto.
              rewrite Ed. cbn [bind]. destruct fileType; cbn [analyze] in Ea;
                rewrite Ea; reflexivity.
           ++ split; [now right|]. split; [discriminate|].
              intros [_ [c [d [res [_ [[= <-] [Hp H]]]]]]]. rewrite Ep in Hp.
              injection Hp as <-. rewrite Ed in H. cbn [bind] in H.
              destruct fileType; cbn [analyze] in Ea; rewrite Ea in H; discriminate H.
        -- cbn [snd]. split; [now right|]. split; [discriminate|].
           intros [_ [c [d [res [_ [[= <-] [Hp H]]]]]]]. rewrite Ep in Hp.
           injection Hp as <-. rewrite Ed in H. discriminate H.
      * cbn [snd]. split; [now right|]. split; [discriminate|].
        intros [_ [c [d [res [_ [[= <-] [Hp _]]]]]]]. rewrite Ep in Hp. discriminate Hp.
    + cbn [snd]. split; [now right|]. split; [discriminate|].
      intros [_ [c [d [res [_ [H _]]]]]]. discriminate H.
  - cbn [snd]. split; [now right|]. split; [discriminate|].
    intros [_ [c [d [res [H _]]]]]. discriminate H.
Qed.

(** X16. A run of the check command that exits with status 1 has printed
    no finding.  Either the OpenAI client could not be built at start-up and
    the program has printed nothing, not even the banner; or the console
    holds the banner, at most the line that tells the detected type, and one
    error line. *)
Theorem failed_run_prints_no_finding
  (sys : system) (now : Z) (file : string) (verbose : bool) :
  snd (turnkey_copilot_check sys now file verbose) = 1 ->
  (new_OpenAI sys (OPENAI_API_KEY sys) = false
   /\ fst (turnkey_copilot_check sys now file verbose) = [])
  \/ (new_OpenAI sys (OPENAI_API_KEY sys) = true
      /\ exists error : caught,
           fst (turnkey_copilot_check sys now file verbose)
           = [banner; Stderr (colors.red "Error:") error]
           \/ exists fileType : file_type,
               fst (turnkey_copilot_check sys now file verbose)
               = [banner; Stdout (Str (detected fileType));
                  Stderr (colors.red "Error:") error]).
Proof.
  unfold turnkey_copilot_check, openai_client.
  destruct (new_OpenAI sys (OPENAI_API_KEY sys)); [|intros _; left; now split].
  intros Hstatus. right. split; [reflexivity|]. revert Hstatus.
  unfold check_action, checkConfig_run.
  destruct (access sys (resolve sys file)); cbn [negb];
    [|intros _; eexists; left; reflexivity].
  destruct (readFile sys (resolve sys file)) as [content|];
    [|intros _; eexists; left; reflexivity].
  destruct (parse sys content) as [data|]; [|intros _; eexists; left; reflexivity].
  destruct (detect_file_type data) as [fileType|]; [|intros _; eexists; left; reflexivity].
  destruct (analyze fileType now data); cbn [fst snd app]; [discriminate|].
  intros _. eexists. right. exists fileType. reflexivity.
Qed.

(** ** Explanations *)

(** X17. generateExplanation always resolves to a truthy value, so an
    explanation is never empty or undefined; it writes at most one error
    line, and when it writes one it resolves to the text that reports the
    failure. *)
Theorem generateExplanation_always_answers
  (sys : system) (issue : string) (suggestion : option string) :
  truthy (fst (generateExplanation sys issue suggestion)) = true
  /\ (snd (generateExplanation sys issue suggestion) = []
      \/ fst (generateExplanation sys issue suggestion) = Str failed_to_generate
         /\ exists error : caught,
             snd (generateExplanation sys issue suggestion)
             = [Stderr "Error generating explanation:" error]).
Proof.
  unfold generateExplanation.
  destruct (OPENAI_API_KEY sys) as [[|c key]|]; cbn [fst snd];
    try (split; [reflexivity | now left]).
  destruct (create sys _) as [response|]; cbn [fst snd].
  - destruct (first_content response) as [content|e]; cbn [fst snd].
    + split; [|now left]. destruct (truthy content) eqn:Et; [exact Et|reflexivity].
    + split; [reflexivity|]. right. split; [reflexivity|]. now eexists.
  - split; [reflexivity|]. right. split; [reflexivity|]. now eexists.
Qed.

(** X18. With an API key set and a completion that answers an object:
    the content of the first choice is returned when it is a non-empty
    string; an empty list of choices gives 'Unable to generate explanation.'
    without an error; and a response without choices makes the reading of
    choices[0] throw, which is logged and gives the failure text. *)
Theorem generateExplanation_reads_first_choice
  (sys : system) (issue key : string) (suggestion : option string)
  (response : list (string * value)) :
  OPENAI_API_KEY sys = Some key ->
  key <> EmptyString ->
  create sys (completion_request (explanation_prompt issue suggestion))
  = Some (Object response) ->
  (forall (choice message : list (string * value)) (rest : list value) (content : string),
     field response "choices" = Array (Object choice :: rest) ->
     field choice "message" = Object message ->
     field message "content" = Str content ->
     content <> EmptyString ->
     generateExplanation sys issue suggestion = (Str content, []))
  /\ (field response "choices" = Array [] ->
      generateExplanation sys issue suggestion = (Str unable_to_generate, []))
  /\ (field response "choices" = Undefined ->
      generateExplanation sys issue suggestion
      = (Str failed_to_generate,
         [Stderr "Error generating explanation:" (Raised TypeError)])).
Proof.
  intros Hkey Hne Hcreate. unfold generateExplanation. rewrite Hkey, Hcreate.
  destruct key as [|c key]; [contradiction|].
  unfold first_content. cbn [get_field bind].
  split; [|split].
  - intros choice message rest content Hchoices Hmessage Hcontent Hc.
    rewrite Hchoices. cbn [js_first bind optional_field get_field].
    rewrite Hmessage. cbn [optional_field get_field]. rewrite Hcontent.
    now rewrite (truthy_nonempty _ Hc).
  - intros ->. reflexivity.
  - intros ->. reflexivity.
Qed.

(** ** Edge values of required_approvals and effect *)

Ltac never issue t E :=
  assert (~ In issue (issues_of t)) by elsewhere E.

(** X19. On a structured policy, 'Missing required_approvals field' is
    reported exactly when required_approvals is undefined; a number is
    reported as 'must be at least 1' exactly when it is below 1, and null is
    reported so too, not as missing. *)
Theorem required_approvals_issues (p : list (string * value)) (r : AnalysisResult) :
  simplified_shape p = false ->
  analyzePolicy (Object p) = Returns r ->
  (In "Missing required_approvals field" (issues r) <->
   field p "required_approvals" = Undefined)
  /\ (forall n : number,
        field p "required_approvals" = Number n ->
        (In "required_approvals must be at least 1" (issues r) <->
         number_ltb n (number_of_Z 1) = true))
  /\ (field p "required_approvals" = Null ->
      In "required_approvals must be at least 1" (issues r)).
Proof.
  intros Hshape Hr.
  apply structured_policy_returns in Hr as [t1 [t2 [t3 [t4 [E1 [E2 [E3 [E4 ->]]]]]]]];
    [|exact Hshape].
  cbn [issues result_of]. rewrite !issues_of_app.
  never "Missing required_approvals field" t2 E2.
  never "Missing required_approvals field" t3 E3.
  never "Missing required_approvals field" t4 E4.
  never "required_approvals must be at least 1" t2 E2.
  never "required_approvals must be at least 1" t3 E3.
  never "required_approvals must be at least 1" t4 E4.
  assert (Hfirst : (In "Missing required_approvals field" (issues_of t1) <->
                field p "required_approvals" = Undefined)
               /\ (forall n : number,
                     field p "required_approvals" = Number n ->
                     (In "required_approvals must be at least 1" (issues_of t1) <->
                      number_ltb n (number_of_Z 1) = true))
               /\ (field p "required_approvals" = Null ->
                   In "required_approvals must be at least 1" (issues_of t1))).
  { revert E1. unfold check_required_approvals, if_else, when, js_lt. cbn [get_field bind].
    destruct (field p "required_approvals") as [| |b|n|s|l|q];
      cbn [is_undefined bind to_number].
    - intros [= <-]. cbn [issues_of In]. repeat split; try discriminate; auto.
    - intros [= <-]. cbn [issues_of In]. repeat split; try discriminate; auto.
      intros [Hx|[]]; discriminate Hx.
    - destruct (number_ltb _ _); intros [= <-]; cbn [issues_of In];
        repeat split; try discriminate; try (intros [Hx|[]]; discriminate Hx); intros [].
    - destruct (number_ltb n (number_of_Z 1)) eqn:En; intros [= <-]; cbn [issues_of In].
      + split; [split; [intros [Hx|[]]; discriminate Hx | discriminate]|].
        split; [|discriminate]. intros m [= <-]. rewrite En. split; [reflexivity|now left].
      + split; [split; [intros [] | discriminate]|].
        split; [|discriminate]. intros m [= <-]. rewrite En. split; [intros []|discriminate].
    - destruct (number_ltb _ _); intros [= <-]; cbn [issues_of In];
        repeat split; try discriminate; try (intros [Hx|[]]; discriminate Hx); intros [].
    - destruct (to_string (Array l)); cbn [bind]; [|discriminate].
      destruct (number_ltb _ _); intros [= <-]; cbn [issues_of In];
        repeat split; try discriminate; try (intros [Hx|[]]; discriminate Hx); intros [].
    - destruct (to_string (Object q)); cbn [bind]; [|discriminate].
      destruct (number_ltb _ _); intros [= <-]; cbn [issues_of In];
        repeat split; try discriminate; try (intros [Hx|[]]; discriminate Hx); intros []. }
  destruct Hfirst as [Ha [Hb Hc]].
  split; [rewrite !in_app_iff; tauto|]. split.
  - intros n Hn. specialize (Hb n Hn). rewrite !in_app_iff. tauto.
  - intros Hn. specialize (Hc Hn). rewrite !in_app_iff. tauto.
Qed.

Lemma starts_with_app (a b : string) : starts_with a (a ++ b) = true.
Proof.
  induction a as [|c a IH]; cbn [starts_with String.append]; [reflexivity|].
  now rewrite Ascii.eqb_refl, IH.
Qed.

(** X20. On a simplified policy whose effect is a string, the issue
    'Invalid effect value: ' followed by that string is reported exactly when
    the string is not empty and is neither EFFECT_ALLOW nor EFFECT_DENY, in
    these exact letters. *)
Theorem invalid_effect_issue_iff
  (p : list (string * value)) (effect : string) (r : AnalysisResult) :
  simplified_shape p = true ->
  field p "effect" = Str effect ->
  analyzePolicy (Object p) = Returns r ->
  In ("Invalid effect value: " ++ effect)%string (issues r) <->
  effect <> EmptyString /\ effect <> "EFFECT_ALLOW" /\ effect <> "EFFECT_DENY".
Proof.
  intros Hshape Heffect. unfold analyzePolicy, analyzePolicy_pushes.
  rewrite is_simplified_policy_object, Hshape. cbn [bind].
  destruct (analyzeSimplifiedPolicy_pushes (Object p)) as [t|] eqn:Et;
    cbn [bind]; [|discriminate].
  intros [= <-]. cbn [issues result_of].
  rewrite analyzeSimplifiedPolicy_pushes_eq in Et.
  apply issues_of_closing in Et as [t0 [E0 ->]].
  2:{ intros last. destruct (policy_looks_valid (Object p)); cbn [bind]; [|discriminate].
      now intros [= <-]. }
  unfold simplified_policy_checks in E0.
  apply seq_returns in E0 as [t1 [t1' [E1 [E0 ->]]]].
  apply seq_returns in E0 as [t2 [t3 [E2 [E3 ->]]]].
  rewrite !issues_of_app, !in_app_iff.
  assert (Hother : forall (s : stmt) (t' : trace),
             ensures (Forall (each_push not_invalid_effect any_text)) s ->
             s = Returns t' ->
             ~ In ("Invalid effect value: " ++ effect)%string (issues_of t')).
  { intros s t' Hs E Hin. specialize (Hs t' E). apply each_push_issues in Hs.
    rewrite Forall_forall in Hs. apply Hs in Hin. unfold not_invalid_effect in Hin.
    change "Invalid effect value" with ("Invalid effect value" ++ "")%string in Hin.
    change ("Invalid effect value: " ++ effect)%string
      with ("Invalid effect value" ++ ": " ++ effect)%string in Hin.
    rewrite starts_with_app in Hin. discriminate Hin. }
  assert (N1 : ~ In ("Invalid effect value: " ++ effect)%string (issues_of t1))
    by (eapply Hother; [|exact E1]; ensures_by each_push_leaf).
  assert (N3 : ~ In ("Invalid effect value: " ++ effect)%string (issues_of t3))
    by (eapply Hother; [|exact E3]; ensures_by each_push_leaf).
  assert (H2 : In ("Invalid effect value: " ++ effect)%string (issues_of t2) <->
               effect <> EmptyString /\ effect <> "EFFECT_ALLOW" /\ effect <> "EFFECT_DENY").
  { revert E2. unfold check_effect, if_else, when, falsy_field. cbn [get_field bind].
    rewrite Heffect. cbn [strict_eq_string to_string bind].
    destruct (truthy (Str effect)) eqn:Ht; cbn [negb bind].
    - apply truthy_string in Ht.
      destruct (String.eqb_spec effect "EFFECT_ALLOW") as [Ha|Ha]; cbn [negb andb].
      + intros [= <-]. cbn [issues_of In]. split; [tauto|]. intros [_ [H _]]. contradiction.
      + destruct (String.eqb_spec effect "EFFECT_DENY") as [Hd|Hd]; cbn [negb].
        * intros [= <-]. cbn [issues_of In]. split; [tauto|]. intros [_ [_ H]]. contradiction.
        * intros [= <-]. cbn [issues_of In]. split; auto.
    - intros [= <-]. cbn [issues_of In]. split; [intros [H|[]]; discriminate H|].
      intros [H _]. apply truthy_string in H. rewrite H in Ht. discriminate Ht. }
  tauto.
Qed.

End Engine.

(** * Worked examples

    The properties at concrete documents, on the host that prints integers
    in decimal. *)

Local Abbreviation nts := decimal_number_to_string.
Local Abbreviation stn := decimal_string_to_number.

(** analyzeTransaction pushes a suggestion that holds the reading of the
    clock: two invocations on one document, at two instants, return the same
    issues and different suggestions. *)
Lemma analyzeTransaction_suggestions_follow_clock :
  exists r1 r2 : AnalysisResult,
    evaluate nts stn TransactionEvaluator 1000 (Object request_without_timestamp) = Returns r1
    /\ evaluate nts stn TransactionEvaluator 2000 (Object request_without_timestamp) = Returns r2
    /\ issues r1 = ["Missing timestampMs field"]
    /\ issues r2 = ["Missing timestampMs field"]
    /\ suggestions r1 <> suggestions r2.
Proof.
  eexists. eexists.
  split; [vm_compute; reflexivity|]. split; [vm_compute; reflexivity|].
  split; [reflexivity|]. split; [reflexivity|].
  cbn [suggestions]. intros H. discriminate H.
Qed.

Lemma evaluators_deterministic_up_to_clock_witness :
  evaluate nts stn TransactionEvaluator 1000 (Object request_without_parameters)
  = evaluate nts stn TransactionEvaluator 2000 (Object request_without_parameters).
Proof.
  exact (proj2 (evaluators_deterministic_up_to_clock nts stn TransactionEvaluator 1000 2000
                  (Object request_without_parameters))
               (or_intror (or_intror eq_refl))).
Defined.

(** A field of the wrong type makes each evaluator throw. *)
Lemma malformed_documents_make_evaluators_throw :
  analyzeConfig nts stn (Object config_with_numeric_base_url) = Throws TypeError
  /\ analyzePolicy nts stn (Object policy_with_numeric_condition) = Throws TypeError
  /\ analyzeTransaction nts 1000 (Object request_with_numeric_signWith) = Throws TypeError.
Proof. repeat split; vm_compute; reflexivity. Qed.

Lemma well_typed_documents_are_evaluated_witness :
  exists r : AnalysisResult,
    evaluate nts stn ConfigEvaluator 1000 (Object [("wallet_id", Str "test-wallet")])
    = Returns r
    /\ In "Missing organization ID (org_id)" (issues r).
Proof.
  destruct (well_typed_documents_are_evaluated nts stn ConfigEvaluator 1000
              [("wallet_id", Str "test-wallet")] eq_refl) as [r [Er Hr]].
  exists r. split; [exact Er|].
  apply (Hr "org_id"); [now left | reflexivity].
Defined.

(** A document that is a number, null or a string is not classified: the
    first test of the command throws. *)
Lemma scalar_documents_are_not_classified :
  detect_file_type (Number (number_of_Z 42)) = Throws TypeError
  /\ detect_file_type Null = Throws TypeError
  /\ detect_file_type (Str "config") = Throws TypeError.
Proof. repeat split; reflexivity. Qed.

Lemma simplified_policy_skips_structured_checks_witness :
  analyzePolicy nts stn (Object simplified_policy_with_approvals)
  = analyzeSimplifiedPolicy nts (Object simplified_policy_with_approvals).
Proof.
  exact (proj1 (simplified_policy_skips_structured_checks nts stn
                  simplified_policy_with_approvals eq_refl)).
Defined.

Lemma valid_config_has_no_findings_witness :
  analyzeConfig nts stn (Object valid_config)
  = Returns {| issues := []; suggestions := [] |}.
Proof.
  apply (valid_config_has_no_findings nts stn valid_config
           "test-org" "test-wallet" "TK1234567890"
           "this-is-a-long-enough-private-key-for-testing" "https://api.turnkey.com");
    try reflexivity; try discriminate; simpl; lia.
Defined.

Lemma sign_with_intent_checks_first_match_only_witness :
  sign_with_intent_issue policy_with_two_intents = None
  /\ exists r : AnalysisResult,
       analyzePolicy nts stn (Object policy_with_two_intents) = Returns r
       /\ (In "SIGN_WITH_INTENT activity is missing parameters" (issues r) <->
           sign_with_intent_issue policy_with_two_intents
           = Some "SIGN_WITH_INTENT activity is missing parameters").
Proof.
  split; [reflexivity|]. eexists. split; [vm_compute; reflexivity|].
  exact (proj1 (sign_with_intent_checks_first_match_only nts stn
                  policy_with_two_intents eq_refl)
               _ eq_refl "SIGN_WITH_INTENT activity is missing parameters" eq_refl).
Defined.

Lemma missing_parameters_skips_subfield_checks_witness :
  exists r : AnalysisResult,
    analyzeTransaction nts 1000 (Object request_without_parameters) = Returns r
    /\ count_occ string_dec (issues r) "Missing parameters object" = 1
    /\ Forall (fun i => subfield_issue i = false) (issues r)
    /\ Forall (fun s => subfield_suggestion s = false) (suggestions r).
Proof.
  eexists. split; [vm_compute; reflexivity|].
  exact (proj1 (proj2 (missing_parameters_skips_subfield_checks nts 1000
                         request_without_parameters eq_refl))
               _ eq_refl).
Defined.

Lemma suggestions_pair_with_issues_witness :
  exists r : AnalysisResult,
    evaluate nts stn PolicyEvaluator 1000 (Object policy_with_zero_approvals) = Returns r
    /\ length (issues r) <= length (suggestions r).
Proof.
  eexists. split; [vm_compute; reflexivity|].
  exact (proj1 (suggestions_pair_with_issues nts stn PolicyEvaluator 1000
                  (Object policy_with_zero_approvals) _ eq_refl)).
Defined.

Lemma empty_string_is_reported_missing_witness :
  exists r : AnalysisResult,
    analyzeConfig nts stn (Object config_with_empty_org_id) = Returns r
    /\ In "Missing organization ID (org_id)" (issues r).
Proof.
  eexists. split; [vm_compute; reflexivity|].
  exact (proj1 (proj1 (empty_string_is_reported_missing nts stn)
                      config_with_empty_org_id eq_refl)
               _ eq_refl).
Defined.

Lemma unsupported_transaction_type_unreachable_witness :
  exists (fileType : file_type) (r : AnalysisResult),
    checkConfig nts stn 1000 (Object request_without_timestamp) = Returns (fileType, r)
    /\ check_type nts (Object request_without_timestamp) = skip
    /\ Forall (fun i => starts_with "Unsupported transaction type" i = false) (issues r).
Proof.
  eexists. eexists. split; [vm_compute; reflexivity|]. split.
  - exact (proj2 (proj1 (unsupported_transaction_type_unreachable nts stn 1000
                           (Object request_without_timestamp)) eq_refl)).
  - exact (proj2 (unsupported_transaction_type_unreachable nts stn 1000
                    (Object request_without_timestamp)) _ _ eq_refl).
Defined.

(** ** The tests of tests/check.test.ts *)

Example should_detect_missing_org_id :
  exists r : AnalysisResult,
    analyzeConfig nts stn
      (Object [("wallet_id", Str "test-wallet");
               ("api_public_key", Str "test-key");
               ("api_private_key", Str "test-private-key");
               ("base_url", Str "https://api.turnkey.com")]) = Returns r
    /\ In "Missing organization ID (org_id)" (issues r)
    /\ 0 < length (suggestions r).
Proof.
  eexists. split; [vm_compute; reflexivity|]. split; [now left | simpl; lia].
Qed.

Example should_detect_insecure_base_url :
  exists r : AnalysisResult,
    analyzeConfig nts stn
      (Object [("org_id", Str "test-org");
               ("wallet_id", Str "test-wallet");
               ("api_public_key", Str "test-key");
               ("api_private_key", Str "test-private-key");
               ("base_url", Str "http://api.turnkey.com")]) = Returns r
    /\ In "Base URL should use HTTPS for security" (issues r)
    /\ Exists (fun s => string_includes "https://api.turnkey.com" s = true)
               (suggestions r).
Proof.
  eexists. split; [vm_compute; reflexivity|]. split.
  - right. now left.
  - apply Exists_cons_tl, Exists_cons_hd. vm_compute. reflexivity.
Qed.

Example should_detect_invalid_required_approvals :
  exists r : AnalysisResult,
    analyzePolicy nts stn (Object policy_with_zero_approvals) = Returns r
    /\ In "required_approvals must be at least 1" (issues r)
    /\ 0 < length (suggestions r).
Proof.
  eexists. split; [vm_compute; reflexivity|]. split; [now left | simpl; lia].
Qed.

Example should_detect_missing_key_id :
  exists r : AnalysisResult,
    analyzePolicy nts stn
      (Object [("required_approvals", Number (number_of_Z 1));
               ("signing_keys",
                Array [Object [("name", Str "Test Key");
                               ("public_key", Str "test-public-key");
                               ("algorithm", Str "ECDSA_SECP256K1")]]);
               ("allowed_activities",
                Array [Object [("type", Str "SIGN_WITH_INTENT");
                               ("resources", Array [Str "*"])]])]) = Returns r
    /\ In "Signing key at index 0 is missing key_id" (issues r)
    /\ 0 < length (suggestions r).
Proof.
  eexists. split; [vm_compute; reflexivity|]. split; [now left | simpl; lia].
Qed.

Example should_pass_with_valid_policy :
  analyzePolicy nts stn
    (Object [("required_approvals", Number (number_of_Z 1));
             ("signing_keys", Array [test_key]);
             ("allowed_activities",
              Array [Object [("type", Str "SIGN_WITH_INTENT");
                             ("resources", Array [Str "*"]);
                             ("parameters",
                              Object [("intent_action", Str "eth_signTypedData_v4");
                                      ("intent_version", Str "1")])]])])
  = Returns {| issues := []; suggestions := [] |}.
Proof. vm_compute. reflexivity. Qed.

(** ** Further worked examples *)

Lemma analyzeConfig_issues_in_order_witness :
  exists r : AnalysisResult,
    analyzeConfig nts stn (Object config_with_weak_keys) = Returns r
    /\ in_order config_slots (issues r) /\ length (issues r) <= 6.
Proof.
  eexists. split; [vm_compute; reflexivity|].
  exact (analyzeConfig_issues_in_order nts stn (Object config_with_weak_keys) _ eq_refl).
Defined.

Lemma analyzeTransaction_issues_in_order_witness :
  exists r : AnalysisResult,
    analyzeTransaction nts 1000 (Object request_without_timestamp) = Returns r
    /\ in_order transaction_slots (issues r) /\ length (issues r) <= 6.
Proof.
  eexists. split; [vm_compute; reflexivity|].
  exact (analyzeTransaction_issues_in_order nts 1000 (Object request_without_timestamp)
           _ eq_refl).
Defined.

Lemma analyzeSimplifiedPolicy_issues_in_order_witness :
  exists r : AnalysisResult,
    analyzeSimplifiedPolicy nts (Object simplified_policy_with_empty_effect) = Returns r
    /\ in_order simplified_policy_slots (issues r) /\ length (issues r) <= 4.
Proof.
  eexists. split; [vm_compute; reflexivity|].
  exact (analyzeSimplifiedPolicy_issues_in_order nts
           (Object simplified_policy_with_empty_effect) _ eq_refl).
Defined.

Lemma valid_transaction_gets_next_steps_witness :
  analyzeTransaction nts 1000 (Object valid_request)
  = Returns {| issues := []; suggestions := [next_steps] |}.
Proof.
  refine (valid_transaction_gets_next_steps nts 1000 valid_request
            [("type", Str "TRANSACTION_TYPE_ETHEREUM");
             ("signWith", Str "0x52908400098527886E0F7030069857D2E4169EE7");
             ("unsignedTransaction", Str "0x02f86b0180")]
            "TRANSACTION_TYPE_ETHEREUM" "0x52908400098527886E0F7030069857D2E4169EE7"
            "0x02f86b0180"
            eq_refl eq_refl eq_refl eq_refl eq_refl (or_introl eq_refl) eq_refl _
            (fun _ => conj eq_refl eq_refl) eq_refl eq_refl).
  discriminate.
Defined.

Lemma valid_simplified_policy_looks_valid_witness :
  exists text : string,
    analyzePolicy nts stn (Object simplified_policy_with_approvals)
    = Returns {| issues := []; suggestions := [text] |}
    /\ string_includes "1. This policy will allow transactions" text = true
    /\ string_includes "solana.tx.transfers.all(transfer, transfer.from == 'address')" text
       = true.
Proof.
  refine (valid_simplified_policy_looks_valid nts stn simplified_policy_with_approvals
            "EFFECT_ALLOW" "solana.tx.transfers.all(transfer, transfer.from == 'address')"
            eq_refl eq_refl eq_refl (or_introl eq_refl) eq_refl _ eq_refl
            (fun _ => or_introl eq_refl)).
  discriminate.
Defined.

Lemma complete_structured_policy_has_no_findings_witness :
  analyzePolicy nts stn (Object policy_with_two_intents)
  = Returns {| issues := []; suggestions := [] |}.
Proof.
  refine (complete_structured_policy_has_no_findings nts stn policy_with_two_intents
            (number_of_Z 1) [test_key] _
            eq_refl eq_refl eq_refl eq_refl _ eq_refl eq_refl _ eq_refl eq_refl);
    discriminate.
Defined.

Lemma ethereum_address_issue_iff_witness :
  exists r : AnalysisResult,
    analyzeTransaction nts 1000 (Object request_with_short_address) = Returns r
    /\ In "Invalid Ethereum address format" (issues r).
Proof.
  eexists. split; [vm_compute; reflexivity|].
  apply (proj2 (ethereum_address_issue_iff nts 1000 request_with_short_address _ eq_refl)).
  exists [("type", Str "TRANSACTION_TYPE_ETHEREUM");
          ("signWith", Str "0x1234");
          ("unsignedTransaction", Str "0x02f86b0180")], "0x1234".
  repeat split; try reflexivity; [discriminate | right; discriminate].
Defined.

Lemma short_private_key_issue_iff_witness :
  exists r : AnalysisResult,
    analyzeConfig nts stn (Object config_with_weak_keys) = Returns r
    /\ In "API private key appears to be invalid or too short" (issues r).
Proof.
  eexists. split; [vm_compute; reflexivity|].
  apply (proj2 (short_private_key_issue_iff nts stn config_with_weak_keys
                  "test-private-key" _ eq_refl eq_refl)).
  repeat split; [discriminate | simpl; lia].
Defined.

Lemma insecure_base_url_issue_iff_witness :
  exists r : AnalysisResult,
    analyzeConfig nts stn (Object config_with_weak_keys) = Returns r
    /\ In "Base URL should use HTTPS for security" (issues r)
    /\ In (js "Update the base URL to use HTTPS:\n```json\n{\n  \x22base_url\x22: \x22https://api.turnkey.com\x22,\n  ...\n}\n```")
          (suggestions r).
Proof.
  eexists. split; [vm_compute; reflexivity|].
  split.
  - apply (proj1 (insecure_base_url_issue_iff nts stn config_with_weak_keys
                    "http://api.turnkey.com" _ eq_refl eq_refl)).
    split; [discriminate | reflexivity].
  - apply (proj2 (insecure_base_url_issue_iff nts stn config_with_weak_keys
                    "http://api.turnkey.com" _ eq_refl eq_refl)).
    apply (proj1 (insecure_base_url_issue_iff nts stn config_with_weak_keys
                    "http://api.turnkey.com" _ eq_refl eq_refl)).
    split; [discriminate | reflexivity].
Defined.

Lemma public_key_format_issue_iff_witness :
  exists r : AnalysisResult,
    analyzeConfig nts stn (Object config_with_weak_keys) = Returns r
    /\ In "API public key format appears invalid (might cause 401 errors)" (issues r).
Proof.
  eexists. split; [vm_compute; reflexivity|].
  apply (proj2 (public_key_format_issue_iff nts stn config_with_weak_keys
                  "test-key" _ eq_refl eq_refl)).
  repeat split; [discriminate | now left].
Defined.

Lemma incomplete_signing_key_reported_at_its_index_witness :
  exists r : AnalysisResult,
    analyzePolicy nts stn (Object policy_with_incomplete_entries) = Returns r
    /\ In "Signing key at index 1 is missing key_id" (issues r).
Proof.
  eexists. split; [vm_compute; reflexivity|].
  exact (proj1 (incomplete_signing_key_reported_at_its_index nts stn
                  policy_with_incomplete_entries
                  [test_key; Object [("public_key", Str "test-public-key")]] 1
                  (Object [("public_key", Str "test-public-key")]) _
                  eq_refl eq_refl eq_refl eq_refl)
               eq_refl).
Defined.

Lemma incomplete_activity_reported_at_its_index_witness :
  exists r : AnalysisResult,
    analyzePolicy nts stn (Object policy_with_incomplete_entries) = Returns r
    /\ In "Allowed activity at index 1 has no resources defined" (issues r).
Proof.
  eexists. split; [vm_compute; reflexivity|].
  exact (proj2 (incomplete_activity_reported_at_its_index nts stn
                  policy_with_incomplete_entries
                  [Object [("type", Str "SIGN_TRANSACTION"); ("resources", Array [Str "*"])];
                   Object [("type", Str "SIGN_TRANSACTION"); ("resources", Array [])]] 1
                  (Object [("type", Str "SIGN_TRANSACTION"); ("resources", Array [])]) _
                  eq_refl eq_refl eq_refl eq_refl)
               (or_intror eq_refl)).
Defined.

Lemma every_issue_is_printed_with_its_fix_witness :
  exists r : AnalysisResult,
    analyze nts stn Policy 1000 (Object policy_with_zero_approvals) = Returns r
    /\ length (issues r) = length (suggestions r)
    /\ display nts (example_system (Some "sk-test") None) true Policy r
       = Stdout (Str (colors.yellow (js "\n🚨 Found "
                                     ++ index_to_string nts (length (issues r))
                                     ++ " potential issues:")%string))
         :: blocks nts (example_system (Some "sk-test") None) true 0
              (combine (issues r) (suggestions r)).
Proof.
  eexists. split; [vm_compute; reflexivity|].
  refine (every_issue_is_printed_with_its_fix nts stn (example_system (Some "sk-test") None) true
            Policy 1000 (Object policy_with_zero_approvals) _ eq_refl _).
  discriminate.
Defined.

Lemma clean_result_display_witness :
  exists r : AnalysisResult,
    analyze nts stn Transaction 1000 (Object valid_request) = Returns r
    /\ display nts (example_system (Some "sk-test") None) false Transaction r
       = [Stdout (Str (colors.green "✅ No issues found!"));
          Stdout (Str (colors.blue (js "\n📋 Next steps:")));
          Stdout (Str next_steps)].
Proof.
  eexists. split; [vm_compute; reflexivity|].
  exact (clean_result_display nts stn (example_system (Some "sk-test") None) false Transaction 1000
           (Object valid_request) _ eq_refl eq_refl).
Defined.

(** The key is set and config.json is not on the disk. *)
Lemma failed_run_prints_no_finding_witness :
  let sys := example_system (Some "sk-test") None in
  (new_OpenAI sys (OPENAI_API_KEY sys) = false
   /\ fst (turnkey_copilot_check nts stn sys 1000 "config.json" false) = [])
  \/ (new_OpenAI sys (OPENAI_API_KEY sys) = true
      /\ exists error : caught,
           fst (turnkey_copilot_check nts stn sys 1000 "config.json" false)
           = [banner; Stderr (colors.red "Error:") error]
           \/ exists fileType : file_type,
               fst (turnkey_copilot_check nts stn sys 1000 "config.json" false)
               = [banner; Stdout (Str (detected fileType));
                  Stderr (colors.red "Error:") error]).
Proof.
  exact (failed_run_prints_no_finding nts stn (example_system (Some "sk-test") None)
           1000 "config.json" false eq_refl).
Defined.

Lemma generateExplanation_reads_first_choice_witness :
  generateExplanation (example_system (Some "sk-test") (Some example_completion))
    "Missing policyName field" (Some "Add a descriptive policy name")
  = (Str "The field is required.", []).
Proof.
  refine (proj1 (generateExplanation_reads_first_choice
                   (example_system (Some "sk-test") (Some example_completion))
                   "Missing policyName field" "sk-test"
                   (Some "Add a descriptive policy name") _ eq_refl _ eq_refl)
                _ _ _ _ eq_refl eq_refl eq_refl _);
    discriminate.
Defined.

Lemma required_approvals_issues_witness :
  exists r : AnalysisResult,
    analyzePolicy nts stn (Object policy_with_zero_approvals) = Returns r
    /\ In "required_approvals must be at least 1" (issues r)
    /\ ~ In "Missing required_approvals field" (issues r).
Proof.
  eexists. split; [vm_compute; reflexivity|].
  pose proof (required_approvals_issues nts stn policy_with_zero_approvals _
                eq_refl eq_refl) as [Hmissing [Hbelow _]].
  split.
  - exact (proj2 (Hbelow (number_of_Z 0) eq_refl) eq_refl).
  - intros Hin. apply Hmissing in Hin. discriminate Hin.
Defined.

Lemma invalid_effect_issue_iff_witness :
  exists r : AnalysisResult,
    analyzePolicy nts stn (Object simplified_policy_with_lowercase_effect) = Returns r
    /\ In "Invalid effect value: effect_allow" (issues r).
Proof.
  eexists. split; [vm_compute; reflexivity|].
  apply (proj2 (invalid_effect_issue_iff nts stn simplified_policy_with_lowercase_effect
                  "effect_allow" _ eq_refl eq_refl eq_refl)).
  repeat split; discriminate.
Defined.
